(** * The file-backed authentication and session manager

    A shallow embedding of [src/auth_manager.py] (class
    [AuthenticationManager] and the route guards [require_auth] and
    [require_role]) and of the authentication endpoints of [web/app.py],
    together with the properties the specification states about the
    manager and further properties read off the code.

    Conventions of the embedding.
    - A Python [str] is the Rocq string of the bytes of its UTF-8
      encoding, which is what a string literal of this file holds; so
      [s.encode()] is [s] itself, and a string that is not valid UTF-8
      stands for no text. [str.lower] is the ASCII case fold;
      [str.strip] removes every character Python counts as a blank, the
      ones encoded on two and three bytes included.
    - A naive [datetime] is an integer count of microseconds on the local
      time line; [timedelta(hours=h)] is [h * 3600 * 10^6] of them. A
      timestamp field kept in a JSON record is a string, which either is
      the ISO rendering of a datetime or is not ([pytime]).
    - A Python [dict] is an association list in insertion order; item
      assignment replaces in place or appends, [del] removes. The lemmas
      hold for every list; a real dictionary is one without repeated
      keys.
    - JSON records are typed: a users file that parses is a mapping from
      identifiers to user records, a sessions file one to session records,
      and each field of a record is either missing or of its expected
      type. A timestamp that is there but is not ISO text is [NotIso].
    - The three backing files are the mutable state. A file is missing,
      unreadable, or holds a value; a write always goes through. Every
      operation is a computation [M A] that threads the files and may
      raise; [print] is not modelled.
    - Every reading of the clock ([datetime.now()], [time.time()]) and
      every random draw ([secrets.token_urlsafe], [uuid.uuid4]) is an
      explicit argument of the operation that makes it, in program order.
    - [hashlib.sha256(s.encode()).hexdigest()] is a parameter
      [sha256_hexdigest] of the operations that hash; [SHA256.hexdigest]
      is the function itself, for the statements that depend on it. *)

From Stdlib Require Import ZArith List String Ascii Bool Lia.
From Stdlib Require DecimalString.
Import ListNotations.
Open Scope string_scope.
Open Scope Z_scope.

Set Implicit Arguments.

(** ** Strings *)

Module PyStr.

(** [c.lower()] for one ASCII character. *)
Definition lower_ascii (c : ascii) : ascii :=
  let n := nat_of_ascii c in
  if (Nat.leb 65 n && Nat.leb n 90)%bool then ascii_of_nat (n + 32) else c.

(** [s.lower()] *)
Fixpoint lower (s : string) : string :=
  match s with
  | EmptyString => EmptyString
  | String c r => String (lower_ascii c) (lower r)
  end.

(** [str(n)] for an integer [n], as used by an f-string. *)
Definition of_Z (n : Z) : string :=
  DecimalString.NilZero.string_of_int (Z.to_int n).

(** [s.startswith(p)] *)
Fixpoint startswith (s p : string) {struct p} : bool :=
  match p, s with
  | EmptyString, _ => true
  | String a p', String b s' => Ascii.eqb a b && startswith s' p'
  | String _ _, EmptyString => false
  end.

(** [not s] for a string: only the empty string is falsy. *)
Definition falsy (s : string) : bool :=
  match s with EmptyString => true | _ => false end.

(** [c.isspace()] for one ASCII character: tab to carriage return, the
    four separators 28 to 31, and the space. *)
Definition isspace (c : ascii) : bool :=
  let n := nat_of_ascii c in
  ((Nat.leb 9 n && Nat.leb n 13) || (Nat.leb 28 n && Nat.leb n 32))%bool.

(** The two blanks encoded on two bytes: U+0085 (C2 85) and U+00A0
    (C2 A0). *)
Definition isspace2 (c1 c2 : ascii) : bool :=
  let n2 := nat_of_ascii c2 in
  (Nat.eqb (nat_of_ascii c1) 194 && (Nat.eqb n2 133 || Nat.eqb n2 160))%bool.

(** The seventeen blanks encoded on three bytes: U+1680 (E1 9A 80),
    U+2000 to U+200A (E2 80 80 to E2 80 8A), U+2028 and U+2029 (E2 80 A8,
    E2 80 A9), U+202F (E2 80 AF), U+205F (E2 81 9F) and U+3000
    (E3 80 80). *)
Definition isspace3 (c1 c2 c3 : ascii) : bool :=
  let n1 := nat_of_ascii c1 in
  let n2 := nat_of_ascii c2 in
  let n3 := nat_of_ascii c3 in
  ((Nat.eqb n1 225 && Nat.eqb n2 154 && Nat.eqb n3 128)
   || (Nat.eqb n1 226 && Nat.eqb n2 128
       && ((Nat.leb 128 n3 && Nat.leb n3 138)
           || Nat.eqb n3 168 || Nat.eqb n3 169 || Nat.eqb n3 175))
   || (Nat.eqb n1 226 && Nat.eqb n2 129 && Nat.eqb n3 159)
   || (Nat.eqb n1 227 && Nat.eqb n2 128 && Nat.eqb n3 128))%bool.

(** [s.lstrip()]: drops the blanks the text starts with, whatever the
    number of bytes of each. *)
Fixpoint lstrip (s : string) : string :=
  match s with
  | EmptyString => EmptyString
  | String c1 r1 =>
      if isspace c1 then lstrip r1 else
      match r1 with
      | EmptyString => s
      | String c2 r2 =>
          if isspace2 c1 c2 then lstrip r2 else
          match r2 with
          | EmptyString => s
          | String c3 r3 => if isspace3 c1 c2 c3 then lstrip r3 else s
          end
      end
  end.

(** [s.rstrip()]: cuts the text where all that follows is blank. *)
Fixpoint rstrip (s : string) : string :=
  match s with
  | EmptyString => EmptyString
  | String c r =>
      match lstrip s with
      | EmptyString => EmptyString
      | _ => String c (rstrip r)
      end
  end.

(** [s.strip()] *)
Definition strip (s : string) : string := rstrip (lstrip s).
End PyStr.

(** ** Dictionaries *)

Module Dict.

Section Ops.
Variable V : Type.

Definition t := list (string * V).

(** [d.get(k)] *)
Fixpoint get (k : string) (d : t) : option V :=
  match d with
  | [] => None
  | (k', v) :: r => if String.eqb k k' then Some v else get k r
  end.

(** [d[k] = v] *)
Fixpoint set (k : string) (v : V) (d : t) : t :=
  match d with
  | [] => [(k, v)]
  | (k', v') :: r =>
      if String.eqb k k' then (k', v) :: r else (k', v') :: set k v r
  end.

(** [del d[k]] *)
Fixpoint del (k : string) (d : t) : t :=
  match d with
  | [] => []
  | (k', v') :: r =>
      if String.eqb k k' then del k r else (k', v') :: del k r
  end.

(** [k in d] *)
Definition mem (k : string) (d : t) : bool :=
  match get k d with Some _ => true | None => false end.

(** [not d]: only the empty dictionary is falsy. *)
Definition falsy (d : t) : bool :=
  match d with [] => true | _ => false end.

End Ops.

End Dict.

(** ** The digest *)

(** [hashlib.sha256(data).hexdigest()] on a byte string: SHA-256 as
    FIPS 180-4 defines it, on 32-bit words held in [Z]. *)
Module SHA256.

(** Addition of 32-bit words. *)
Definition add32 (x y : Z) : Z := (x + y) mod 2 ^ 32.

(** Rotation to the right of a 32-bit word. *)
Definition rotr (n x : Z) : Z :=
  Z.lor (Z.shiftr x n) (Z.shiftl x (32 - n) mod 2 ^ 32).

Definition Ch (x y z : Z) : Z :=
  Z.lxor (Z.land x y) (Z.land (Z.lxor x (2 ^ 32 - 1)) z).

Definition Maj (x y z : Z) : Z :=
  Z.lxor (Z.lxor (Z.land x y) (Z.land x z)) (Z.land y z).

Definition bsig0 (x : Z) : Z :=
  Z.lxor (Z.lxor (rotr 2 x) (rotr 13 x)) (rotr 22 x).

Definition bsig1 (x : Z) : Z :=
  Z.lxor (Z.lxor (rotr 6 x) (rotr 11 x)) (rotr 25 x).

Definition ssig0 (x : Z) : Z :=
  Z.lxor (Z.lxor (rotr 7 x) (rotr 18 x)) (Z.shiftr x 3).

Definition ssig1 (x : Z) : Z :=
  Z.lxor (Z.lxor (rotr 17 x) (rotr 19 x)) (Z.shiftr x 10).

(** Whether [n] has no divisor between 2 and [n - 1]. *)
Definition is_prime (n : nat) : bool :=
  forallb (fun d => negb (Nat.eqb (Nat.modulo n d) 0)) (seq 2 (n - 2)).

(** The first 64 primes, 2 to 311. *)
Definition primes : list Z :=
  map Z.of_nat (filter is_prime (seq 2 310)).

(** The largest [r] below [2 ^ k] that [below] accepts, found bit by bit
    for a test that holds up to some bound. *)
Fixpoint largest (k : nat) (below : Z -> bool) (r : Z) : Z :=
  match k with
  | O => r
  | S k' =>
      let r' := r + 2 ^ Z.of_nat k' in
      largest k' below (if below r' then r' else r)
  end.

(** The integer part of the cube root. *)
Definition cube_root (n : Z) : Z := largest 40 (fun r => r * r * r <=? n) 0.

(** The round constants: the first 32 bits of the fractional part of the
    cube root of each of the first 64 primes. *)
Definition K : list Z :=
  Eval vm_compute in map (fun p => cube_root (p * 2 ^ 96) mod 2 ^ 32) primes.

Definition state : Type := Z * Z * Z * Z * Z * Z * Z * Z.

(** The first 32 bits of the fractional part of the square root. *)
Definition sqrt_frac (p : Z) : Z := Z.sqrt (p * 2 ^ 64) mod 2 ^ 32.

(** The initial hash value, from the first eight primes. *)
Definition H0 : state :=
  Eval vm_compute in
    (sqrt_frac 2, sqrt_frac 3, sqrt_frac 5, sqrt_frac 7,
     sqrt_frac 11, sqrt_frac 13, sqrt_frac 17, sqrt_frac 19).

(** The message schedule, most recent word first. *)
Fixpoint extend (n : nat) (w : list Z) : list Z :=
  match n with
  | O => w
  | S n' =>
      let wt :=
        add32 (add32 (ssig1 (nth 1 w 0)) (nth 6 w 0))
              (add32 (ssig0 (nth 14 w 0)) (nth 15 w 0)) in
      extend n' (wt :: w)
  end.

Definition schedule (block : list Z) : list Z :=
  rev (extend 48 (rev block)).

(** One of the 64 rounds, on a constant and a schedule word. *)
Definition round (s : state) (kw : Z * Z) : state :=
  let '(a, b, c, d, e, f, g, h) := s in
  let (k, w) := kw in
  let t1 := add32 (add32 (add32 (add32 h (bsig1 e)) (Ch e f g)) k) w in
  let t2 := add32 (bsig0 a) (Maj a b c) in
  (add32 t1 t2, a, b, c, add32 d t1, e, f, g).

(** The compression of one block of sixteen words into the state. *)
Definition compress (s : state) (block : list Z) : state :=
  let '(a, b, c, d, e, f, g, h) :=
    fold_left round (combine K (schedule block)) s in
  let '(a0, b0, c0, d0, e0, f0, g0, h0) := s in
  (add32 a0 a, add32 b0 b, add32 c0 c, add32 d0 d,
   add32 e0 e, add32 f0 f, add32 g0 g, add32 h0 h).

Fixpoint bytes_of (s : string) : list Z :=
  match s with
  | EmptyString => []
  | String c r => Z.of_nat (nat_of_ascii c) :: bytes_of r
  end.

(** The eight bytes of [n], most significant first. *)
Definition be_bytes8 (n : Z) : list Z :=
  map (fun i => Z.shiftr n (8 * i) mod 256) [7; 6; 5; 4; 3; 2; 1; 0].

(** Padding: the byte 80, zeros up to 56 modulo 64, and the length in
    bits. *)
Definition pad (msg : list Z) : list Z :=
  let l := Z.of_nat (List.length msg) in
  msg ++ [0x80] ++ repeat 0 (Z.to_nat ((55 - l) mod 64)) ++ be_bytes8 (8 * l).

(** Big-endian words of four bytes. *)
Fixpoint words (bytes : list Z) : list Z :=
  match bytes with
  | b0 :: b1 :: b2 :: b3 :: r =>
      (((b0 * 256 + b1) * 256 + b2) * 256 + b3) :: words r
  | _ => []
  end.

Fixpoint hash_blocks (n : nat) (ws : list Z) (s : state) : state :=
  match n with
  | O => s
  | S n' => hash_blocks n' (skipn 16 ws) (compress s (firstn 16 ws))
  end.

Definition digest (msg : list Z) : state :=
  let ws := words (pad msg) in
  hash_blocks (Nat.div (List.length ws) 16) ws H0.

Definition hex_digit (n : Z) : ascii :=
  nth (Z.to_nat n)
    ["0"; "1"; "2"; "3"; "4"; "5"; "6"; "7";
     "8"; "9"; "a"; "b"; "c"; "d"; "e"; "f"]%char "0"%char.

Definition hex8 (x : Z) : string :=
  String (hex_digit (Z.shiftr x 28 mod 16))
  (String (hex_digit (Z.shiftr x 24 mod 16))
  (String (hex_digit (Z.shiftr x 20 mod 16))
  (String (hex_digit (Z.shiftr x 16 mod 16))
  (String (hex_digit (Z.shiftr x 12 mod 16))
  (String (hex_digit (Z.shiftr x 8 mod 16))
  (String (hex_digit (Z.shiftr x 4 mod 16))
  (String (hex_digit (x mod 16)) EmptyString))))))).

(** [hashlib.sha256(s).hexdigest()] *)
Definition hexdigest (s : string) : string :=
  let '(a, b, c, d, e, f, g, h) := digest (bytes_of s) in
  hex8 a ++ hex8 b ++ hex8 c ++ hex8 d ++
  hex8 e ++ hex8 f ++ hex8 g ++ hex8 h.

End SHA256.

(** ** Time *)

Definition datetime := Z.

(** [timedelta(hours=h)] in microseconds. *)
Definition timedelta_hours (h : Z) : Z := h * 3600 * 1000000.

(** A timestamp string as it sits in a stored record. *)
Inductive pytime :=
| Iso (t : datetime)       (* [t.isoformat()] *)
| NotIso (s : string).     (* any text that [fromisoformat] rejects *)

Definition isoformat (t : datetime) : pytime := Iso t.

(** ** Exceptions and the state of the backing files *)

Inductive exn :=
| KeyError (key : string)
| ValueError
| OSError
| JSONDecodeError.

Inductive outcome (A : Type) :=
| Ret (a : A)
| Raise (e : exn).
Arguments Ret {A} a.
Arguments Raise {A} e.

(** [datetime.fromisoformat(s)] *)
Definition fromisoformat (s : pytime) : outcome datetime :=
  match s with
  | Iso t => Ret t
  | NotIso _ => Raise ValueError
  end.

(** A backing file: missing, present but unreadable or not valid JSON, or
    holding a value. Writing a file always succeeds and leaves it
    holding the value written. *)
Inductive file (A : Type) :=
| Absent
| Corrupt
| Stored (content : A).
Arguments Absent {A}.
Arguments Corrupt {A}.
Arguments Stored {A} content.

(** [path.exists()] *)
Definition file_exists {A} (f : file A) : bool :=
  match f with Absent => false | _ => true end.

(** [with open(path, 'r') as f: json.load(f)] *)
Definition json_load {A} (f : file A) : outcome A :=
  match f with
  | Absent => Raise OSError
  | Corrupt => Raise JSONDecodeError
  | Stored d => Ret d
  end.

(** ** Stored records *)

Inductive pref_value :=
| PStr (s : string)
| PList (l : list string).

Definition preferences := Dict.t pref_value.

(** One entry of [users.json]: the fields of [User] plus the password
    digest. A field is [None] when its key is missing from the record. *)
Record user_data := {
  ud_user_id : option string;
  ud_email : option string;
  ud_name : option string;
  ud_role : option string;
  ud_created_at : option pytime;
  ud_last_login : option pytime;
  ud_is_active : option bool;
  ud_preferences : option preferences;
  ud_password_hash : option string
}.

(** One entry of [sessions.json]: the fields of [Session]. *)
Record session_data := {
  sd_session_id : option string;
  sd_user_id : option string;
  sd_created_at : option pytime;
  sd_expires_at : option pytime;
  sd_last_active : option pytime;
  sd_ip_address : option string;
  sd_user_agent : option string;
  sd_is_active : option bool
}.

(** The configuration after [_load_auth_config] has merged the defaults:
    every key is present. *)
Record config := {
  session_timeout_hours : Z;
  max_sessions_per_user : Z;
  require_strong_passwords : bool;
  allow_registration : bool;
  default_role : string;
  enable_guest_mode : bool;
  secret_key : string
}.

(** The content of [auth_config.json]: any subset of the keys. *)
Record config_json := {
  cj_session_timeout_hours : option Z;
  cj_max_sessions_per_user : option Z;
  cj_require_strong_passwords : option bool;
  cj_allow_registration : option bool;
  cj_default_role : option string;
  cj_enable_guest_mode : option bool;
  cj_secret_key : option string
}.

(** [d[key]] on a record field: [KeyError] when the key is missing. *)
Definition item {A} (key : string) (field : option A) : outcome A :=
  match field with
  | Some a => Ret a
  | None => Raise (KeyError key)
  end.

(** [d.get(key, default)] on a record field. *)
Definition get_or {A} (field : option A) (default : A) : A :=
  match field with
  | Some a => a
  | None => default
  end.

(** [not user_data] for a record: true for the empty record [{}]. *)
Definition user_falsy (u : user_data) : bool :=
  match u with
  | Build_user_data None None None None None None None None None => true
  | _ => false
  end.

(** [not session_data] for a record. *)
Definition session_falsy (s : session_data) : bool :=
  match s with
  | Build_session_data None None None None None None None None => true
  | _ => false
  end.

(** ** The state and the monad of operations *)

Record World := {
  users_file : file (Dict.t user_data);
  sessions_file : file (Dict.t session_data);
  config_file : file config_json
}.

Definition M (A : Type) := World -> outcome A * World.

Definition ret {A} (a : A) : M A := fun w => (Ret a, w).

Definition raise {A} (e : exn) : M A := fun w => (Raise e, w).

Definition bind {A B} (m : M A) (f : A -> M B) : M B :=
  fun w =>
    match m w with
    | (Ret a, w') => f a w'
    | (Raise e, w') => (Raise e, w')
    end.

(** [try: m  except Exception: h] *)
Definition try_except {A} (m : M A) (h : exn -> M A) : M A :=
  fun w =>
    match m w with
    | (Ret a, w') => (Ret a, w')
    | (Raise e, w') => h e w'
    end.

(** A pure step that may raise, run inside an operation. *)
Definition lift {A} (o : outcome A) : M A := fun w => (o, w).

Declare Scope py_scope.
Delimit Scope py_scope with py.
Notation "x <- m ;; k" := (bind m (fun x => k))
  (at level 61, m at next level, right associativity) : py_scope.
Notation "m ;;; k" := (bind m (fun _ => k))
  (at level 61, right associativity) : py_scope.
Open Scope py_scope.

Definition read_users : M (file (Dict.t user_data)) :=
  fun w => (Ret (users_file w), w).

Definition read_sessions : M (file (Dict.t session_data)) :=
  fun w => (Ret (sessions_file w), w).

Definition read_config : M (file config_json) :=
  fun w => (Ret (config_file w), w).

Definition write_users (d : Dict.t user_data) : M unit :=
  fun w => (Ret tt, {| users_file := Stored d;
                       sessions_file := sessions_file w;
                       config_file := config_file w |}).

Definition write_sessions (d : Dict.t session_data) : M unit :=
  fun w => (Ret tt, {| users_file := users_file w;
                       sessions_file := Stored d;
                       config_file := config_file w |}).

Definition write_config (c : config_json) : M unit :=
  fun w => (Ret tt, {| users_file := users_file w;
                       sessions_file := sessions_file w;
                       config_file := Stored c |}).

(** ** Results handed back to callers *)

(** The public view of a user: the ['user'] entry of a response. *)
Record user_view := {
  uv_user_id : string;
  uv_email : string;
  uv_name : string;
  uv_role : string;
  uv_preferences : preferences
}.

(** The ['session'] entry of a successful validation. *)
Record session_view := {
  sv_session_id : string;
  sv_created_at : pytime;
  sv_expires_at : pytime;
  sv_last_active : pytime
}.

Inductive create_result :=
| CreateFailure (error : string)
| CreateSuccess (user_id : string) (message : string).

Inductive auth_result :=
| AuthFailure (error : string)
| AuthSuccess (session_id : string) (user : user_view) (expires_at : pytime).

Inductive validation :=
| Invalid (error : string)
| Valid (user : user_view) (session : session_view).

Inductive guest_result :=
| GuestFailure (error : string)
| GuestSuccess (session_id : string) (user : user_view)
               (expires_at : pytime) (is_guest : bool).

Inductive logout_result :=
| LogoutFailure (error : string)
| LogoutSuccess (message : string).

(** ** The dataclasses *)

(** [asdict(User(user_id=.., email=.., name=.., role=..))]: [__post_init__]
    stamps [created_at] with the clock and fills the default preferences. *)
Definition User (user_id email name role : string) (now : datetime)
  : user_data :=
  {| ud_user_id := Some user_id;
     ud_email := Some email;
     ud_name := Some name;
     ud_role := Some role;
     ud_created_at := Some (isoformat now);
     ud_last_login := Some (NotIso "");
     ud_is_active := Some true;
     ud_preferences :=
       Some [("theme", PStr "light");
             ("default_experience", PStr "learn_and_do");
             ("favorite_tools", PList []);
             ("dashboard_layout", PStr "default")];
     ud_password_hash := None |}.

(** [{**asdict(user), 'password_hash': h}] *)
Definition with_password_hash (u : user_data) (h : string) : user_data :=
  {| ud_user_id := ud_user_id u;
     ud_email := ud_email u;
     ud_name := ud_name u;
     ud_role := ud_role u;
     ud_created_at := ud_created_at u;
     ud_last_login := ud_last_login u;
     ud_is_active := ud_is_active u;
     ud_preferences := ud_preferences u;
     ud_password_hash := Some h |}.

(** [user_data['last_login'] = t] *)
Definition with_last_login (u : user_data) (t : pytime) : user_data :=
  {| ud_user_id := ud_user_id u;
     ud_email := ud_email u;
     ud_name := ud_name u;
     ud_role := ud_role u;
     ud_created_at := ud_created_at u;
     ud_last_login := Some t;
     ud_is_active := ud_is_active u;
     ud_preferences := ud_preferences u;
     ud_password_hash := ud_password_hash u |}.

(** [asdict(Session(...))] with [is_active] left at its default. *)
Definition Session (session_id user_id : string)
    (created_at expires_at last_active : pytime)
    (ip_address user_agent : string) : session_data :=
  {| sd_session_id := Some session_id;
     sd_user_id := Some user_id;
     sd_created_at := Some created_at;
     sd_expires_at := Some expires_at;
     sd_last_active := Some last_active;
     sd_ip_address := Some ip_address;
     sd_user_agent := Some user_agent;
     sd_is_active := Some true |}.

(** [session_data['last_active'] = t] *)
Definition with_last_active (s : session_data) (t : pytime) : session_data :=
  {| sd_session_id := sd_session_id s;
     sd_user_id := sd_user_id s;
     sd_created_at := sd_created_at s;
     sd_expires_at := sd_expires_at s;
     sd_last_active := Some t;
     sd_ip_address := sd_ip_address s;
     sd_user_agent := sd_user_agent s;
     sd_is_active := sd_is_active s |}.

(** [a != b] between a string and a value that may be [None]. *)
Definition str_ne_opt (a : string) (b : option string) : bool :=
  match b with
  | Some s => negb (String.eqb a s)
  | None => true
  end.

(** ** The operations of [AuthenticationManager] *)

Module AuthenticationManager.

Section WithHash.

(** [hashlib.sha256(s.encode()).hexdigest()] *)
Variable sha256_hexdigest : string -> string.

(** The default configuration; the secret is a fresh random draw. *)
Definition default_config (fresh_secret : string) : config :=
  {| session_timeout_hours := 24;
     max_sessions_per_user := 5;
     require_strong_passwords := false;
     allow_registration := true;
     default_role := "pm";
     enable_guest_mode := true;
     secret_key := fresh_secret |}.

(** The loop that fills in every key missing from the stored config. *)
Definition merge_defaults (c : config_json) (d : config) : config :=
  {| session_timeout_hours :=
       get_or (cj_session_timeout_hours c) (session_timeout_hours d);
     max_sessions_per_user :=
       get_or (cj_max_sessions_per_user c) (max_sessions_per_user d);
     require_strong_passwords :=
       get_or (cj_require_strong_passwords c) (require_strong_passwords d);
     allow_registration :=
       get_or (cj_allow_registration c) (allow_registration d);
     default_role := get_or (cj_default_role c) (default_role d);
     enable_guest_mode :=
       get_or (cj_enable_guest_mode c) (enable_guest_mode d);
     secret_key := get_or (cj_secret_key c) (secret_key d) |}.

(** [json.dump(default_config, f)] *)
Definition config_to_json (d : config) : config_json :=
  {| cj_session_timeout_hours := Some (session_timeout_hours d);
     cj_max_sessions_per_user := Some (max_sessions_per_user d);
     cj_require_strong_passwords := Some (require_strong_passwords d);
     cj_allow_registration := Some (allow_registration d);
     cj_default_role := Some (default_role d);
     cj_enable_guest_mode := Some (enable_guest_mode d);
     cj_secret_key := Some (secret_key d) |}.

Definition _load_auth_config (fresh_secret : string) : M config :=
  let default_config := default_config fresh_secret in
  try_except
    (f <- read_config ;;
     if file_exists f then
       config <- lift (json_load f) ;;
       ret (merge_defaults config default_config)
     else
       write_config (config_to_json default_config) ;;;
       ret default_config)
    (fun _ => ret default_config).

Definition _load_users : M (Dict.t user_data) :=
  try_except
    (f <- read_users ;;
     if file_exists f then lift (json_load f) else ret [])
    (fun _ => ret []).

Definition _save_users (users : Dict.t user_data) : M unit :=
  try_except (write_users users) (fun _ => ret tt).

(** The body of the loop of [_cleanup_expired_sessions]; a record whose
    expiry is missing or does not parse raises inside the [try] and is
    skipped. *)
Fixpoint cleanup_loop (now : datetime) (items : list (string * session_data))
    (active_sessions : Dict.t session_data) : Dict.t session_data :=
  match items with
  | [] => active_sessions
  | (session_id, session_data) :: rest =>
      match fromisoformat (get_or (sd_expires_at session_data) (NotIso ""))
      with
      | Ret expires_at =>
          if (expires_at >? now) && get_or (sd_is_active session_data) true
          then cleanup_loop now rest
                 (Dict.set session_id session_data active_sessions)
          else cleanup_loop now rest active_sessions
      | Raise _ => cleanup_loop now rest active_sessions
      end
  end.

Definition _cleanup_expired_sessions (now : datetime)
    (sessions : Dict.t session_data) : Dict.t session_data :=
  cleanup_loop now sessions [].

(** [now] is the clock as read by the cleanup. *)
Definition _load_sessions (now : datetime) : M (Dict.t session_data) :=
  try_except
    (f <- read_sessions ;;
     if file_exists f then
       sessions <- lift (json_load f) ;;
       ret (_cleanup_expired_sessions now sessions)
     else ret [])
    (fun _ => ret []).

Definition _save_sessions (sessions : Dict.t session_data) : M unit :=
  try_except (write_sessions sessions) (fun _ => ret tt).

Definition _hash_password (cfg : config) (password : string) : string :=
  let salt := secret_key cfg in
  sha256_hexdigest (password ++ salt).

(** The test both email scans make on a record. *)
Definition email_matches (email : string) (data : user_data) : bool :=
  String.eqb (PyStr.lower (get_or (ud_email data) ""))
             (PyStr.lower email).

(** [_initialize_default_users]; [now] stamps the record. *)
Definition _initialize_default_users (cfg : config) (now : datetime)
  : M unit :=
  users <- _load_users ;;
  if Dict.falsy users then
    let default_user :=
      User "default_pm" "pm@aipmtoolkit.local" "Product Manager" "pm" now in
    let password_hash := _hash_password cfg "aipm2025" in
    _save_users
      (Dict.set "default_pm"
         (with_password_hash default_user password_hash) users)
  else ret tt.

(** [AuthenticationManager(working_dir)]: the object built is its
    configuration, the paths being fixed; [fresh_secret] is the secret
    drawn for the default configuration, [now] stamps the default user. *)
Definition __init__ (fresh_secret : string) (now : datetime) : M config :=
  cfg <- _load_auth_config fresh_secret ;;
  _initialize_default_users cfg now ;;;
  ret cfg.

(** [create_user]; [user_id] is the [uuid4] drawn, [now] the clock. *)
Definition create_user (cfg : config) (email name password role : string)
    (user_id : string) (now : datetime) : M create_result :=
  users <- _load_users ;;
  if existsb (fun kv => email_matches email (snd kv)) users then
    ret (CreateFailure "User with this email already exists")
  else
    let user := User user_id email name role now in
    let password_hash := _hash_password cfg password in
    let users :=
      Dict.set user_id (with_password_hash user password_hash) users in
    _save_users users ;;;
    ret (CreateSuccess user_id ("User " ++ name ++ " created successfully")).

(** The scan of [authenticate_user] with its [break]: the first record, in
    order, whose email matches. *)
Fixpoint find_by_email (email : string) (items : list (string * user_data))
  : option (string * user_data) :=
  match items with
  | [] => None
  | (uid, data) :: rest =>
      if email_matches email data then Some (uid, data)
      else find_by_email email rest
  end.

(** [authenticate_user]; [session_id] is the token drawn, [now] the clock
    read for the session, [t_load] the later reading made when the
    sessions are loaded. *)
Definition authenticate_user (cfg : config) (email password : string)
    (ip_address user_agent : string)
    (session_id : string) (now t_load : datetime) : M auth_result :=
  users <- _load_users ;;
  match find_by_email email users with
  | None => ret (AuthFailure "Invalid email or password")
  | Some (uid, user_data) =>
      if user_falsy user_data then
        ret (AuthFailure "Invalid email or password")
      else
      let password_hash := _hash_password cfg password in
      if str_ne_opt password_hash (ud_password_hash user_data) then
        ret (AuthFailure "Invalid email or password")
      else if negb (get_or (ud_is_active user_data) true) then
        ret (AuthFailure "User account is disabled")
      else
        let expires_at := now + timedelta_hours (session_timeout_hours cfg) in
        user_id <- lift (item "user_id" (ud_user_id user_data)) ;;
        let session :=
          Session session_id user_id (isoformat now) (isoformat expires_at)
                  (isoformat now) ip_address user_agent in
        sessions <- _load_sessions t_load ;;
        _save_sessions (Dict.set session_id session sessions) ;;;
        (* the record is mutated in place, then stored under its own id *)
        let user_data := with_last_login user_data (isoformat now) in
        let users := Dict.set uid user_data users in
        let users := Dict.set user_id user_data users in
        _save_users users ;;;
        email <- lift (item "email" (ud_email user_data)) ;;
        name <- lift (item "name" (ud_name user_data)) ;;
        role <- lift (item "role" (ud_role user_data)) ;;
        ret (AuthSuccess session_id
               {| uv_user_id := user_id;
                  uv_email := email;
                  uv_name := name;
                  uv_role := role;
                  uv_preferences := get_or (ud_preferences user_data) [] |}
               (isoformat expires_at))
  end.

(** [validate_session]; the clock is read up to three times: by the
    cleanup inside the load ([t_load]), by the expiry test ([t_check]) and
    to refresh [last_active] ([t_touch]). *)
Definition validate_session (session_id : string)
    (t_load t_check t_touch : datetime) : M validation :=
  if PyStr.falsy session_id then
    ret (Invalid "No session ID provided")
  else
  sessions <- _load_sessions t_load ;;
  match Dict.get session_id sessions with
  | None => ret (Invalid "Session not found")
  | Some session_data =>
      if session_falsy session_data then
        ret (Invalid "Session not found")
      else
      (* the [try] block: [Some r] is a [return r] made inside it *)
      early <-
        try_except
          (raw <- lift (item "expires_at" (sd_expires_at session_data)) ;;
           expires_at <- lift (fromisoformat raw) ;;
           if t_check >? expires_at then
             _save_sessions (Dict.del session_id sessions) ;;;
             ret (Some (Invalid "Session expired"))
           else ret None)
          (fun _ => ret (Some (Invalid "Invalid session data"))) ;;
      match early with
      | Some r => ret r
      | None =>
          let session_data :=
            with_last_active session_data (isoformat t_touch) in
          _save_sessions (Dict.set session_id session_data sessions) ;;;
          users <- _load_users ;;
          owner <- lift (item "user_id" (sd_user_id session_data)) ;;
          match Dict.get owner users with
          | None => ret (Invalid "User account not found or disabled")
          | Some user_data =>
              if user_falsy user_data
                 || negb (get_or (ud_is_active user_data) true)
              then ret (Invalid "User account not found or disabled")
              else
                user_id <- lift (item "user_id" (ud_user_id user_data)) ;;
                email <- lift (item "email" (ud_email user_data)) ;;
                name <- lift (item "name" (ud_name user_data)) ;;
                role <- lift (item "role" (ud_role user_data)) ;;
                created_at <-
                  lift (item "created_at" (sd_created_at session_data)) ;;
                expires_at <-
                  lift (item "expires_at" (sd_expires_at session_data)) ;;
                last_active <-
                  lift (item "last_active" (sd_last_active session_data)) ;;
                ret (Valid
                       {| uv_user_id := user_id;
                          uv_email := email;
                          uv_name := name;
                          uv_role := role;
                          uv_preferences :=
                            get_or (ud_preferences user_data) [] |}
                       {| sv_session_id := session_id;
                          sv_created_at := created_at;
                          sv_expires_at := expires_at;
                          sv_last_active := last_active |})
          end
      end
  end.

(** [guest_session]; [epoch] is [int(time.time())], [session_id] the token
    drawn, [now] the clock read for the session and [t_load] the later
    reading made when the sessions are loaded. *)
Definition guest_session (cfg : config) (ip_address user_agent : string)
    (epoch : Z) (session_id : string) (now t_load : datetime)
  : M guest_result :=
  if negb (enable_guest_mode cfg) then
    ret (GuestFailure "Guest mode is disabled")
  else
    let guest_id := "guest_" ++ PyStr.of_Z epoch in
    let expires_at := now + timedelta_hours 2 in
    let session :=
      Session session_id guest_id (isoformat now) (isoformat expires_at)
              (isoformat now) ip_address user_agent in
    sessions <- _load_sessions t_load ;;
    _save_sessions (Dict.set session_id session sessions) ;;;
    ret (GuestSuccess session_id
           {| uv_user_id := guest_id;
              uv_email := "guest@aipmtoolkit.local";
              uv_name := "Guest User";
              uv_role := "viewer";
              uv_preferences :=
                [("theme", PStr "light");
                 ("default_experience", PStr "just_do_it")] |}
           (isoformat expires_at) true).

(** [logout_user]; [t_load] is the clock as read by the load. *)
Definition logout_user (session_id : string) (t_load : datetime)
  : M logout_result :=
  sessions <- _load_sessions t_load ;;
  if Dict.mem session_id sessions then
    _save_sessions (Dict.del session_id sessions) ;;;
    ret (LogoutSuccess "Logged out successfully")
  else
    ret (LogoutFailure "Session not found").

End WithHash.

End AuthenticationManager.

(** ** The role guard *)

(** The table [role_hierarchy] with [.get(role, default)]. *)
Definition role_hierarchy_get (role : string) (default : Z) : Z :=
  if String.eqb role "viewer" then 1
  else if String.eqb role "pm" then 2
  else if String.eqb role "admin" then 3
  else default.

Inductive guard_result :=
| Unauthorized (error : string)      (* HTTP 401 *)
| Forbidden (error : string)         (* HTTP 403 *)
| Proceed.                           (* the wrapped route runs *)

(** [require_role(required_role)] applied to a route; [current_user] is
    [g.current_user], absent when no authentication guard ran. *)
Definition require_role (required_role : string)
    (current_user : option user_view) : guard_result :=
  match current_user with
  | None => Unauthorized "Authentication required"
  | Some u =>
      let user_role := uv_role u in
      if role_hierarchy_get user_role 0 <? role_hierarchy_get required_role 999
      then Forbidden ("Insufficient permissions. Required: " ++ required_role)
      else Proceed
  end.

(** ** The authentication guard *)

(** [s.replace('Bearer ', '')]: every occurrence is removed, scanning from
    the left. *)
Fixpoint remove_bearer (s : string) : string :=
  match s with
  | String "B" (String "e" (String "a" (String "r" (String "e"
      (String "r" (String " " rest)))))) => remove_bearer rest
  | String c r => String c (remove_bearer r)
  | EmptyString => EmptyString
  end.

(** [d.get('password', '')] and the like on a JSON body. *)
Record json_fields := {
  f_email : option string;
  f_name : option string;
  f_password : option string
}.

(** What [request.get_json()] does: it raises, it returns a falsy value
    (replaced by [{}]), or it returns an object. *)
Inductive json_payload :=
| JsonRaises
| JsonNothing
| JsonObject (fields : json_fields).

(** The parts of a Flask request the authentication code reads. *)
Record request := {
  authorization : option string;     (* headers.get('Authorization') *)
  user_agent_header : option string; (* headers.get('User-Agent') *)
  session_cookie : option string;    (* cookies.get('aipm_session') *)
  remote_addr : option string;
  get_json : json_payload
}.

(** The token a request carries: the [Authorization] header with
    ['Bearer '] removed, or else the cookie. [None] or [""] is no token. *)
Definition request_session_id (req : request) : option string :=
  let session_id := remove_bearer (get_or (authorization req) "") in
  if PyStr.falsy session_id then session_cookie req else Some session_id.

(** [not session_id] for a token that may be [None]. *)
Definition no_token (session_id : option string) : bool :=
  match session_id with
  | Some s => PyStr.falsy s
  | None => true
  end.

(** Flask's [g] as the guards fill it. *)
Record flask_g := {
  current_user : option user_view;
  current_session : option session_view
}.

(** What a guarded route answers: the guard's own JSON refusal, or what
    the route returned. *)
Inductive guarded (A : Type) :=
| Denied (status : Z) (error : string) (login_required : bool)
| Granted (a : A).
Arguments Denied {A} status error login_required.
Arguments Granted {A} a.

(** [require_auth(f)] called on a request. The guard constructs a manager
    of its own, over the [auth] directory of the working directory
    ([fresh_secret] and [now] are the draws of that construction), and
    validates with it. *)
Definition require_auth (sha256_hexdigest : string -> string) {A : Type}
    (f : flask_g -> M A) (req : request)
    (fresh_secret : string) (now t_load t_check t_touch : datetime)
  : M (guarded A) :=
  match request_session_id req with
  | None => ret (Denied 401 "Authentication required" true)
  | Some session_id =>
      if PyStr.falsy session_id then
        ret (Denied 401 "Authentication required" true)
      else
        _ <- AuthenticationManager.__init__ sha256_hexdigest fresh_secret now ;;
        validation <-
          AuthenticationManager.validate_session session_id
            t_load t_check t_touch ;;
        match validation with
        | Invalid error => ret (Denied 401 error true)
        | Valid user session =>
            a <- f {| current_user := Some user;
                      current_session := Some session |} ;;
            ret (Granted a)
        end
  end.

(** ** The authentication endpoints of [web/app.py] *)

Module WebApp.

(** An exception caught by an endpoint's [except Exception]. *)
Inductive caught :=
| FromManager (e : exn)
| FromGetJson.

Inductive cookie_action :=
| NoCookie
| SetSessionCookie (value : string)  (* set_cookie('aipm_session', value) *)
| ClearSessionCookie.                (* set_cookie('aipm_session', '', expires=0) *)

Inductive json_body :=
| Failure (error : string)           (* {'success': False, 'error': error} *)
| FailureStr (e : caught)            (* {'success': False, 'error': str(e)} *)
| Message (message : string)         (* {'success': True, 'message': message} *)
| AuthBody (result : auth_result)
| GuestBody (result : guest_result)
| CreateBody (result : create_result).

Record response := {
  status : Z;
  body : json_body;
  cookie : cookie_action
}.

Definition respond (status : Z) (body : json_body) : response :=
  {| status := status; body := body; cookie := NoCookie |}.

(** [except Exception as e: return jsonify({... str(e)}), 500] around the
    part of an endpoint that runs the manager. *)
Definition or_500 (m : M response) : M response :=
  try_except m (fun e => ret (respond 500 (FailureStr (FromManager e)))).

(** [request.get_json() or {}], then the three [data.get(..., '')]. *)
Definition body_fields (p : json_payload) : option (string * string * string) :=
  match p with
  | JsonRaises => None
  | JsonNothing => Some ("", "", "")
  | JsonObject d =>
      Some (get_or (f_email d) "", get_or (f_name d) "",
            get_or (f_password d) "")
  end.

Section Endpoints.

Variable sha256_hexdigest : string -> string.

(** [auth_manager.config] of the manager constructed at import. *)
Variable cfg : config.

(** [api_login]; [session_id] is the token the manager draws, [now] and
    [t_load] its clock readings. *)
Definition api_login (req : request) (session_id : string)
    (now t_load : datetime) : M response :=
  match body_fields (get_json req) with
  | None => ret (respond 500 (FailureStr FromGetJson))
  | Some (email, _, password) =>
      or_500
        (let email := PyStr.strip email in
         if PyStr.falsy email || PyStr.falsy password then
           ret (respond 400 (Failure "Email and password are required"))
         else
           let ip_address := get_or (remote_addr req) "" in
           let user_agent := get_or (user_agent_header req) "" in
           result <-
             AuthenticationManager.authenticate_user sha256_hexdigest cfg
               email password ip_address user_agent session_id now t_load ;;
           match result with
           | AuthSuccess token _ _ =>
               ret {| status := 200; body := AuthBody result;
                      cookie := SetSessionCookie token |}
           | AuthFailure _ => ret (respond 401 (AuthBody result))
           end)
  end.

(** [api_logout]; [t_load] is the clock as read by the manager's load. *)
Definition api_logout (req : request) (t_load : datetime) : M response :=
  or_500
    (let session_id := request_session_id req in
     (if no_token session_id then ret tt
      else
        _ <- AuthenticationManager.logout_user (get_or session_id "") t_load ;;
        ret tt) ;;;
     ret {| status := 200; body := Message "Logged out successfully";
            cookie := ClearSessionCookie |}).

(** [api_guest_login]; [epoch], [session_id], [now] and [t_load] are the
    draws of [guest_session]. *)
Definition api_guest_login (req : request) (epoch : Z) (session_id : string)
    (now t_load : datetime) : M response :=
  or_500
    (let ip_address := get_or (remote_addr req) "" in
     let user_agent := get_or (user_agent_header req) "" in
     result <-
       AuthenticationManager.guest_session cfg ip_address user_agent
         epoch session_id now t_load ;;
     match result with
     | GuestSuccess token _ _ _ =>
         ret {| status := 200; body := GuestBody result;
                cookie := SetSessionCookie token |}
     | GuestFailure _ => ret (respond 400 (GuestBody result))
     end).

(** [api_register]; [user_id] and [now] are the draws of [create_user],
    which is called with its default role. *)
Definition api_register (req : request) (user_id : string) (now : datetime)
  : M response :=
  if negb (allow_registration cfg) then
    ret (respond 403 (Failure "Registration is currently disabled"))
  else
    match body_fields (get_json req) with
    | None => ret (respond 500 (FailureStr FromGetJson))
    | Some (email, name, password) =>
        or_500
          (let email := PyStr.strip email in
           let name := PyStr.strip name in
           if PyStr.falsy email || PyStr.falsy name || PyStr.falsy password
           then
             ret (respond 400
                    (Failure "Email, name, and password are required"))
           else
             result <-
               AuthenticationManager.create_user sha256_hexdigest cfg
                 email name password "pm" user_id now ;;
             match result with
             | CreateSuccess _ _ => ret (respond 201 (CreateBody result))
             | CreateFailure _ => ret (respond 400 (CreateBody result))
             end)
    end.

End Endpoints.

End WebApp.

(** * Notions used in the statements *)

Unset Implicit Arguments.

Import AuthenticationManager.

(** ** States *)

(** The records a backing file holds; none when it is missing or
    unreadable. *)
Definition content_or_empty {V} (f : file (Dict.t V)) : Dict.t V :=
  match f with
  | Stored d => d
  | _ => []
  end.

(** The user records on file. *)
Definition stored_users (w : World) : Dict.t user_data :=
  content_or_empty (users_file w).

(** The session records on file, before any cleanup. *)
Definition stored_sessions (w : World) : Dict.t session_data :=
  content_or_empty (sessions_file w).

(** What a load made at clock reading [now] returns. *)
Definition loaded_sessions (now : datetime) (w : World)
  : Dict.t session_data :=
  _cleanup_expired_sessions now (stored_sessions w).

(** The state once [sessions] has been written to [sessions.json]. *)
Definition with_sessions (sessions : Dict.t session_data) (w : World)
  : World :=
  {| users_file := users_file w;
     sessions_file := Stored sessions;
     config_file := config_file w |}.

(** The state once [users] has been written to [users.json]. *)
Definition with_users (users : Dict.t user_data) (w : World) : World :=
  {| users_file := Stored users;
     sessions_file := sessions_file w;
     config_file := config_file w |}.

(** The state once [c] has been written to [auth_config.json]. *)
Definition with_config (c : config_json) (w : World) : World :=
  {| users_file := users_file w;
     sessions_file := sessions_file w;
     config_file := Stored c |}.

(** The file is missing, or is there and cannot be read as JSON. *)
Definition absent_or_unparsable {A} (f : file A) : Prop :=
  f = Absent \/ f = Corrupt.

(** The secret is kept on file by the first construction: the
    configuration file is missing (it is then written in full), or holds a
    [secret_key]. *)
Definition secret_on_file_after_init (w : World) : Prop :=
  config_file w = Absent \/
  exists c k, config_file w = Stored c /\ cj_secret_key c = Some k.

(** The secret is never on file: the configuration file is unreadable, or
    holds no [secret_key] (the merged defaults are not written back). *)
Definition secret_never_on_file (w : World) : Prop :=
  config_file w = Corrupt \/
  exists c, config_file w = Stored c /\ cj_secret_key c = None.

(** ** Sessions *)

(** The test of the cleanup loop on one record. *)
Definition kept (now : datetime) (s : session_data) : bool :=
  match fromisoformat (get_or (sd_expires_at s) (NotIso "")) with
  | Ret expires_at => (expires_at >? now) && get_or (sd_is_active s) true
  | Raise _ => false
  end.

(** A record the cleanup keeps at clock reading [now]: its expiry parses
    and lies strictly after [now], and its active flag, read as the code
    reads it (a missing flag counts as set), is true. *)
Definition session_live (now : datetime) (s : session_data) : Prop :=
  exists expires_at,
    sd_expires_at s = Some (Iso expires_at) /\
    now < expires_at /\
    get_or (sd_is_active s) true = true.

(** The identity a guest session is issued to. *)
Definition guest_id (epoch : Z) : string := "guest_" ++ PyStr.of_Z epoch.

(** The record [guest_session] stores. *)
Definition guest_record (ip_address user_agent : string) (epoch : Z)
    (session_id : string) (now : datetime) : session_data :=
  Session session_id (guest_id epoch) (Iso now)
          (Iso (now + timedelta_hours 2)) (Iso now) ip_address user_agent.

(** [id.startswith("guest_")] *)
Definition guest_shaped (id : string) : bool := PyStr.startswith id "guest_".

(** ** Users *)

(** Some stored record carries [email], compared case-insensitively. *)
Definition email_taken (email : string) (users : Dict.t user_data) : bool :=
  existsb (fun kv => email_matches email (snd kv)) users.

(** The record [create_user] stores. *)
Definition new_user_record (sha256_hexdigest : string -> string)
    (cfg : config) (email name password role user_id : string)
    (now : datetime) : user_data :=
  with_password_hash (User user_id email name role now)
    (_hash_password sha256_hexdigest cfg password).

(** The account provisioned on first run. *)
Definition default_user_record (sha256_hexdigest : string -> string)
    (cfg : config) (now : datetime) : user_data :=
  with_password_hash
    (User "default_pm" "pm@aipmtoolkit.local" "Product Manager" "pm" now)
    (_hash_password sha256_hexdigest cfg "aipm2025").

(** No stored user sits under, or names itself by, a guest identity. *)
Definition no_guest_user (users : Dict.t user_data) : Prop :=
  forall k data, In (k, data) users ->
    guest_shaped k = false /\
    forall id, ud_user_id data = Some id -> guest_shaped id = false.

(** A logged-in user holding [role]. *)
Definition user_with_role (role : string) : user_view :=
  {| uv_user_id := "u"; uv_email := "u@example.com"; uv_name := "U";
     uv_role := role; uv_preferences := [] |}.

(** The arguments of one call of [create_user], with the identifier and
    the clock reading it draws. *)
Record create_call := {
  cc_email : string;
  cc_name : string;
  cc_password : string;
  cc_role : string;
  cc_user_id : string;
  cc_now : datetime
}.

(** One call of [create_user]. *)
Definition create_call_run (sha256_hexdigest : string -> string)
    (cfg : config) (c : create_call) : M create_result :=
  create_user sha256_hexdigest cfg (cc_email c) (cc_name c) (cc_password c)
    (cc_role c) (cc_user_id c) (cc_now c).

(** Make the calls one after the other; the result lists the emails of
    the calls that succeeded, in order, with the final state. *)
Fixpoint create_users (sha256_hexdigest : string -> string) (cfg : config)
    (calls : list create_call) (w : World) : list string * World :=
  match calls with
  | [] => ([], w)
  | c :: rest =>
      match create_call_run sha256_hexdigest cfg c w with
      | (Ret (CreateSuccess _ _), w') =>
          let (created, w'') := create_users sha256_hexdigest cfg rest w' in
          (cc_email c :: created, w'')
      | (_, w') => create_users sha256_hexdigest cfg rest w'
      end
  end.

(** ** Requests *)

(** [' ' not in s] *)
Fixpoint space_free (s : string) : bool :=
  match s with
  | EmptyString => true
  | String c r => negb (Ascii.eqb c " ") && space_free r
  end.

(** A request with no body that carries [token] as its session cookie. *)
Definition cookie_request (token : string) : request :=
  {| authorization := None; user_agent_header := None;
     session_cookie := Some token; remote_addr := None;
     get_json := JsonNothing |}.

(** A request with no body that carries [token] as a bearer token, and
    [cookie] as its session cookie. *)
Definition bearer_request (token : string) (cookie : option string)
  : request :=
  {| authorization := Some ("Bearer " ++ token); user_agent_header := None;
     session_cookie := cookie; remote_addr := None;
     get_json := JsonNothing |}.

(** A request with a JSON body and neither header nor cookie. *)
Definition json_request (email name password : option string) : request :=
  {| authorization := None; user_agent_header := Some "browser";
     session_cookie := None; remote_addr := Some "10.0.0.7";
     get_json := JsonObject {| f_email := email; f_name := name;
                               f_password := password |} |}.

(** Two blanks that are not ASCII, as encoded: the no-break space U+00A0
    and the ideographic space U+3000. *)
Definition no_break_space : string := String "194" (String "160" "").

Definition ideographic_space : string :=
  String "227" (String "128" (String "128" "")).

(** ** Counting texts *)

(** Every text of [n] letters drawn from [a] and [b]. *)
Fixpoint ab_words (n : nat) : list string :=
  match n with
  | O => [""]
  | S n' => map (String "a") (ab_words n') ++ map (String "b") (ab_words n')
  end.

(** The 256 characters. *)
Definition all_chars : list ascii := map ascii_of_nat (seq 0 256).

(** Every text of [n] characters. *)
Fixpoint all_strings (n : nat) : list string :=
  match n with
  | O => [""]
  | S n' => flat_map (fun c => map (String c) (all_strings n')) all_chars
  end.

(** ** Sample states *)

(** A one-to-one stand-in for SHA-256, used to run the operations on
    concrete inputs. *)
Definition toy_digest (s : string) : string := "sha:" ++ s.

(** The state before first use: no file exists yet. *)
Definition empty_world : World :=
  {| users_file := Absent; sessions_file := Absent; config_file := Absent |}.

(** A state with no users file and a damaged sessions file. *)
Definition damaged_world : World :=
  {| users_file := Absent; sessions_file := Corrupt; config_file := Absent |}.

(** A session file holding one well-formed session that expires at clock
    reading 100. *)
Definition one_session_world : World :=
  {| users_file :=
       Stored [("u1", with_password_hash
                        (User "u1" "ann@example.com" "Ann" "pm" 1) "digest")];
     sessions_file :=
       Stored [("tok", Session "tok" "u1" (Iso 10) (Iso 100) (Iso 10)
                               "127.0.0.1" "cli")];
     config_file := Absent |}.

(** Two accounts sharing the password ["pw"] under the secret ["k"]: Ann's
    is active, Bob's is disabled. *)
Definition two_users_world (digest : string -> string) : World :=
  let cfg := default_config "k" in
  let ann := new_user_record digest cfg "ann@example.com" "Ann" "pw" "pm"
               "id-ann" 1 in
  let bob := new_user_record digest cfg "bob@example.com" "Bob" "pw" "pm"
               "id-bob" 2 in
  {| users_file :=
       Stored [("id-ann", ann);
               ("id-bob",
                {| ud_user_id := ud_user_id bob; ud_email := ud_email bob;
                   ud_name := ud_name bob; ud_role := ud_role bob;
                   ud_created_at := ud_created_at bob;
                   ud_last_login := ud_last_login bob;
                   ud_is_active := Some false;
                   ud_preferences := ud_preferences bob;
                   ud_password_hash := ud_password_hash bob |})];
     sessions_file := Absent;
     config_file := Absent |}.

(** A first registration, the same email again in other letters, and a
    second person. *)
Definition three_registrations : list create_call :=
  [ {| cc_email := "alice@example.com"; cc_name := "Alice";
       cc_password := "hunter2"; cc_role := "pm";
       cc_user_id := "id-1"; cc_now := 1 |};
    {| cc_email := "ALICE@EXAMPLE.COM"; cc_name := "Alice again";
       cc_password := "other"; cc_role := "pm";
       cc_user_id := "id-2"; cc_now := 2 |};
    {| cc_email := "carol@example.com"; cc_name := "Carol";
       cc_password := "pw"; cc_role := "viewer";
       cc_user_id := "id-3"; cc_now := 3 |} ].

(** Ann, active, with two sessions: one expiring at clock reading 100,
    one at 200. *)
Definition two_sessions_world : World :=
  {| users_file :=
       Stored [("u1", with_password_hash
                        (User "u1" "ann@example.com" "Ann" "pm" 1) "digest")];
     sessions_file :=
       Stored [("tok-a", Session "tok-a" "u1" (Iso 10) (Iso 100) (Iso 10)
                                 "127.0.0.1" "cli");
               ("tok-b", Session "tok-b" "u1" (Iso 20) (Iso 200) (Iso 20)
                                 "10.0.0.7" "browser")];
     config_file := Absent |}.

(** Two hand-edited accounts with the password ["pw"] under the secret
    ["k"]: Zoe's record has no ['name'], Yan's has no ['user_id']. *)
Definition broken_records_world (digest : string -> string) : World :=
  let h := _hash_password digest (default_config "k") "pw" in
  {| users_file :=
       Stored [("k-zoe",
                {| ud_user_id := Some "u-zoe";
                   ud_email := Some "zoe@example.com";
                   ud_name := None; ud_role := Some "pm";
                   ud_created_at := None; ud_last_login := None;
                   ud_is_active := None; ud_preferences := None;
                   ud_password_hash := Some h |});
               ("k-yan",
                {| ud_user_id := None;
                   ud_email := Some "yan@example.com";
                   ud_name := Some "Yan"; ud_role := Some "pm";
                   ud_created_at := None; ud_last_login := None;
                   ud_is_active := Some true; ud_preferences := None;
                   ud_password_hash := Some h |})];
     sessions_file := Absent;
     config_file := Absent |}.

(** Ann and Bob as in [two_users_world], with the two sessions of
    [two_sessions_world] on file. *)
Definition busy_world (digest : string -> string) : World :=
  {| users_file := users_file (two_users_world digest);
     sessions_file := sessions_file two_sessions_world;
     config_file := Absent |}.

(** The default configuration with a session limit of zero. *)
Definition no_sessions_config : config :=
  {| session_timeout_hours := 24;
     max_sessions_per_user := 0;
     require_strong_passwords := false;
     allow_registration := true;
     default_role := "pm";
     enable_guest_mode := true;
     secret_key := "k" |}.

(** A state whose configuration file holds one key only. *)
Definition partial_config_world : World :=
  {| users_file := Absent;
     sessions_file := Absent;
     config_file :=
       Stored {| cj_session_timeout_hours := Some 8;
                 cj_max_sessions_per_user := None;
                 cj_require_strong_passwords := None;
                 cj_allow_registration := None;
                 cj_default_role := None;
                 cj_enable_guest_mode := None;
                 cj_secret_key := None |} |}.

(** ** Tactics *)

(** Run the monadic glue of an operation up to its next load. *)
Ltac run_py :=
  cbv beta iota zeta
    delta [bind ret lift raise try_except negb item
           _save_sessions _save_users write_sessions write_users].

Ltac zify_cmp :=
  repeat match goal with
  | H : (_ >? _) = true |- _ => rewrite Z.gtb_ltb in H; apply Z.ltb_lt in H
  | H : (_ >? _) = false |- _ => rewrite Z.gtb_ltb in H; apply Z.ltb_ge in H
  end.

(** Split on the eight bits of a character, closing the cases where the
    scan of [remove_bearer] keeps it. *)
Ltac split_char c :=
  destruct c as [[] [] [] [] [] [] [] []]; try (right; reflexivity).

(** * Properties *)

(** ** Strings *)

Example lower_folds_ascii_letters :
  PyStr.lower "Alice.B-42@Example.COM" = "alice.b-42@example.com".
Proof. reflexivity. Qed.

Example guest_id_renders_the_epoch :
  guest_id 1700000000 = "guest_1700000000" /\ guest_id 0 = "guest_0".
Proof. split; reflexivity. Qed.

Lemma lower_idempotent (s : string) :
  PyStr.lower (PyStr.lower s) = PyStr.lower s.
Proof.
  induction s as [|c r IH]; simpl; [reflexivity|]. rewrite IH. f_equal.
  unfold PyStr.lower_ascii.
  destruct (Nat.leb 65 (nat_of_ascii c) && Nat.leb (nat_of_ascii c) 90)%bool
    eqn:E; [|now rewrite E].
  apply andb_true_iff in E. destruct E as [Hlo Hhi].
  apply Nat.leb_le in Hlo, Hhi.
  rewrite nat_ascii_embedding by lia.
  replace (Nat.leb (nat_of_ascii c + 32) 90) with false
    by (symmetry; apply Nat.leb_gt; lia).
  now rewrite andb_false_r.
Qed.

(** ** Dictionaries *)

Module DictFacts.

Section Facts.
Variable V : Type.
Implicit Types (d : Dict.t V) (k : string) (v : V).

Lemma get_set_same k v d : Dict.get k (Dict.set k v d) = Some v.
Proof.
  induction d as [|[k' v'] r IH]; simpl.
  - now rewrite String.eqb_refl.
  - destruct (String.eqb k k') eqn:E; simpl; rewrite E; auto.
Qed.

Lemma get_set_other k k' v d :
  k <> k' -> Dict.get k' (Dict.set k v d) = Dict.get k' d.
Proof.
  intros Hne. induction d as [|[k0 v0] r IH]; simpl.
  - destruct (String.eqb k' k) eqn:E; auto.
    apply String.eqb_eq in E. congruence.
  - destruct (String.eqb k k0) eqn:E; simpl.
    + apply String.eqb_eq in E. subst k0.
      destruct (String.eqb k' k) eqn:E'; auto.
      apply String.eqb_eq in E'. congruence.
    + now rewrite IH.
Qed.

Lemma get_del_same k d : Dict.get k (Dict.del k d) = None.
Proof.
  induction d as [|[k' v'] r IH]; simpl; auto.
  destruct (String.eqb k k') eqn:E; simpl; auto. now rewrite E.
Qed.

Lemma in_set_same k v d : In (k, v) (Dict.set k v d).
Proof.
  induction d as [|[k' v'] r IH]; simpl; auto.
  destruct (String.eqb k k') eqn:E; simpl; auto.
  apply String.eqb_eq in E. subst. auto.
Qed.

Lemma in_set_other k v k' v' d :
  k' <> k -> In (k', v') d -> In (k', v') (Dict.set k v d).
Proof.
  intros Hne. induction d as [|[k0 v0] r IH]; simpl; auto.
  intros [Heq|Hin].
  - inversion Heq; subst.
    destruct (String.eqb k k') eqn:E; simpl; auto.
    apply String.eqb_eq in E. congruence.
  - destruct (String.eqb k k0); simpl; auto.
Qed.

Lemma in_set_inv k v k' v' d :
  In (k', v') (Dict.set k v d) -> (k', v') = (k, v) \/ In (k', v') d.
Proof.
  induction d as [|[k0 v0] r IH]; simpl.
  - intros [H|[]]; auto.
  - destruct (String.eqb k k0) eqn:E; simpl.
    + apply String.eqb_eq in E. subst k0.
      intros [H|H]; auto.
    + intros [H|H]; auto. destruct (IH H); auto.
Qed.

Lemma get_none_not_in k d : Dict.get k d = None -> forall v, ~ In (k, v) d.
Proof.
  induction d as [|[k' v'] r IH]; simpl; auto.
  destruct (String.eqb k k') eqn:E; [discriminate|].
  intros Hn v [Heq|Hin].
  - inversion Heq; subst. now rewrite String.eqb_refl in E.
  - exact (IH Hn v Hin).
Qed.

Lemma not_in_get_none k d : (forall v, ~ In (k, v) d) -> Dict.get k d = None.
Proof.
  induction d as [|[k' v'] r IH]; simpl; auto.
  intros Hn. destruct (String.eqb k k') eqn:E.
  - apply String.eqb_eq in E. subst. exfalso. apply (Hn v'). auto.
  - apply IH. intros v Hin. apply (Hn v). auto.
Qed.

Lemma get_some_in k v d : Dict.get k d = Some v -> In (k, v) d.
Proof.
  induction d as [|[k' v'] r IH]; simpl; [discriminate|].
  destruct (String.eqb k k') eqn:E.
  - apply String.eqb_eq in E. intros [= ->]. subst. auto.
  - auto.
Qed.

End Facts.

End DictFacts.

(** ** What a load returns *)


Lemma load_users_eq (w : World) : _load_users w = (Ret (stored_users w), w).
Proof.
  unfold _load_users, try_except, bind, read_users, lift, ret, stored_users.
  destruct (users_file w); reflexivity.
Qed.

Lemma load_sessions_eq (now : datetime) (w : World) :
  _load_sessions now w =
  (Ret (_cleanup_expired_sessions now (stored_sessions w)), w).
Proof.
  unfold _load_sessions, try_except, bind, read_sessions, lift, ret,
    stored_sessions.
  destruct (sessions_file w); reflexivity.
Qed.

(** ** Loading never raises (C8) *)

(** C8. Whatever state the backing files are in, loading the user
    collection and loading the session collection both return a mapping
    (no exception reaches the caller) and leave the files as they were; the
    mapping is empty when the backing file is missing or cannot be
    parsed. *)
Theorem load_returns_empty_on_bad_file (w : World) (now : datetime) :
  (exists users, _load_users w = (Ret users, w)) /\
  (exists sessions, _load_sessions now w = (Ret sessions, w)) /\
  (absent_or_unparsable (users_file w) -> _load_users w = (Ret [], w)) /\
  (absent_or_unparsable (sessions_file w) ->
   _load_sessions now w = (Ret [], w)).
Proof.
  repeat split.
  - eexists. apply load_users_eq.
  - eexists. apply load_sessions_eq.
  - intros [H|H]; rewrite load_users_eq; unfold stored_users;
      rewrite H; reflexivity.
  - intros [H|H]; rewrite load_sessions_eq; unfold stored_sessions;
      rewrite H; reflexivity.
Qed.

Lemma load_returns_empty_on_bad_file_witness :
  _load_users damaged_world = (Ret [], damaged_world) /\
  _load_sessions 0 damaged_world = (Ret [], damaged_world).
Proof.
  destruct (load_returns_empty_on_bad_file damaged_world 0)
    as (_ & _ & Hu & Hs).
  split.
  - apply Hu. left. reflexivity.
  - apply Hs. right. reflexivity.
Defined.

(** ** Loaded sessions are live (C6) *)

Lemma cleanup_loop_live now items :
  forall acc,
    Forall (fun kv => session_live now (snd kv)) acc ->
    Forall (fun kv => session_live now (snd kv)) (cleanup_loop now items acc).
Proof.
  induction items as [|[sid s] rest IH]; intros acc Hacc; simpl; auto.
  destruct (sd_expires_at s) as [[e|txt]|] eqn:He; simpl; auto.
  destruct (e >? now) eqn:Hgt; simpl; auto.
  destruct (get_or (sd_is_active s) true) eqn:Hact; auto.
  apply IH. rewrite Forall_forall in *. intros [k v] Hin.
  apply DictFacts.in_set_inv in Hin. destruct Hin as [Heq|Hin].
  - inversion Heq; subst. simpl. exists e. repeat split; auto.
    apply Z.gtb_lt in Hgt. lia.
  - exact (Hacc _ Hin).
Qed.

Lemma cleanup_loop_incl now items :
  forall acc, incl (cleanup_loop now items acc) (items ++ acc).
Proof.
  induction items as [|[sid s] rest IH]; intros acc; simpl.
  - apply incl_refl.
  - assert (Hskip : incl (cleanup_loop now rest acc)
                         ((sid, s) :: rest ++ acc))
      by (apply incl_tl, IH).
    destruct (fromisoformat (get_or (sd_expires_at s) (NotIso "")))
      as [e|x]; auto.
    destruct ((e >? now) && get_or (sd_is_active s) true); auto.
    intros kv Hin. apply IH in Hin. apply in_app_or in Hin.
    destruct Hin as [Hin|Hin].
    + right. apply in_or_app. auto.
    + destruct kv as [k v]. apply DictFacts.in_set_inv in Hin.
      destruct Hin as [Heq|Hin].
      * left. symmetry. exact Heq.
      * right. apply in_or_app. auto.
Qed.

(** C6. Every load of the session collection returns a mapping (it never
    raises), each record of which is one of the stored records, has an
    expiry strictly later than the clock reading of the load, and has a
    true active flag; no expired or inactive session is returned. *)
Theorem load_sessions_only_live (w : World) (now : datetime) :
  exists sessions,
    _load_sessions now w = (Ret sessions, w) /\
    Forall (fun kv => session_live now (snd kv)) sessions /\
    incl sessions (stored_sessions w).
Proof.
  exists (_cleanup_expired_sessions now (stored_sessions w)).
  split; [apply load_sessions_eq|]. split.
  - apply cleanup_loop_live. constructor.
  - unfold _cleanup_expired_sessions.
    intros kv Hin. apply cleanup_loop_incl in Hin.
    now rewrite app_nil_r in Hin.
Qed.

(** A stored collection with one live, one expired, one switched-off and
    one malformed record: only the live one is loaded. *)
Example cleanup_keeps_only_live :
  let mk exp act :=
    {| sd_session_id := None; sd_user_id := Some "u";
       sd_created_at := None; sd_expires_at := exp;
       sd_last_active := None; sd_ip_address := None;
       sd_user_agent := None; sd_is_active := act |} in
  _cleanup_expired_sessions 100
    [("live", mk (Some (Iso 101)) None);
     ("due", mk (Some (Iso 100)) (Some true));
     ("off", mk (Some (Iso 500)) (Some false));
     ("bad", mk (Some (NotIso "soon")) (Some true));
     ("bare", mk None (Some true))]
  = [("live", mk (Some (Iso 101)) None)].
Proof. reflexivity. Qed.

(** ** The role order (C7) *)

Lemma require_role_only_reads_role (required_role : string) (u : user_view) :
  require_role required_role (Some u) =
  require_role required_role (Some (user_with_role (uv_role u))).
Proof. reflexivity. Qed.

(** C7. The guard ranks the roles viewer = 1, pm = 2, admin = 3. Against
    the minimum role pm, a user whose role is admin passes, a user whose
    role is pm passes, and a user whose role is viewer is refused, whatever
    the other fields of the user are. *)
Theorem require_role_pm_minimum (u : user_view) (default : Z) :
  role_hierarchy_get "viewer" default = 1 /\
  role_hierarchy_get "pm" default = 2 /\
  role_hierarchy_get "admin" default = 3 /\
  require_role "pm"
    (Some {| uv_user_id := uv_user_id u; uv_email := uv_email u;
             uv_name := uv_name u; uv_role := "admin";
             uv_preferences := uv_preferences u |}) = Proceed /\
  require_role "pm"
    (Some {| uv_user_id := uv_user_id u; uv_email := uv_email u;
             uv_name := uv_name u; uv_role := "pm";
             uv_preferences := uv_preferences u |}) = Proceed /\
  require_role "pm"
    (Some {| uv_user_id := uv_user_id u; uv_email := uv_email u;
             uv_name := uv_name u; uv_role := "viewer";
             uv_preferences := uv_preferences u |})
  = Forbidden "Insufficient permissions. Required: pm".
Proof. repeat split. Qed.

(** ** How the cleanup treats one key *)

Lemma cleanup_loop_cons now k s rest acc :
  cleanup_loop now ((k, s) :: rest) acc =
  cleanup_loop now rest (if kept now s then Dict.set k s acc else acc).
Proof.
  unfold kept. simpl.
  destruct (fromisoformat (get_or (sd_expires_at s) (NotIso "")))
    as [e|x]; auto.
  destruct ((e >? now) && get_or (sd_is_active s) true); auto.
Qed.

Lemma cleanup_get_dropped now k items :
  forall acc,
    (forall s, In (k, s) items -> kept now s = false) ->
    Dict.get k (cleanup_loop now items acc) = Dict.get k acc.
Proof.
  induction items as [|[k0 s0] rest IH]; intros acc Hdead; auto.
  rewrite cleanup_loop_cons, IH.
  - destruct (kept now s0) eqn:Hk; auto.
    destruct (String.eqb k0 k) eqn:E.
    + apply String.eqb_eq in E. subst k0.
      rewrite (Hdead s0) in Hk; [discriminate | now left].
    + apply DictFacts.get_set_other. intros ->.
      now rewrite String.eqb_refl in E.
  - intros s Hin. apply Hdead. now right.
Qed.

Lemma cleanup_get_kept now k s items :
  forall acc,
    NoDup (map fst items) -> In (k, s) items -> kept now s = true ->
    Dict.get k (cleanup_loop now items acc) = Some s.
Proof.
  induction items as [|[k0 s0] rest IH]; intros acc Hnd Hin Hk;
    [destruct Hin|].
  rewrite cleanup_loop_cons. simpl in Hnd. inversion Hnd as [|? ? Hk0 Hnd'].
  subst. destruct Hin as [Heq|Hin].
  - inversion Heq; subst. rewrite Hk.
    rewrite cleanup_get_dropped.
    + apply DictFacts.get_set_same.
    + intros s' Hin'. exfalso. apply Hk0.
      change k with (fst (k, s')). now apply in_map.
  - now apply IH.
Qed.

Lemma set_keys_nodup {V} k (v : V) d :
  NoDup (map fst d) -> NoDup (map fst (Dict.set k v d)).
Proof.
  induction d as [|[k0 v0] r IH]; simpl; intros Hnd.
  - constructor; [intros []|constructor].
  - destruct (String.eqb k k0) eqn:E; simpl; auto.
    inversion Hnd as [|? ? Hk0 Hnd']; subst. constructor; auto.
    intros Hin. apply in_map_iff in Hin. destruct Hin as ([k1 v1] & Hf & Hin).
    simpl in Hf. subst k1. apply DictFacts.in_set_inv in Hin.
    destruct Hin as [Heq|Hin].
    + inversion Heq; subst. now rewrite String.eqb_refl in E.
    + apply Hk0. change k0 with (fst (k0, v1)). now apply in_map.
Qed.

Lemma cleanup_keys_nodup now items :
  forall acc,
    NoDup (map fst acc) -> NoDup (map fst (cleanup_loop now items acc)).
Proof.
  induction items as [|[k0 s0] rest IH]; intros acc Hnd; auto.
  rewrite cleanup_loop_cons. apply IH.
  destruct (kept now s0); auto using set_keys_nodup.
Qed.

Lemma nodup_in_get {V} k (v : V) d :
  NoDup (map fst d) -> In (k, v) d -> Dict.get k d = Some v.
Proof.
  induction d as [|[k0 v0] r IH]; simpl; intros Hnd Hin; [destruct Hin|].
  inversion Hnd as [|? ? Hk0 Hnd']; subst. destruct Hin as [Heq|Hin].
  - inversion Heq; subst. now rewrite String.eqb_refl.
  - destruct (String.eqb k k0) eqn:E; auto.
    apply String.eqb_eq in E. subst k0. exfalso. apply Hk0.
    change k with (fst (k, v)). now apply in_map.
Qed.

(** What the collection loaded at [now] holds under a key that a fresh
    record [s] was just stored under: [s] itself if it is kept, nothing
    otherwise. *)
Lemma reload_after_store now t k s (stored : Dict.t session_data) :
  Dict.get k
    (_cleanup_expired_sessions now
       (Dict.set k s (_cleanup_expired_sessions t stored)))
  = if kept now s then Some s else None.
Proof.
  unfold _cleanup_expired_sessions.
  set (d := Dict.set k s (cleanup_loop t stored [])).
  assert (Hnd : NoDup (map fst d)).
  { apply set_keys_nodup, cleanup_keys_nodup. constructor. }
  assert (Hin : In (k, s) d) by apply DictFacts.in_set_same.
  destruct (kept now s) eqn:Hk.
  - now apply cleanup_get_kept.
  - rewrite cleanup_get_dropped; auto.
    intros s' Hin'. apply (nodup_in_get _ _ _ Hnd) in Hin'.
    unfold d in Hin'. rewrite DictFacts.get_set_same in Hin'.
    now inversion Hin'; subst.
Qed.

(** ** Guest sessions (C1, C10) *)

Lemma guest_session_enabled cfg ip ua epoch sid now t_load w :
  enable_guest_mode cfg = true ->
  exists u,
    uv_user_id u = guest_id epoch /\
    uv_role u = "viewer" /\
    guest_session cfg ip ua epoch sid now t_load w =
    (Ret (GuestSuccess sid u (Iso (now + timedelta_hours 2)) true),
     {| users_file := users_file w;
        sessions_file :=
          Stored (Dict.set sid (guest_record ip ua epoch sid now)
                    (_cleanup_expired_sessions t_load (stored_sessions w)));
        config_file := config_file w |}).
Proof.
  intros Hen. unfold guest_session. rewrite Hen.
  eexists. split; [|split]; cycle 2.
  - run_py. rewrite load_sessions_eq. reflexivity.
  - reflexivity.
  - reflexivity.
Qed.

Lemma guest_session_disabled cfg ip ua epoch sid now t_load w :
  enable_guest_mode cfg = false ->
  guest_session cfg ip ua epoch sid now t_load w =
  (Ret (GuestFailure "Guest mode is disabled"), w).
Proof. intros Hen. unfold guest_session. now rewrite Hen. Qed.

(** C1, as amended. Whenever guest mode is enabled, [guest_session]
    succeeds and stores under the returned token a session created at the
    clock reading and expiring exactly two hours later, whatever
    [session_timeout_hours] is; the reply carries the same expiry. *)
Theorem guest_session_lifetime_two_hours
    cfg ip ua epoch sid (now t_load : datetime) w :
  enable_guest_mode cfg = true ->
  exists u w' s created expires,
    guest_session cfg ip ua epoch sid now t_load w =
      (Ret (GuestSuccess sid u (Iso expires) true), w') /\
    Dict.get sid (stored_sessions w') = Some s /\
    sd_created_at s = Some (Iso created) /\
    sd_expires_at s = Some (Iso expires) /\
    expires - created = timedelta_hours 2 /\
    timedelta_hours 2 = 7200000000.
Proof.
  intros Hen.
  destruct (guest_session_enabled cfg ip ua epoch sid now t_load w Hen)
    as (u & _ & _ & Hrun).
  eexists u, _, (guest_record ip ua epoch sid now), now, _.
  split; [exact Hrun|]. split.
  - unfold stored_sessions. simpl. apply DictFacts.get_set_same.
  - repeat split. lia.
Qed.

Lemma guest_session_lifetime_two_hours_witness :
  exists u w' s created expires,
    guest_session (default_config "k") "127.0.0.1" "cli" 1700000000 "tok"
                  5 6 empty_world =
      (Ret (GuestSuccess "tok" u (Iso expires) true), w') /\
    Dict.get "tok" (stored_sessions w') = Some s /\
    sd_created_at s = Some (Iso created) /\
    sd_expires_at s = Some (Iso expires) /\
    expires - created = timedelta_hours 2 /\
    timedelta_hours 2 = 7200000000.
Proof.
  apply (guest_session_lifetime_two_hours
           (default_config "k") "127.0.0.1" "cli" 1700000000 "tok" 5 6
           empty_world).
  reflexivity.
Defined.

(** C1, as the specification words it, fails under the default
    configuration: the timeout is 24 hours, a quarter of it is 6 hours, and
    the guest session issued lives 2 hours. *)
Lemma guest_session_lifetime_not_a_quarter :
  exists u w' s created expires,
    guest_session (default_config "k") "127.0.0.1" "cli" 1700000000 "tok"
                  5 6 empty_world =
      (Ret (GuestSuccess "tok" u (Iso expires) true), w') /\
    Dict.get "tok" (stored_sessions w') = Some s /\
    sd_created_at s = Some (Iso created) /\
    sd_expires_at s = Some (Iso expires) /\
    session_timeout_hours (default_config "k") = 24 /\
    4 * (expires - created)
      <> timedelta_hours (session_timeout_hours (default_config "k")).
Proof.
  eexists _, _, _, 5, (5 + timedelta_hours 2).
  repeat (split; [vm_compute; reflexivity|]).
  unfold timedelta_hours. simpl session_timeout_hours. lia.
Qed.

(** ** The paths through [validate_session] *)

Lemma session_with_expiry_not_falsy s x :
  sd_expires_at s = Some x -> session_falsy s = false.
Proof.
  destruct s as [a b c d e f g h]. simpl. intros ->.
  destruct a, b, c; reflexivity.
Qed.

Section ValidatePaths.

Variables (session_id : string) (t_load t_check t_touch : datetime).
Variable w : World.

Local Abbreviation loaded := (loaded_sessions t_load w).

Lemma validate_session_no_id :
  PyStr.falsy session_id = true ->
  validate_session session_id t_load t_check t_touch w =
  (Ret (Invalid "No session ID provided"), w).
Proof. intros Hf. unfold validate_session. now rewrite Hf. Qed.

Lemma validate_session_not_found :
  PyStr.falsy session_id = false ->
  Dict.get session_id loaded = None ->
  validate_session session_id t_load t_check t_touch w =
  (Ret (Invalid "Session not found"), w).
Proof.
  intros Hf Hget. unfold validate_session. rewrite Hf.
  run_py. rewrite load_sessions_eq. change (_cleanup_expired_sessions t_load (stored_sessions w))
    with loaded. now rewrite Hget.
Qed.

Lemma validate_session_expired s expires_at :
  PyStr.falsy session_id = false ->
  Dict.get session_id loaded = Some s ->
  sd_expires_at s = Some (Iso expires_at) ->
  expires_at < t_check ->
  validate_session session_id t_load t_check t_touch w =
  (Ret (Invalid "Session expired"),
   with_sessions (Dict.del session_id loaded) w).
Proof.
  intros Hf Hget Hexp Hlt. unfold validate_session. rewrite Hf.
  run_py. rewrite load_sessions_eq. change (_cleanup_expired_sessions t_load (stored_sessions w))
    with loaded. rewrite Hget.
  assert (Hnf : session_falsy s = false)
    by (eapply session_with_expiry_not_falsy; eauto).
  rewrite Hnf, Hexp. cbv beta iota delta [fromisoformat].
  assert (Hgt : (t_check >? expires_at) = true)
    by (rewrite Z.gtb_ltb; now apply Z.ltb_lt).
  now rewrite Hgt.
Qed.

Lemma validate_session_no_owner s expires_at owner :
  PyStr.falsy session_id = false ->
  Dict.get session_id loaded = Some s ->
  sd_expires_at s = Some (Iso expires_at) ->
  t_check <= expires_at ->
  sd_user_id s = Some owner ->
  Dict.get owner (stored_users w) = None ->
  validate_session session_id t_load t_check t_touch w =
  (Ret (Invalid "User account not found or disabled"),
   with_sessions
     (Dict.set session_id (with_last_active s (isoformat t_touch)) loaded)
     w).
Proof.
  intros Hf Hget Hexp Hle Hown Huser. unfold validate_session. rewrite Hf.
  run_py. rewrite load_sessions_eq. change (_cleanup_expired_sessions t_load (stored_sessions w))
    with loaded. rewrite Hget.
  assert (Hnf : session_falsy s = false)
    by (eapply session_with_expiry_not_falsy; eauto).
  rewrite Hnf, Hexp. cbv beta iota delta [fromisoformat].
  assert (Hgt : (t_check >? expires_at) = false)
    by (rewrite Z.gtb_ltb; now apply Z.ltb_ge).
  rewrite Hgt. cbv beta iota. rewrite load_users_eq.
  cbn [sd_user_id with_last_active]. rewrite Hown.
  change (stored_users _) with (stored_users w). now rewrite Huser.
Qed.

End ValidatePaths.

Lemma kept_guest_record t ip ua epoch sid now :
  kept t (guest_record ip ua epoch sid now) = (now + timedelta_hours 2 >? t).
Proof. unfold kept. simpl. apply andb_true_r. Qed.

(** C10. A token handed out by a successful [guest_session] never
    validates: as long as the user collection holds no record under the
    guest identity, [validate_session] on that token returns an invalid
    result at every later clock reading. Before the guest session expires
    the reason is that the owning user is not found. *)
Theorem guest_token_never_validates
    cfg ip ua epoch sid (now t_load : datetime) w
    sid' u exp g w1 (t1 t2 t3 : datetime) :
  guest_session cfg ip ua epoch sid now t_load w =
    (Ret (GuestSuccess sid' u exp g), w1) ->
  Dict.get (uv_user_id u) (stored_users w1) = None ->
  exists error w2,
    validate_session sid' t1 t2 t3 w1 = (Ret (Invalid error), w2) /\
    (sid' <> "" ->
     t1 < now + timedelta_hours 2 -> t2 <= now + timedelta_hours 2 ->
     error = "User account not found or disabled").
Proof.
  intros Hrun Hnouser.
  destruct (enable_guest_mode cfg) eqn:Hen.
  2:{ rewrite guest_session_disabled in Hrun by assumption. discriminate. }
  destruct (guest_session_enabled cfg ip ua epoch sid now t_load w Hen)
    as (u0 & Hid & _ & Heq).
  rewrite Heq in Hrun. inversion Hrun; subst sid' u0 exp g w1.
  clear Hrun Heq. rewrite Hid in Hnouser.
  set (rec := guest_record ip ua epoch sid now) in *.
  set (w1 := {| users_file := users_file w |}) in *.
  destruct (PyStr.falsy sid) eqn:Hf.
  { do 2 eexists. split; [now apply validate_session_no_id|].
    intros Hne. destruct sid; [now elim Hne | discriminate]. }
  assert (Hget :
    Dict.get sid (_cleanup_expired_sessions t1 (stored_sessions w1))
    = if kept t1 rec then Some rec else None).
  { apply reload_after_store. }
  unfold rec in Hget at 1. rewrite kept_guest_record in Hget. fold rec in Hget.
  destruct (now + timedelta_hours 2 >? t1) eqn:Hlive; zify_cmp.
  2:{ do 2 eexists. split; [now apply validate_session_not_found|]. lia. }
  destruct (Z_lt_le_dec (now + timedelta_hours 2) t2) as [Hexp|Hok].
  - do 2 eexists. split; [|lia].
    eapply validate_session_expired; eauto. reflexivity.
  - do 2 eexists. split; [|reflexivity].
    eapply validate_session_no_owner; eauto; reflexivity.
Qed.

Lemma guest_token_never_validates_witness :
  exists u w1 error w2,
    guest_session (default_config "k") "127.0.0.1" "cli" 1700000000 "tok"
                  5 6 empty_world =
      (Ret (GuestSuccess "tok" u (Iso (5 + timedelta_hours 2)) true), w1) /\
    Dict.get (uv_user_id u) (stored_users w1) = None /\
    validate_session "tok" 7 8 9 w1 = (Ret (Invalid error), w2) /\
    error = "User account not found or disabled".
Proof.
  destruct (guest_session_enabled (default_config "k") "127.0.0.1" "cli"
              1700000000 "tok" 5 6 empty_world eq_refl)
    as (u & Hid & _ & Hrun).
  assert (Hnone :
    Dict.get (uv_user_id u)
      (stored_users
         (with_sessions
            (Dict.set "tok" (guest_record "127.0.0.1" "cli" 1700000000 "tok" 5)
               (_cleanup_expired_sessions 6 (stored_sessions empty_world)))
            empty_world)) = None) by reflexivity.
  destruct (guest_token_never_validates
              _ _ _ _ _ _ _ _ _ _ _ _ _ 7 8 9 Hrun Hnone)
    as (error & w2 & Hval & Hwhy).
  eexists u, _, error, w2.
  split; [exact Hrun|]. split; [exact Hnone|]. split; [exact Hval|].
  apply Hwhy; [discriminate | unfold timedelta_hours; lia
              | unfold timedelta_hours; lia].
Defined.

(** ** Validation at or after expiry (C2) *)

Lemma kept_false_after_expiry now s e :
  sd_expires_at s = Some (Iso e) -> e <= now -> kept now s = false.
Proof.
  intros He Hle. unfold kept. rewrite He. simpl.
  assert (Hgt : (e >? now) = false)
    by (rewrite Z.gtb_ltb; now apply Z.ltb_ge).
  now rewrite Hgt.
Qed.

(** C2, what the code does. Take a token all of whose stored records have
    reached their expiry by the time the load reads the clock. Then
    [validate_session] answers "Session not found" (the cleanup made by
    the load has already dropped the record, so the expiry test that
    answers "Session expired" is never reached) and leaves the files
    untouched; the record is absent from that load and from every later
    one. *)
Theorem validate_session_after_expiry_not_found
    (w : World) (session_id : string) (t_load t_check t_touch : datetime) :
  session_id <> "" ->
  (forall s, In (session_id, s) (stored_sessions w) ->
     exists expires_at,
       sd_expires_at s = Some (Iso expires_at) /\ expires_at <= t_load) ->
  validate_session session_id t_load t_check t_touch w =
    (Ret (Invalid "Session not found"), w) /\
  forall t_later, t_load <= t_later ->
    exists sessions,
      _load_sessions t_later w = (Ret sessions, w) /\
      Dict.get session_id sessions = None.
Proof.
  intros Hne Hexp.
  assert (Hgone : forall t, t_load <= t ->
    Dict.get session_id (_cleanup_expired_sessions t (stored_sessions w))
    = None).
  { intros t Ht. unfold _cleanup_expired_sessions.
    rewrite cleanup_get_dropped; [reflexivity|].
    intros s Hin. destruct (Hexp s Hin) as (e & He & Hle).
    eapply kept_false_after_expiry; [exact He | lia]. }
  split.
  - apply validate_session_not_found.
    + destruct session_id; [now elim Hne | reflexivity].
    + apply Hgone. lia.
  - intros t Ht. eexists. split; [apply load_sessions_eq | now apply Hgone].
Qed.

Lemma validate_session_after_expiry_not_found_witness :
  validate_session "tok" 100 100 100 one_session_world =
    (Ret (Invalid "Session not found"), one_session_world) /\
  forall t_later, 100 <= t_later ->
    exists sessions,
      _load_sessions t_later one_session_world
        = (Ret sessions, one_session_world) /\
      Dict.get "tok" sessions = None.
Proof.
  apply (validate_session_after_expiry_not_found one_session_world
           "tok" 100 100 100).
  - discriminate.
  - intros s [Heq|[]]. inversion Heq; subst. exists 100. split.
    + reflexivity.
    + lia.
Defined.

(** The same session one tick before its expiry validates. *)
Example validate_session_before_expiry :
  exists u s w',
    validate_session "tok" 99 99 99 one_session_world
      = (Ret (Valid u s), w') /\
    uv_user_id u = "u1" /\ sv_last_active s = Iso 99.
Proof. do 3 eexists. split; [vm_compute; reflexivity|]. split; reflexivity. Qed.

(** The expiry test of [validate_session] is reached with an expired
    record only when the expiry falls between the clock reading of the load
    and that of the test; the record is then deleted from the file. *)
Example validate_session_expired_in_between :
  validate_session "tok" 99 101 101 one_session_world =
  (Ret (Invalid "Session expired"), with_sessions [] one_session_world).
Proof. reflexivity. Qed.

(** Conversely, "Session expired" is answered only in that window: the
    record was still unexpired when the load read the clock and had
    expired when the test read it. *)
Lemma validate_session_expired_only_in_between
    (w w' : World) (session_id : string) (t_load t_check t_touch : datetime) :
  validate_session session_id t_load t_check t_touch w
    = (Ret (Invalid "Session expired"), w') ->
  exists s expires_at,
    In (session_id, s) (stored_sessions w) /\
    sd_expires_at s = Some (Iso expires_at) /\
    t_load < expires_at < t_check.
Proof.
  unfold validate_session. destruct (PyStr.falsy session_id); [discriminate|].
  run_py. rewrite load_sessions_eq.
  destruct (Dict.get session_id _) as [s|] eqn:Hget; [|discriminate].
  destruct (session_falsy s); [discriminate|].
  apply DictFacts.get_some_in in Hget.
  assert (Hlive : session_live t_load s).
  { pose proof (cleanup_loop_live t_load (stored_sessions w) [] (Forall_nil _))
      as Hall.
    rewrite Forall_forall in Hall. exact (Hall _ Hget). }
  destruct Hlive as (e & He & Hlt & _).
  rewrite He. cbv beta iota delta [fromisoformat].
  destruct (t_check >? e) eqn:Hgt.
  - intros _. exists s, e. zify_cmp. repeat split; auto.
    apply cleanup_loop_incl in Hget. now rewrite app_nil_r in Hget.
  - cbv beta iota. rewrite load_users_eq.
    cbn [with_last_active sd_user_id sd_created_at sd_expires_at
         sd_last_active].
    rewrite He.
    destruct (sd_user_id s) as [owner|]; [|discriminate].
    destruct (Dict.get owner _) as [data|]; [|discriminate].
    destruct (user_falsy data); [discriminate|].
    destruct (get_or (ud_is_active data) true); [|discriminate].
    cbv beta iota delta [orb].
    destruct (ud_user_id data), (ud_email data), (ud_name data),
      (ud_role data), (sd_created_at s); discriminate.
Qed.

(** ** The paths through [create_user] and [authenticate_user] *)

Section UserPaths.

Variable sha256_hexdigest : string -> string.
Variable cfg : config.

Local Abbreviation hash := (_hash_password sha256_hexdigest cfg).

Lemma create_user_eq email name password role user_id now w :
  create_user sha256_hexdigest cfg email name password role user_id now w =
  if email_taken email (stored_users w) then
    (Ret (CreateFailure "User with this email already exists"), w)
  else
    (Ret (CreateSuccess user_id ("User " ++ name ++ " created successfully")),
     with_users
       (Dict.set user_id
          (new_user_record sha256_hexdigest cfg email name password role
             user_id now)
          (stored_users w)) w).
Proof.
  unfold create_user, email_taken. run_py. rewrite load_users_eq.
  destruct (existsb _ (stored_users w)); reflexivity.
Qed.

Lemma email_taken_iff email users :
  email_taken email users = true <->
  exists k data,
    In (k, data) users /\
    PyStr.lower (get_or (ud_email data) "") = PyStr.lower email.
Proof.
  unfold email_taken. rewrite existsb_exists. split.
  - intros ([k data] & Hin & Hm). exists k, data. split; auto.
    now apply String.eqb_eq in Hm.
  - intros (k & data & Hin & Hm). exists (k, data). split; auto.
    now apply String.eqb_eq.
Qed.

Lemma find_by_email_none email users :
  email_taken email users = false -> find_by_email email users = None.
Proof.
  induction users as [|[k data] r IH]; simpl; auto.
  destruct (email_matches email data); simpl; [discriminate | auto].
Qed.

Lemma find_by_email_taken email users :
  email_taken email users = true ->
  exists uid data,
    find_by_email email users = Some (uid, data) /\
    In (uid, data) users /\ email_matches email data = true.
Proof.
  induction users as [|[k data] r IH]; simpl; [discriminate|].
  destruct (email_matches email data) eqn:E; simpl.
  - intros _. exists k, data. auto.
  - intros H. destruct (IH H) as (uid & d & Hf & Hin & Hm).
    exists uid, d. auto.
Qed.

Lemma find_by_email_after_set email users k data :
  email_taken email users = false ->
  email_matches email data = true ->
  find_by_email email (Dict.set k data users) = Some (k, data).
Proof.
  intros Hfree Hm. induction users as [|[k0 d0] r IH]; simpl in *.
  - now rewrite Hm.
  - apply orb_false_iff in Hfree. destruct Hfree as [Hd0 Hr].
    destruct (String.eqb k k0) eqn:E; simpl.
    + apply String.eqb_eq in E. subst k0. now rewrite Hm.
    + rewrite Hd0. auto.
Qed.

Variables (email password ip_address user_agent session_id : string).
Variables (now t_load : datetime).
Variable w : World.

Local Abbreviation run :=
  (authenticate_user sha256_hexdigest cfg email password
     ip_address user_agent session_id now t_load w).

Lemma authenticate_user_unknown :
  find_by_email email (stored_users w) = None ->
  run = (Ret (AuthFailure "Invalid email or password"), w).
Proof.
  intros Hf. unfold authenticate_user. run_py.
  rewrite load_users_eq. now rewrite Hf.
Qed.

Lemma authenticate_user_wrong_password uid data :
  find_by_email email (stored_users w) = Some (uid, data) ->
  str_ne_opt (hash password) (ud_password_hash data) = true ->
  run = (Ret (AuthFailure "Invalid email or password"), w).
Proof.
  intros Hf Hne. unfold authenticate_user. run_py.
  rewrite load_users_eq, Hf, Hne. now destruct (user_falsy data).
Qed.

Lemma user_with_hash_not_falsy data h :
  ud_password_hash data = Some h -> user_falsy data = false.
Proof.
  destruct data as [a b c d e f g h' i]. simpl. intros ->.
  destruct a, b, c, d, e, f, g, h'; reflexivity.
Qed.

Lemma authenticate_user_disabled uid data :
  find_by_email email (stored_users w) = Some (uid, data) ->
  ud_password_hash data = Some (hash password) ->
  get_or (ud_is_active data) true = false ->
  run = (Ret (AuthFailure "User account is disabled"), w).
Proof.
  intros Hf Hh Hact. unfold authenticate_user. run_py.
  rewrite load_users_eq, Hf, (user_with_hash_not_falsy _ _ Hh), Hh.
  unfold str_ne_opt. now rewrite String.eqb_refl, Hact.
Qed.

Lemma authenticate_user_success uid data user_id e name role :
  find_by_email email (stored_users w) = Some (uid, data) ->
  ud_password_hash data = Some (hash password) ->
  get_or (ud_is_active data) true = true ->
  ud_user_id data = Some user_id ->
  ud_email data = Some e ->
  ud_name data = Some name ->
  ud_role data = Some role ->
  let expires_at := now + timedelta_hours (session_timeout_hours cfg) in
  let data' := with_last_login data (Iso now) in
  run =
  (Ret (AuthSuccess session_id
          {| uv_user_id := user_id; uv_email := e; uv_name := name;
             uv_role := role;
             uv_preferences := get_or (ud_preferences data) [] |}
          (Iso expires_at)),
   with_users
     (Dict.set user_id data' (Dict.set uid data' (stored_users w)))
     (with_sessions
        (Dict.set session_id
           (Session session_id user_id (Iso now) (Iso expires_at) (Iso now)
                    ip_address user_agent)
           (_cleanup_expired_sessions t_load (stored_sessions w)))
        w)).
Proof.
  intros Hf Hh Hact Hid He Hn Hr. unfold authenticate_user. run_py.
  rewrite load_users_eq, Hf, (user_with_hash_not_falsy _ _ Hh), Hh.
  unfold str_ne_opt. rewrite String.eqb_refl, Hact, Hid. run_py.
  rewrite load_sessions_eq.
  cbn [ud_email ud_name ud_role ud_preferences with_last_login].
  now rewrite He, Hn, Hr.
Qed.

End UserPaths.

(** ** Authentication failures (C3) *)

(** C3, as amended. An unknown email and a wrong password get the same
    generic failure, "Invalid email or password", and change nothing in
    storage. A disabled account presented with its correct password gets a
    different failure, "User account is disabled". *)
Theorem authenticate_user_failure_messages
    (sha256_hexdigest : string -> string) (cfg : config)
    (email password ip_address user_agent session_id : string)
    (now t_load : datetime) (w : World) :
  let run := authenticate_user sha256_hexdigest cfg email password
               ip_address user_agent session_id now t_load w in
  let digest := _hash_password sha256_hexdigest cfg password in
  (email_taken email (stored_users w) = false ->
   run = (Ret (AuthFailure "Invalid email or password"), w)) /\
  (forall uid data,
     find_by_email email (stored_users w) = Some (uid, data) ->
     ud_password_hash data <> Some digest ->
     run = (Ret (AuthFailure "Invalid email or password"), w)) /\
  (forall uid data,
     find_by_email email (stored_users w) = Some (uid, data) ->
     ud_password_hash data = Some digest ->
     ud_is_active data = Some false ->
     run = (Ret (AuthFailure "User account is disabled"), w)).
Proof.
  intros run digest. repeat split.
  - intros Hfree. apply authenticate_user_unknown.
    now apply find_by_email_none.
  - intros uid data Hf Hne. apply (authenticate_user_wrong_password
      sha256_hexdigest cfg email password _ _ _ _ _ w uid data Hf).
    fold digest. destruct (ud_password_hash data) as [h|]; simpl; auto.
    destruct (String.eqb digest h) eqn:E; auto.
    apply String.eqb_eq in E. subst h. now elim Hne.
  - intros uid data Hf Hh Hact. apply (authenticate_user_disabled
      sha256_hexdigest cfg email password _ _ _ _ _ w uid data Hf Hh).
    now rewrite Hact.
Qed.

Lemma authenticate_user_failure_messages_witness :
  let w := two_users_world toy_digest in
  let login email password :=
    authenticate_user toy_digest (default_config "k") email password
      "127.0.0.1" "cli" "tok" 5 6 w in
  login "zed@example.com" "pw"
    = (Ret (AuthFailure "Invalid email or password"), w) /\
  login "Ann@Example.com" "bad"
    = (Ret (AuthFailure "Invalid email or password"), w) /\
  login "bob@example.com" "pw"
    = (Ret (AuthFailure "User account is disabled"), w).
Proof.
  set (w := two_users_world toy_digest).
  pose proof (authenticate_user_failure_messages toy_digest
                (default_config "k") "zed@example.com" "pw"
                "127.0.0.1" "cli" "tok" 5 6 w) as (Hzed & _ & _).
  pose proof (authenticate_user_failure_messages toy_digest
                (default_config "k") "Ann@Example.com" "bad"
                "127.0.0.1" "cli" "tok" 5 6 w) as (_ & Hann & _).
  pose proof (authenticate_user_failure_messages toy_digest
                (default_config "k") "bob@example.com" "pw"
                "127.0.0.1" "cli" "tok" 5 6 w) as (_ & _ & Hbob).
  split; [|split].
  - apply Hzed. reflexivity.
  - eapply Hann; [reflexivity | discriminate].
  - eapply Hbob; reflexivity.
Defined.

(** C3, as the specification words it, fails: whatever the digest
    function, Bob's disabled account presented with its correct password
    is not answered with the generic message. *)
Lemma authenticate_user_disabled_not_generic :
  ~ exists sha256_hexdigest : string -> string,
      fst (authenticate_user sha256_hexdigest (default_config "k")
             "bob@example.com" "pw" "127.0.0.1" "cli" "tok" 5 6
             (two_users_world sha256_hexdigest))
      = Ret (AuthFailure "Invalid email or password").
Proof.
  intros (H & Heq).
  rewrite (authenticate_user_disabled H (default_config "k")
             "bob@example.com" "pw" "127.0.0.1" "cli" "tok" 5 6
             (two_users_world H) "id-bob" _ eq_refl eq_refl eq_refl) in Heq.
  discriminate Heq.
Qed.

(** ** One account per email (C4) *)

Section CreateRuns.

Variable sha256_hexdigest : string -> string.
Variable cfg : config.

Lemma email_taken_false email users k data :
  email_taken email users = false -> In (k, data) users ->
  email_matches email data = false.
Proof.
  unfold email_taken. intros Hfree Hin.
  destruct (email_matches email data) eqn:E; auto.
  assert (Ht : existsb (fun kv => email_matches email (snd kv)) users = true)
    by (apply existsb_exists; exists (k, data); auto).
  congruence.
Qed.

Lemma create_users_distinct calls :
  forall w,
    NoDup (map cc_user_id calls) ->
    NoDup (map PyStr.lower
             (fst (create_users sha256_hexdigest cfg calls w))) /\
    forall k data,
      In (k, data) (stored_users w) -> ~ In k (map cc_user_id calls) ->
      forall e, In e (fst (create_users sha256_hexdigest cfg calls w)) ->
        email_matches e data = false.
Proof.
  induction calls as [|c rest IH]; intros w Hnd; simpl.
  - split; [constructor | intros k data _ _ e []].
  - inversion Hnd as [|? ? Hfresh Hnd']; subst.
    unfold create_call_run. rewrite create_user_eq.
    destruct (email_taken (cc_email c) (stored_users w)) eqn:Htaken.
    + destruct (IH w Hnd') as [Hdistinct Hold]. split; auto.
      intros k data Hin Hk. apply (Hold k data); auto.
    + set (record := new_user_record _ _ _ _ _ _ _ _).
      set (w1 := with_users _ w).
      destruct (IH w1 Hnd') as [Hdistinct Hold].
      destruct (create_users sha256_hexdigest cfg rest w1) as [created w2].
      simpl in *. split.
      * constructor; auto. intros Hin. apply in_map_iff in Hin.
        destruct Hin as (e & Hlow & Hin).
        assert (Hm : email_matches e record = false).
        { apply (Hold (cc_user_id c) record); auto.
          apply DictFacts.in_set_same. }
        clear Hold.
        unfold email_matches in Hm. simpl in Hm.
        rewrite Hlow, String.eqb_refl in Hm. discriminate.
      * intros k data Hin Hk e [<-|He].
        -- eapply email_taken_false; eauto.
        -- apply (Hold k data); auto.
           apply DictFacts.in_set_other; auto.
Qed.

End CreateRuns.

(** C4. If some stored record, active or not, carries an email equal to
    [email] up to letter case, [create_user] returns a failure and leaves
    storage exactly as it was. Hence, over any run of [create_user] calls
    that draw distinct identifiers, started from any state, the emails of
    the calls that succeed are pairwise different after case folding. *)
Theorem create_user_rejects_duplicate_email
    (sha256_hexdigest : string -> string) (cfg : config) :
  (forall w email name password role user_id now k data,
     In (k, data) (stored_users w) ->
     PyStr.lower (get_or (ud_email data) "") = PyStr.lower email ->
     create_user sha256_hexdigest cfg email name password role user_id now w
     = (Ret (CreateFailure "User with this email already exists"), w)) /\
  (forall calls w,
     NoDup (map cc_user_id calls) ->
     NoDup (map PyStr.lower
              (fst (create_users sha256_hexdigest cfg calls w)))).
Proof.
  split.
  - intros w email name password role user_id now k data Hin Hlow.
    rewrite create_user_eq.
    assert (Ht : email_taken email (stored_users w) = true)
      by (apply email_taken_iff; eauto).
    now rewrite Ht.
  - intros calls w Hnd. now apply create_users_distinct.
Qed.

Example three_registrations_created :
  fst (create_users toy_digest (default_config "k") three_registrations
         empty_world)
  = ["alice@example.com"; "carol@example.com"].
Proof. reflexivity. Qed.

Lemma create_user_rejects_duplicate_email_witness :
  create_user toy_digest (default_config "k") "BOB@Example.com" "Bobby" "x"
    "pm" "id-new" 9 (two_users_world toy_digest)
  = (Ret (CreateFailure "User with this email already exists"),
     two_users_world toy_digest) /\
  NoDup (map PyStr.lower
           (fst (create_users toy_digest (default_config "k")
                   three_registrations empty_world))).
Proof.
  destruct (create_user_rejects_duplicate_email toy_digest
              (default_config "k")) as [Hreject Hdistinct].
  split.
  - eapply (Hreject (two_users_world toy_digest)) with (k := "id-bob").
    + simpl. right. left. reflexivity.
    + reflexivity.
  - apply Hdistinct. simpl.
    repeat constructor; simpl; intuition discriminate.
Defined.

(** ** The digest *)

Example sha256_test_vectors :
  SHA256.hexdigest ""
  = "e3b0c44298fc1c149afbf4c8996fb92427ae41e4649b934ca495991b7852b855" /\
  SHA256.hexdigest "abc"
  = "ba7816bf8f01cfea414140de5dae2223b00361a396177a9cb410ff61f20015ad" /\
  SHA256.hexdigest
    "abcdbcdecdefdefgefghfghighijhijkijkljklmklmnlmnomnopnopq"
  = "248d6a61d20638b8e5c026930c3e6039a33ce45964ff2167f6ecedd419db06c1".
Proof. vm_compute. repeat split. Qed.

Example sha256_constants :
  List.length SHA256.primes = 64%nat /\
  nth 0 SHA256.K 0 = 0x428a2f98 /\ nth 63 SHA256.K 0 = 0xc67178f2 /\
  snd SHA256.H0 = 0x5be0cd19.
Proof. vm_compute. repeat split. Qed.

Lemma string_length_append (a b : string) :
  String.length (a ++ b) = (String.length a + String.length b)%nat.
Proof. induction a as [|c a IH]; simpl; auto. Qed.

(** A digest has 64 characters, whatever was hashed. *)
Lemma hexdigest_length (s : string) :
  String.length (SHA256.hexdigest s) = 64%nat.
Proof.
  unfold SHA256.hexdigest.
  destruct (SHA256.digest (SHA256.bytes_of s))
    as [[[[[[[a b] c] d] e] f] g] h].
  rewrite !string_length_append. reflexivity.
Qed.

(** ** Counting texts *)

Section Counting.
Local Open Scope nat_scope.

Lemma ab_words_length n : List.length (ab_words n) = 2 ^ n.
Proof.
  induction n as [|n IH]; [reflexivity|].
  cbn [ab_words]. rewrite length_app, !length_map, IH, Nat.pow_succ_r'. lia.
Qed.

Lemma NoDup_map_String c l : NoDup l -> NoDup (map (String c) l).
Proof.
  induction 1 as [|x l Hx Hnd IH]; cbn [map]; constructor; auto.
  intros Hin. apply in_map_iff in Hin.
  destruct Hin as (y & [= ->] & Hy). contradiction.
Qed.

Lemma NoDup_append {A} (l l' : list A) :
  NoDup l -> NoDup l' -> (forall x, In x l -> ~ In x l') -> NoDup (l ++ l').
Proof.
  induction 1 as [|x l Hx Hnd IH]; intros Hnd' Hsep; cbn [app]; auto.
  constructor.
  - intros Hin. apply in_app_or in Hin. destruct Hin as [Hin|Hin]; auto.
    exact (Hsep x (or_introl eq_refl) Hin).
  - apply IH; auto. intros y Hy. apply Hsep. now right.
Qed.

Lemma ab_words_letters n s : In s (ab_words n) -> String.length s = n.
Proof.
  revert s. induction n as [|n IH]; cbn [ab_words]; intros s Hin.
  - destruct Hin as [<-|[]]. reflexivity.
  - apply in_app_or in Hin.
    destruct Hin as [Hin|Hin]; apply in_map_iff in Hin;
      destruct Hin as (r & <- & Hr); cbn [String.length]; f_equal; auto.
Qed.

Lemma ab_words_NoDup n : NoDup (ab_words n).
Proof.
  induction n as [|n IH]; cbn [ab_words].
  - constructor; [intros []|constructor].
  - apply NoDup_append; try now apply NoDup_map_String.
    intros s Ha Hb. apply in_map_iff in Ha, Hb.
    destruct Ha as (x & <- & _), Hb as (y & Heq & _). discriminate.
Qed.

Lemma all_chars_length : List.length all_chars = 256.
Proof. unfold all_chars. now rewrite length_map, length_seq. Qed.

Lemma all_chars_complete c : In c all_chars.
Proof.
  unfold all_chars. apply in_map_iff. exists (nat_of_ascii c). split.
  - apply ascii_nat_embedding.
  - apply in_seq. pose proof (nat_ascii_bounded c). lia.
Qed.

Lemma flat_map_length_const {A B} (f : A -> list B) (m : nat) (l : list A) :
  (forall x, List.length (f x) = m) ->
  List.length (flat_map f l) = List.length l * m.
Proof.
  intros Hf. induction l as [|x l IH]; [reflexivity|].
  cbn [flat_map List.length]. rewrite length_app, Hf, IH. lia.
Qed.

Lemma all_strings_length n : List.length (all_strings n) = 256 ^ n.
Proof.
  induction n as [|n IH]; [reflexivity|].
  cbn [all_strings].
  rewrite (flat_map_length_const _ (256 ^ n)).
  - rewrite all_chars_length, Nat.pow_succ_r'. reflexivity.
  - intros c. now rewrite length_map.
Qed.

Lemma all_strings_complete s : In s (all_strings (String.length s)).
Proof.
  induction s as [|c s IH]; [now left|].
  cbn [String.length all_strings]. apply in_flat_map. exists c. split.
  - apply all_chars_complete.
  - now apply in_map.
Qed.

(** Two elements of a list without repeats that [f] sends to the same
    value, unless [f] is one to one on the list. *)
Lemma collision_or_NoDup {A} (f : A -> string) (l : list A) :
  NoDup l ->
  NoDup (map f l) \/
  exists x y, In x l /\ In y l /\ x <> y /\ f x = f y.
Proof.
  induction 1 as [|x l Hx Hnd IH]; [left; constructor|].
  destruct IH as [IH|(a & b & Ha & Hb & Hne & Heq)].
  - destruct (in_dec string_dec (f x) (map f l)) as [Hin|Hout].
    + right. apply in_map_iff in Hin. destruct Hin as (y & Heq & Hy).
      exists x, y. repeat split; [now left | now right | | now symmetry].
      intros ->. contradiction.
    + left. now constructor.
  - right. exists a, b. repeat split; auto; now right.
Qed.

Lemma pow_256_lt n : 256 ^ n < 2 ^ (8 * n + 1).
Proof.
  rewrite Nat.add_1_r, Nat.pow_succ_r', Nat.pow_mul_r.
  change (2 ^ 8) with 256.
  pose proof (Nat.pow_nonzero 256 n). lia.
Qed.

(** A function whose values all have [n] characters takes the same value
    on two different texts of [8 * n + 1] letters: there are more of
    these than there are values. *)
Lemma fixed_length_collides (f : string -> string) (n : nat) :
  (forall s, String.length (f s) = n) ->
  exists x y,
    x <> y /\ f x = f y /\
    String.length x = (8 * n + 1)%nat /\ String.length y = (8 * n + 1)%nat.
Proof.
  intros Hlen.
  destruct (collision_or_NoDup f (ab_words (8 * n + 1)) (ab_words_NoDup _))
    as [Hnd|(x & y & Hx & Hy & Hne & Heq)].
  2:{ exists x, y. repeat split; auto; now apply ab_words_letters. }
  exfalso.
  assert (Hincl : incl (map f (ab_words (8 * n + 1))) (all_strings n)).
  { intros d Hd. apply in_map_iff in Hd. destruct Hd as (s & <- & _).
    rewrite <- (Hlen s). apply all_strings_complete. }
  pose proof (NoDup_incl_length Hnd Hincl) as Hle.
  rewrite length_map, ab_words_length, all_strings_length in Hle.
  pose proof (pow_256_lt n). lia.
Qed.

End Counting.

(** ** Password round trip (C5) *)

Lemma email_taken_lower email email' users :
  PyStr.lower email' = PyStr.lower email ->
  email_taken email' users = email_taken email users.
Proof.
  intros Hlow. unfold email_taken, email_matches. now rewrite Hlow.
Qed.

(** After a successful [create_user], the digest of the password
    presented decides what [authenticate_user] answers. *)
Lemma authenticate_after_create
    (sha256_hexdigest : string -> string) (cfg : config)
    (email name password role user_id : string) (now : datetime)
    (w w1 : World) (new_id message : string)
    (email' p ip_address user_agent session_id : string)
    (t t_load : datetime) :
  create_user sha256_hexdigest cfg email name password role user_id now w
    = (Ret (CreateSuccess new_id message), w1) ->
  PyStr.lower email' = PyStr.lower email ->
  (_hash_password sha256_hexdigest cfg p
     = _hash_password sha256_hexdigest cfg password ->
   exists user expires_at w2,
     authenticate_user sha256_hexdigest cfg email' p
       ip_address user_agent session_id t t_load w1
     = (Ret (AuthSuccess session_id user expires_at), w2) /\
     uv_user_id user = new_id /\ uv_email user = email) /\
  (_hash_password sha256_hexdigest cfg p
     <> _hash_password sha256_hexdigest cfg password ->
   authenticate_user sha256_hexdigest cfg email' p
     ip_address user_agent session_id t t_load w1
   = (Ret (AuthFailure "Invalid email or password"), w1)).
Proof.
  intros Hcreate Hlow. rewrite create_user_eq in Hcreate.
  destruct (email_taken email (stored_users w)) eqn:Hfree;
    [discriminate|].
  inversion Hcreate; subst new_id message w1. clear Hcreate.
  set (record := new_user_record sha256_hexdigest cfg email name password
                   role user_id now).
  set (w1 := with_users (Dict.set user_id record (stored_users w)) w).
  assert (Hfind :
    find_by_email email' (stored_users w1) = Some (user_id, record)).
  { apply find_by_email_after_set.
    - now rewrite (email_taken_lower email email').
    - unfold email_matches. simpl. rewrite Hlow. apply String.eqb_refl. }
  split.
  - intros Heq. do 3 eexists. split.
    + apply (authenticate_user_success sha256_hexdigest cfg email' p
               ip_address user_agent session_id t t_load w1 user_id record
               user_id email name role Hfind); try reflexivity.
      simpl. now rewrite Heq.
    + split; reflexivity.
  - intros Hne.
    apply (authenticate_user_wrong_password sha256_hexdigest cfg email' p
             ip_address user_agent session_id t t_load w1 user_id record
             Hfind).
    simpl. destruct (String.eqb _ _) eqn:E; auto.
    apply String.eqb_eq in E. now elim Hne.
Qed.

(** C5, as amended. Right after a successful [create_user email name
    password], and under the same configuration, [authenticate_user] with
    that password succeeds for [email] in any letter case and returns the
    new account; with a password whose digest differs from the stored one
    it fails with the generic message and changes nothing; and with a
    password whose digest equals the stored one it succeeds, whether or
    not it is the password used at creation. *)
Theorem password_round_trip
    (sha256_hexdigest : string -> string) (cfg : config)
    (email name password role user_id : string) (now : datetime)
    (w w1 : World) (new_id message : string) :
  create_user sha256_hexdigest cfg email name password role user_id now w
    = (Ret (CreateSuccess new_id message), w1) ->
  (forall email' ip_address user_agent session_id t t_load,
     PyStr.lower email' = PyStr.lower email ->
     exists user expires_at w2,
       authenticate_user sha256_hexdigest cfg email' password
         ip_address user_agent session_id t t_load w1
       = (Ret (AuthSuccess session_id user expires_at), w2) /\
       uv_user_id user = new_id /\ uv_email user = email) /\
  (forall email' p ip_address user_agent session_id t t_load,
     PyStr.lower email' = PyStr.lower email ->
     _hash_password sha256_hexdigest cfg p
       <> _hash_password sha256_hexdigest cfg password ->
     authenticate_user sha256_hexdigest cfg email' p
       ip_address user_agent session_id t t_load w1
     = (Ret (AuthFailure "Invalid email or password"), w1)) /\
  (forall email' p ip_address user_agent session_id t t_load,
     PyStr.lower email' = PyStr.lower email ->
     _hash_password sha256_hexdigest cfg p
       = _hash_password sha256_hexdigest cfg password ->
     exists user expires_at w2,
       authenticate_user sha256_hexdigest cfg email' p
         ip_address user_agent session_id t t_load w1
       = (Ret (AuthSuccess session_id user expires_at), w2) /\
       uv_user_id user = new_id /\ uv_email user = email).
Proof.
  intros Hcreate. split; [|split].
  - intros email' ip ua sid t tl Hlow.
    now apply (authenticate_after_create sha256_hexdigest cfg email name
                 password role user_id now w w1 new_id message email'
                 password ip ua sid t tl Hcreate Hlow).
  - intros email' p ip ua sid t tl Hlow.
    apply (authenticate_after_create sha256_hexdigest cfg email name
             password role user_id now w w1 new_id message email'
             p ip ua sid t tl Hcreate Hlow).
  - intros email' p ip ua sid t tl Hlow.
    apply (authenticate_after_create sha256_hexdigest cfg email name
             password role user_id now w w1 new_id message email'
             p ip ua sid t tl Hcreate Hlow).
Qed.

Lemma password_round_trip_witness :
  let cfg := default_config "k" in
  let created :=
    create_user SHA256.hexdigest cfg "alice@example.com" "Alice" "hunter2"
      "pm" "id-1" 1 empty_world in
  fst created = Ret (CreateSuccess "id-1" "User Alice created successfully")
  /\
  (exists user expires_at w2,
     authenticate_user SHA256.hexdigest cfg "ALICE@EXAMPLE.COM" "hunter2"
       "127.0.0.1" "cli" "tok" 5 6 (snd created)
     = (Ret (AuthSuccess "tok" user expires_at), w2) /\
     uv_user_id user = "id-1" /\ uv_email user = "alice@example.com") /\
  authenticate_user SHA256.hexdigest cfg "alice@example.com" "hunter3"
    "127.0.0.1" "cli" "tok" 5 6 (snd created)
  = (Ret (AuthFailure "Invalid email or password"), snd created).
Proof.
  intros cfg created.
  assert (Hcreated :
    created
    = (Ret (CreateSuccess "id-1" "User Alice created successfully"),
       snd created)) by (vm_compute; reflexivity).
  destruct (password_round_trip SHA256.hexdigest cfg "alice@example.com"
              "Alice" "hunter2" "pm" "id-1" 1 empty_world (snd created)
              "id-1" "User Alice created successfully" Hcreated)
    as (Hsame & Hother & _).
  split; [now rewrite Hcreated|]. split.
  - apply Hsame. reflexivity.
  - apply Hother; [reflexivity | vm_compute; discriminate].
Defined.

(** Two passwords with one digest. Whatever the secret, two different
    passwords of 513 letters have the same salted SHA-256 digest: a
    digest has 64 characters, and there are more such passwords than
    texts of 64 characters. *)
Lemma hash_password_collides (cfg : config) :
  exists password p : string,
    p <> password /\
    _hash_password SHA256.hexdigest cfg p
    = _hash_password SHA256.hexdigest cfg password /\
    String.length password = 513%nat /\ String.length p = 513%nat.
Proof.
  destruct (fixed_length_collides (_hash_password SHA256.hexdigest cfg) 64)
    as (x & y & Hne & Heq & Hx & Hy).
  - intros s. apply hexdigest_length.
  - exists y, x. repeat split; assumption.
Qed.

(** The original sentence of C5 does not hold: "fails for every password
    different from the one used at creation". There are a password and a
    different one such that the account created with the first is opened
    by the second. *)
Lemma password_round_trip_not_every_other_fails :
  exists password p : string,
    p <> password /\
    exists w1 user expires_at w2,
      create_user SHA256.hexdigest (default_config "k") "alice@example.com"
        "Alice" password "pm" "id-1" 1 empty_world
      = (Ret (CreateSuccess "id-1" "User Alice created successfully"), w1)
      /\
      authenticate_user SHA256.hexdigest (default_config "k")
        "alice@example.com" p "127.0.0.1" "cli" "tok" 5 6 w1
      = (Ret (AuthSuccess "tok" user expires_at), w2).
Proof.
  destruct (hash_password_collides (default_config "k"))
    as (password & p & Hne & Heq & _).
  exists password, p. split; [exact Hne|].
  assert (Hcreate :
    create_user SHA256.hexdigest (default_config "k") "alice@example.com"
      "Alice" password "pm" "id-1" 1 empty_world
    = (Ret (CreateSuccess "id-1" "User Alice created successfully"),
       with_users
         (Dict.set "id-1"
            (new_user_record SHA256.hexdigest (default_config "k")
               "alice@example.com" "Alice" password "pm" "id-1" 1)
            (stored_users empty_world)) empty_world))
    by (rewrite create_user_eq; reflexivity).
  destruct (authenticate_after_create SHA256.hexdigest (default_config "k")
              "alice@example.com" "Alice" password "pm" "id-1" 1
              empty_world _ "id-1" "User Alice created successfully"
              "alice@example.com" p "127.0.0.1" "cli" "tok" 5 6
              Hcreate eq_refl) as [Hsame _].
  destruct (Hsame Heq) as (user & expires_at & w2 & Hrun & _).
  eexists _, user, expires_at, w2. split; [exact Hcreate | exact Hrun].
Qed.

(** ** First run (C9) *)

Lemma load_auth_config_eq fresh_secret w :
  _load_auth_config fresh_secret w =
  match config_file w with
  | Absent =>
      (Ret (default_config fresh_secret),
       with_config (config_to_json (default_config fresh_secret)) w)
  | Corrupt => (Ret (default_config fresh_secret), w)
  | Stored c => (Ret (merge_defaults c (default_config fresh_secret)), w)
  end.
Proof.
  unfold _load_auth_config, try_except, bind, read_config, lift, ret,
    write_config.
  destruct (config_file w); reflexivity.
Qed.

Lemma load_auth_config_keeps_users fresh_secret w :
  exists cfg w',
    _load_auth_config fresh_secret w = (Ret cfg, w') /\
    users_file w' = users_file w /\ sessions_file w' = sessions_file w.
Proof.
  rewrite load_auth_config_eq.
  destruct (config_file w); do 2 eexists; repeat split.
Qed.

Lemma initialize_default_users_eq sha256_hexdigest cfg now w :
  _initialize_default_users sha256_hexdigest cfg now w =
  match stored_users w with
  | [] =>
      (Ret tt,
       with_users
         [("default_pm", default_user_record sha256_hexdigest cfg now)] w)
  | _ => (Ret tt, w)
  end.
Proof.
  unfold _initialize_default_users. run_py. rewrite load_users_eq.
  destruct (stored_users w); reflexivity.
Qed.

(** C9. Constructing the manager always succeeds. Over a state with no
    user record (no users file, an unreadable one, or an empty mapping) it
    leaves exactly one user stored: the account [default_pm] with email
    pm@aipmtoolkit.local, role pm and the digest of the password aipm2025,
    which those credentials then log into. Over a state that already has a
    user record it leaves the users file as it was. *)
Theorem init_provisions_default_user
    (sha256_hexdigest : string -> string) (fresh_secret : string)
    (now : datetime) (w : World) :
  exists cfg w',
    __init__ sha256_hexdigest fresh_secret now w = (Ret cfg, w') /\
    (stored_users w = [] ->
     users_file w' =
       Stored [("default_pm",
                default_user_record sha256_hexdigest cfg now)] /\
     ud_email (default_user_record sha256_hexdigest cfg now)
       = Some "pm@aipmtoolkit.local" /\
     ud_role (default_user_record sha256_hexdigest cfg now) = Some "pm" /\
     forall ip_address user_agent session_id t t_load,
       exists user expires_at w'',
         authenticate_user sha256_hexdigest cfg
           "pm@aipmtoolkit.local" "aipm2025"
           ip_address user_agent session_id t t_load w'
         = (Ret (AuthSuccess session_id user expires_at), w'') /\
         uv_user_id user = "default_pm" /\ uv_role user = "pm") /\
    (stored_users w <> [] -> users_file w' = users_file w).
Proof.
  destruct (load_auth_config_keeps_users fresh_secret w)
    as (cfg & w0 & Hload & Husers & _).
  assert (Hsame : stored_users w0 = stored_users w)
    by (unfold stored_users; now rewrite Husers).
  unfold __init__. run_py. rewrite Hload, initialize_default_users_eq, Hsame.
  destruct (stored_users w) as [|kv rest] eqn:Hstored.
  - do 2 eexists. split; [reflexivity|]. split; [|now intros Hne].
    intros _. repeat split.
    intros ip ua sid t tl. do 3 eexists. split.
    + apply (authenticate_user_success sha256_hexdigest cfg
               "pm@aipmtoolkit.local" "aipm2025" ip ua sid t tl _
               "default_pm" (default_user_record sha256_hexdigest cfg now)
               "default_pm" "pm@aipmtoolkit.local" "Product Manager" "pm");
        reflexivity.
    + split; reflexivity.
  - do 2 eexists. split; [reflexivity|]. split; [discriminate|].
    intros _. exact Husers.
Qed.

Lemma init_provisions_default_user_witness :
  (exists cfg w' user expires_at w'',
     __init__ toy_digest "k" 1 empty_world = (Ret cfg, w') /\
     users_file w' =
       Stored [("default_pm", default_user_record toy_digest cfg 1)] /\
     authenticate_user toy_digest cfg "pm@aipmtoolkit.local" "aipm2025"
       "127.0.0.1" "cli" "tok" 5 6 w'
     = (Ret (AuthSuccess "tok" user expires_at), w'') /\
     uv_role user = "pm") /\
  (exists cfg w',
     __init__ toy_digest "k" 1 (two_users_world toy_digest) = (Ret cfg, w') /\
     users_file w' = users_file (two_users_world toy_digest)).
Proof.
  split.
  - destruct (init_provisions_default_user toy_digest "k" 1 empty_world)
      as (cfg & w' & Hinit & Hfirst & _).
    destruct (Hfirst eq_refl) as (Hfile & _ & _ & Hlogin).
    destruct (Hlogin "127.0.0.1" "cli" "tok" 5 6)
      as (user & expires_at & w'' & Hauth & _ & Hrole).
    exists cfg, w', user, expires_at, w''. auto.
  - destruct (init_provisions_default_user toy_digest "k" 1
                (two_users_world toy_digest))
      as (cfg & w' & Hinit & _ & Hkeep).
    exists cfg, w'. split; [exact Hinit|]. apply Hkeep. discriminate.
Defined.

(** ** User identifiers are never guest identifiers

    The keys under which users are stored are ["default_pm"] and drawn
    UUIDs; a guest identity starts with ["guest_"]. The operations keep
    the two apart, which is the premise of C10. *)

Lemma guest_id_is_guest_shaped epoch : guest_shaped (guest_id epoch) = true.
Proof. reflexivity. Qed.

Lemma no_guest_user_get users epoch :
  no_guest_user users -> Dict.get (guest_id epoch) users = None.
Proof.
  intros Hinv. apply DictFacts.not_in_get_none. intros data Hin.
  destruct (Hinv _ _ Hin) as [Hk _].
  rewrite guest_id_is_guest_shaped in Hk. discriminate.
Qed.

Lemma no_guest_user_set users k data :
  no_guest_user users ->
  guest_shaped k = false ->
  (forall id, ud_user_id data = Some id -> guest_shaped id = false) ->
  no_guest_user (Dict.set k data users).
Proof.
  intros Hinv Hk Hd k' data' Hin. apply DictFacts.in_set_inv in Hin.
  destruct Hin as [Heq|Hin]; [inversion Heq; subst; auto | eauto].
Qed.

Lemma find_by_email_in email users uid data :
  find_by_email email users = Some (uid, data) -> In (uid, data) users.
Proof.
  induction users as [|[k d] r IH]; simpl; [discriminate|].
  destruct (email_matches email d).
  - intros [= -> ->]. now left.
  - intros H. right. auto.
Qed.

Lemma init_no_guest_user H fresh_secret now w :
  no_guest_user (stored_users w) ->
  no_guest_user (stored_users (snd (__init__ H fresh_secret now w))).
Proof.
  intros Hinv.
  destruct (load_auth_config_keeps_users fresh_secret w)
    as (cfg & w0 & Hload & Husers & _).
  assert (Hsame : stored_users w0 = stored_users w)
    by (unfold stored_users; now rewrite Husers).
  unfold __init__. run_py. rewrite Hload, initialize_default_users_eq, Hsame.
  destruct (stored_users w) as [|kv rest] eqn:Hstored; simpl.
  - intros k data [Heq|[]]. inversion Heq; subst. split; [reflexivity|].
    now intros id [= <-].
  - unfold stored_users in *. rewrite Husers, Hstored. exact Hinv.
Qed.

Lemma create_user_no_guest_user
    H cfg email name password role user_id now w :
  guest_shaped user_id = false ->
  no_guest_user (stored_users w) ->
  no_guest_user
    (stored_users
       (snd (create_user H cfg email name password role user_id now w))).
Proof.
  intros Hid Hinv. rewrite create_user_eq.
  destruct (email_taken email (stored_users w)); simpl; auto.
  apply no_guest_user_set; auto. now intros id [= <-].
Qed.

Lemma authenticate_user_no_guest_user
    H cfg email password ip ua sid now t_load w :
  no_guest_user (stored_users w) ->
  no_guest_user
    (stored_users
       (snd (authenticate_user H cfg email password ip ua sid now t_load w))).
Proof.
  intros Hinv. unfold authenticate_user. run_py. rewrite load_users_eq.
  destruct (find_by_email email (stored_users w)) as [[uid data]|] eqn:Hf;
    [|exact Hinv].
  destruct (user_falsy data); [exact Hinv|].
  destruct (str_ne_opt _ _); [exact Hinv|].
  destruct (get_or (ud_is_active data) true); [|exact Hinv].
  destruct (ud_user_id data) as [user_id|] eqn:Hid; [|exact Hinv].
  rewrite load_sessions_eq.
  destruct (Hinv _ _ (find_by_email_in _ _ _ _ Hf)) as [Huid Hfield].
  set (data' := with_last_login data (isoformat now)).
  assert (Hnew : no_guest_user
            (Dict.set user_id data' (Dict.set uid data' (stored_users w)))).
  { repeat apply no_guest_user_set; auto. }
  cbn [data' with_last_login ud_email ud_name ud_role].
  destruct (ud_email data), (ud_name data), (ud_role data); exact Hnew.
Qed.

Lemma guest_session_keeps_users cfg ip ua epoch sid now t_load w :
  users_file (snd (guest_session cfg ip ua epoch sid now t_load w))
  = users_file w.
Proof.
  unfold guest_session. destruct (enable_guest_mode cfg); [|reflexivity].
  run_py. now rewrite load_sessions_eq.
Qed.

Lemma validate_session_keeps_users sid t_load t_check t_touch w :
  users_file (snd (validate_session sid t_load t_check t_touch w))
  = users_file w.
Proof.
  unfold validate_session. destruct (PyStr.falsy sid); [reflexivity|].
  run_py. rewrite load_sessions_eq.
  destruct (Dict.get sid _) as [s|]; [|reflexivity].
  destruct (session_falsy s); [reflexivity|].
  destruct (sd_expires_at s) as [[e|txt]|] eqn:He; try reflexivity.
  cbv beta iota delta [fromisoformat].
  destruct (t_check >? e); [reflexivity|].
  cbv beta iota. rewrite load_users_eq.
  cbn [with_last_active sd_user_id sd_created_at sd_expires_at
       sd_last_active].
  rewrite He.
  destruct (sd_user_id s) as [owner|]; [|reflexivity].
  destruct (Dict.get owner _) as [data|]; [|reflexivity].
  destruct (user_falsy data); [reflexivity|].
  destruct (get_or (ud_is_active data) true); [|reflexivity].
  cbv beta iota delta [orb].
  destruct (ud_user_id data), (ud_email data), (ud_name data),
    (ud_role data), (sd_created_at s); reflexivity.
Qed.

(** * Further properties of the manager *)

(** ** More on dictionaries and on the cleanup *)

Lemma get_del_other {V} (k k' : string) (d : Dict.t V) :
  k <> k' -> Dict.get k' (Dict.del k d) = Dict.get k' d.
Proof.
  intros Hne. induction d as [|[k0 v0] r IH]; simpl; auto.
  destruct (String.eqb k k0) eqn:E; simpl.
  - apply String.eqb_eq in E. subst k0.
    destruct (String.eqb k' k) eqn:E'; auto.
    apply String.eqb_eq in E'. congruence.
  - now rewrite IH.
Qed.

Lemma in_del_inv {V} (k k' : string) (v : V) (d : Dict.t V) :
  In (k', v) (Dict.del k d) -> k' <> k /\ In (k', v) d.
Proof.
  induction d as [|[k0 v0] r IH]; simpl; [intros []|].
  destruct (String.eqb k k0) eqn:E; simpl.
  - intros H. destruct (IH H). auto.
  - intros [Heq|H].
    + inversion Heq; subst. split; auto. intros ->.
      now rewrite String.eqb_refl in E.
    + destruct (IH H). auto.
Qed.

Lemma del_keys_nodup {V} (k : string) (d : Dict.t V) :
  NoDup (map fst d) -> NoDup (map fst (Dict.del k d)).
Proof.
  induction d as [|[k0 v0] r IH]; simpl; intros Hnd; auto.
  inversion Hnd as [|? ? Hk0 Hnd']; subst.
  destruct (String.eqb k k0); simpl; auto. constructor; auto.
  intros Hin. apply in_map_iff in Hin. destruct Hin as ([k1 v1] & Hf & Hin).
  simpl in Hf. subst k1. apply in_del_inv in Hin. destruct Hin as [_ Hin].
  apply Hk0. change k0 with (fst (k0, v1)). now apply in_map.
Qed.

Lemma mem_get_none {V} (k : string) (d : Dict.t V) :
  Dict.mem k d = false <-> Dict.get k d = None.
Proof. unfold Dict.mem. destruct (Dict.get k d); split; congruence. Qed.

(** A record kept at a clock reading is kept at every earlier one. *)
Lemma kept_earlier (t1 t2 : datetime) (s : session_data) :
  t1 <= t2 -> kept t2 s = true -> kept t1 s = true.
Proof.
  unfold kept. intros Hle.
  destruct (fromisoformat (get_or (sd_expires_at s) (NotIso ""))) as [e|x];
    auto.
  destruct (get_or (sd_is_active s) true); rewrite ?andb_false_r; auto.
  rewrite !andb_true_r, !Z.gtb_ltb, !Z.ltb_lt. lia.
Qed.

Lemma cleanup_get_stays now k items :
  forall acc,
    Dict.get k acc <> None ->
    Dict.get k (cleanup_loop now items acc) <> None.
Proof.
  induction items as [|[k0 s0] rest IH]; intros acc Hacc; auto.
  rewrite cleanup_loop_cons. apply IH.
  destruct (kept now s0); auto.
  destruct (String.eqb k0 k) eqn:E.
  - apply String.eqb_eq in E. subst k0.
    now rewrite DictFacts.get_set_same.
  - rewrite DictFacts.get_set_other; auto. intros ->.
    now rewrite String.eqb_refl in E.
Qed.

Lemma cleanup_get_none_inv now k items :
  forall acc,
    Dict.get k (cleanup_loop now items acc) = None ->
    forall s, In (k, s) items -> kept now s = false.
Proof.
  induction items as [|[k0 s0] rest IH]; intros acc Hnone s Hin;
    [destruct Hin|].
  rewrite cleanup_loop_cons in Hnone. destruct Hin as [Heq|Hin].
  - inversion Heq; subst. destruct (kept now s) eqn:Hk; auto.
    exfalso. revert Hnone. apply cleanup_get_stays.
    now rewrite DictFacts.get_set_same.
  - eapply IH; eauto.
Qed.

(** A token absent from a load is absent from every later load of the
    same file. *)
Lemma loaded_none_later (t1 t2 : datetime) (k : string) (w : World) :
  t1 <= t2 ->
  Dict.get k (loaded_sessions t1 w) = None ->
  Dict.get k (loaded_sessions t2 w) = None.
Proof.
  unfold loaded_sessions, _cleanup_expired_sessions. intros Hle Hnone.
  rewrite cleanup_get_dropped; [reflexivity|]. intros s Hin.
  pose proof (cleanup_get_none_inv _ _ _ _ Hnone s Hin) as Hdead.
  destruct (kept t2 s) eqn:Hk; auto.
  rewrite (kept_earlier t1 t2 s Hle Hk) in Hdead. discriminate.
Qed.

(** On a file without repeated keys, a load keeps under each key the
    stored record if the cleanup test accepts it, and nothing if not. *)
Lemma cleanup_get_nodup now (items : Dict.t session_data) (k : string) :
  NoDup (map fst items) ->
  Dict.get k (_cleanup_expired_sessions now items) =
  match Dict.get k items with
  | Some s => if kept now s then Some s else None
  | None => None
  end.
Proof.
  intros Hnd. unfold _cleanup_expired_sessions.
  destruct (Dict.get k items) as [s|] eqn:Hget.
  - apply DictFacts.get_some_in in Hget. destruct (kept now s) eqn:Hk.
    + now apply cleanup_get_kept.
    + rewrite cleanup_get_dropped; [reflexivity|]. intros s' Hin'.
      apply (nodup_in_get _ _ _ Hnd) in Hin'.
      rewrite (nodup_in_get _ _ _ Hnd Hget) in Hin'.
      now inversion Hin'; subst.
  - rewrite cleanup_get_dropped; [reflexivity|]. intros s' Hin'.
    exfalso. exact (DictFacts.get_none_not_in _ _ _ Hget s' Hin').
Qed.

(** ** Logging out *)

Lemma logout_user_eq (session_id : string) (t_load : datetime) (w : World) :
  logout_user session_id t_load w =
  if Dict.mem session_id (loaded_sessions t_load w) then
    (Ret (LogoutSuccess "Logged out successfully"),
     with_sessions (Dict.del session_id (loaded_sessions t_load w)) w)
  else
    (Ret (LogoutFailure "Session not found"), w).
Proof.
  unfold logout_user. run_py. rewrite load_sessions_eq.
  change (_cleanup_expired_sessions t_load (stored_sessions w))
    with (loaded_sessions t_load w).
  destruct (Dict.mem session_id (loaded_sessions t_load w)); reflexivity.
Qed.

(** After [logout_user], whatever it answered, the token is absent from
    every later load. *)
Lemma logout_user_forgets (session_id : string) (t1 t2 : datetime)
    (w : World) :
  t1 <= t2 ->
  Dict.get session_id
    (loaded_sessions t2 (snd (logout_user session_id t1 w))) = None.
Proof.
  intros Hle. rewrite logout_user_eq.
  destruct (Dict.mem session_id (loaded_sessions t1 w)) eqn:Hmem; simpl.
  - unfold loaded_sessions at 1, _cleanup_expired_sessions.
    rewrite cleanup_get_dropped; [reflexivity|]. intros s Hin.
    exfalso. unfold stored_sessions in Hin. simpl in Hin.
    apply in_del_inv in Hin. now destruct Hin.
  - apply (loaded_none_later t1 t2); auto. now apply mem_get_none.
Qed.

(** X1. [logout_user] is idempotent: after one call on a token, whatever it
    answered, a later call on the same token never raises, answers
    "Session not found" and leaves the files as they are. *)
Theorem logout_user_twice (session_id : string) (t1 t2 : datetime)
    (w : World) :
  t1 <= t2 ->
  exists first w1,
    logout_user session_id t1 w = (Ret first, w1) /\
    logout_user session_id t2 w1
      = (Ret (LogoutFailure "Session not found"), w1).
Proof.
  intros Hle.
  pose proof (logout_user_forgets session_id t1 t2 w Hle) as Hgone.
  rewrite logout_user_eq in Hgone |- *.
  destruct (Dict.mem session_id (loaded_sessions t1 w)); simpl in Hgone;
    do 2 eexists; (split; [reflexivity|]); rewrite logout_user_eq;
    apply mem_get_none in Hgone; now rewrite Hgone.
Qed.

Lemma logout_user_twice_witness :
  logout_user "tok" 50 one_session_world
    = (Ret (LogoutSuccess "Logged out successfully"),
       with_sessions [] one_session_world) /\
  logout_user "tok" 51 (with_sessions [] one_session_world)
    = (Ret (LogoutFailure "Session not found"),
       with_sessions [] one_session_world).
Proof.
  destruct (logout_user_twice "tok" 50 51 one_session_world)
    as (first & w1 & Hfirst & Hsecond); [lia|].
  assert (Hrun : logout_user "tok" 50 one_session_world =
                 (Ret (LogoutSuccess "Logged out successfully"),
                  with_sessions [] one_session_world)) by reflexivity.
  rewrite Hrun in Hfirst. inversion Hfirst; subst first w1.
  split; [exact Hrun | exact Hsecond].
Defined.

(** X2. A token that was logged out no longer validates: at every later
    clock reading [validate_session] answers "Session not found" and
    changes nothing. *)
Theorem logout_then_validate (session_id : string)
    (t1 t_load t_check t_touch : datetime) (w : World) :
  session_id <> "" ->
  t1 <= t_load ->
  exists result w1,
    logout_user session_id t1 w = (Ret result, w1) /\
    validate_session session_id t_load t_check t_touch w1
      = (Ret (Invalid "Session not found"), w1).
Proof.
  intros Hne Hle.
  pose proof (logout_user_forgets session_id t1 t_load w Hle) as Hgone.
  destruct (logout_user session_id t1 w) as [out w1] eqn:Hrun.
  assert (Hret : exists result, out = Ret result).
  { rewrite logout_user_eq in Hrun.
    destruct (Dict.mem _ _); inversion Hrun; eauto. }
  destruct Hret as [result ->]. exists result, w1. split; [reflexivity|].
  apply validate_session_not_found.
  - destruct session_id; [now elim Hne | reflexivity].
  - exact Hgone.
Qed.

Lemma logout_then_validate_witness :
  exists result w1,
    logout_user "tok" 50 one_session_world = (Ret result, w1) /\
    validate_session "tok" 51 51 51 w1
      = (Ret (Invalid "Session not found"), w1).
Proof.
  apply (logout_then_validate "tok" 50 51 51 51 one_session_world).
  - discriminate.
  - lia.
Defined.

(** X3. Logging one token out logs no other token out. On a sessions file
    without repeated keys, what a later load returns under any other token
    is what it would have returned had the logout not happened; the users
    file and the configuration are not touched. *)
Theorem logout_user_leaves_others (session_id other : string)
    (t1 t2 : datetime) (w : World) :
  NoDup (map fst (stored_sessions w)) ->
  other <> session_id ->
  t1 <= t2 ->
  let w1 := snd (logout_user session_id t1 w) in
  Dict.get other (loaded_sessions t2 w1)
    = Dict.get other (loaded_sessions t2 w) /\
  users_file w1 = users_file w /\
  config_file w1 = config_file w.
Proof.
  intros Hnd Hne Hle w1. subst w1. rewrite logout_user_eq.
  destruct (Dict.mem session_id (loaded_sessions t1 w)); simpl; auto.
  split; auto. unfold loaded_sessions, stored_sessions at 1. simpl.
  rewrite cleanup_get_nodup.
  2:{ apply del_keys_nodup. unfold _cleanup_expired_sessions.
      apply cleanup_keys_nodup. constructor. }
  rewrite get_del_other by congruence.
  rewrite !cleanup_get_nodup by assumption.
  destruct (Dict.get other (stored_sessions w)) as [s|]; auto.
  destruct (kept t2 s) eqn:Hk2.
  - now rewrite (kept_earlier t1 t2 s Hle Hk2), Hk2.
  - destruct (kept t1 s); [now rewrite Hk2 | reflexivity].
Qed.

Lemma logout_user_leaves_others_witness :
  let w1 := snd (logout_user "tok-a" 50 two_sessions_world) in
  Dict.get "tok-b" (loaded_sessions 60 w1)
    = Dict.get "tok-b" (loaded_sessions 60 two_sessions_world) /\
  users_file w1 = users_file two_sessions_world /\
  config_file w1 = config_file two_sessions_world.
Proof.
  apply (logout_user_leaves_others "tok-a" "tok-b" 50 60 two_sessions_world).
  - simpl. repeat constructor; simpl; intuition discriminate.
  - discriminate.
  - lia.
Defined.

(** ** Logging in, then validating *)

Lemma str_ne_opt_false (a : string) (b : option string) :
  str_ne_opt a b = false -> b = Some a.
Proof.
  destruct b as [s|]; simpl; [|discriminate].
  destruct (String.eqb a s) eqn:E; [|discriminate].
  apply String.eqb_eq in E. now subst.
Qed.

(** What a successful [authenticate_user] tells about the state it ran
    in, and the state it leaves. *)
Lemma authenticate_user_success_inv
    (sha256_hexdigest : string -> string) (cfg : config)
    (email password ip_address user_agent session_id : string)
    (now t_load : datetime) (w w1 : World)
    (token : string) (user : user_view) (expires : pytime) :
  authenticate_user sha256_hexdigest cfg email password
    ip_address user_agent session_id now t_load w
  = (Ret (AuthSuccess token user expires), w1) ->
  exists uid data user_id e name role,
    find_by_email email (stored_users w) = Some (uid, data) /\
    ud_password_hash data
      = Some (_hash_password sha256_hexdigest cfg password) /\
    get_or (ud_is_active data) true = true /\
    ud_user_id data = Some user_id /\
    ud_email data = Some e /\ ud_name data = Some name /\
    ud_role data = Some role /\
    token = session_id /\
    user = {| uv_user_id := user_id; uv_email := e; uv_name := name;
              uv_role := role;
              uv_preferences := get_or (ud_preferences data) [] |} /\
    expires = Iso (now + timedelta_hours (session_timeout_hours cfg)) /\
    w1 = with_users
           (Dict.set user_id (with_last_login data (Iso now))
              (Dict.set uid (with_last_login data (Iso now))
                 (stored_users w)))
           (with_sessions
              (Dict.set session_id
                 (Session session_id user_id (Iso now)
                    (Iso (now + timedelta_hours (session_timeout_hours cfg)))
                    (Iso now) ip_address user_agent)
                 (loaded_sessions t_load w))
              w).
Proof.
  intros Hrun.
  destruct (find_by_email email (stored_users w)) as [[uid data]|] eqn:Hf.
  2:{ rewrite authenticate_user_unknown in Hrun by assumption.
      discriminate. }
  destruct (str_ne_opt (_hash_password sha256_hexdigest cfg password)
              (ud_password_hash data)) eqn:Hne.
  { rewrite (authenticate_user_wrong_password _ _ _ _ _ _ _ _ _ _ _ _ Hf Hne)
      in Hrun. discriminate. }
  apply str_ne_opt_false in Hne.
  destruct (get_or (ud_is_active data) true) eqn:Hact.
  2:{ rewrite (authenticate_user_disabled _ _ _ _ _ _ _ _ _ _ _ _ Hf Hne Hact)
        in Hrun. discriminate. }
  revert Hrun. unfold authenticate_user. run_py.
  rewrite load_users_eq, Hf, (user_with_hash_not_falsy _ _ Hne), Hne.
  unfold str_ne_opt. rewrite String.eqb_refl, Hact. run_py.
  destruct (ud_user_id data) as [user_id|] eqn:Hid; [|discriminate].
  rewrite load_sessions_eq.
  cbn [ud_email ud_name ud_role ud_preferences with_last_login].
  destruct (ud_email data) as [e|] eqn:He; [|discriminate].
  destruct (ud_name data) as [name|] eqn:Hn; [|discriminate].
  destruct (ud_role data) as [role|] eqn:Hr; [|discriminate].
  intros Hrun. inversion Hrun; subst.
  exists uid, data, user_id, e, name, role. repeat split; auto.
Qed.

Lemma validate_session_valid
    (session_id : string) (t_load t_check t_touch : datetime) (w : World)
    (s : session_data) (expires_at : datetime) (created : pytime)
    (owner : string) (data : user_data) (user_id e name role h : string) :
  PyStr.falsy session_id = false ->
  Dict.get session_id (loaded_sessions t_load w) = Some s ->
  sd_expires_at s = Some (Iso expires_at) ->
  t_check <= expires_at ->
  sd_created_at s = Some created ->
  sd_user_id s = Some owner ->
  Dict.get owner (stored_users w) = Some data ->
  ud_password_hash data = Some h ->
  get_or (ud_is_active data) true = true ->
  ud_user_id data = Some user_id ->
  ud_email data = Some e -> ud_name data = Some name ->
  ud_role data = Some role ->
  validate_session session_id t_load t_check t_touch w =
  (Ret (Valid
          {| uv_user_id := user_id; uv_email := e; uv_name := name;
             uv_role := role;
             uv_preferences := get_or (ud_preferences data) [] |}
          {| sv_session_id := session_id; sv_created_at := created;
             sv_expires_at := Iso expires_at;
             sv_last_active := Iso t_touch |}),
   with_sessions
     (Dict.set session_id (with_last_active s (Iso t_touch))
        (loaded_sessions t_load w))
     w).
Proof.
  intros Hf Hget Hexp Hle Hcr Hown Huser Hh Hact Hid He Hn Hr.
  unfold validate_session. rewrite Hf.
  run_py. rewrite load_sessions_eq.
  change (_cleanup_expired_sessions t_load (stored_sessions w))
    with (loaded_sessions t_load w). rewrite Hget.
  rewrite (session_with_expiry_not_falsy _ _ Hexp), Hexp.
  cbv beta iota delta [fromisoformat].
  assert (Hgt : (t_check >? expires_at) = false)
    by (rewrite Z.gtb_ltb; now apply Z.ltb_ge).
  rewrite Hgt. cbv beta iota. rewrite load_users_eq.
  cbn [sd_user_id sd_created_at sd_expires_at sd_last_active
       with_last_active].
  rewrite Hown. change (stored_users _) with (stored_users w).
  rewrite Huser, (user_with_hash_not_falsy _ _ Hh), Hact.
  cbv beta iota delta [orb]. now rewrite Hid, He, Hn, Hr, Hcr, Hexp.
Qed.

(** X4. A token handed out by a successful [authenticate_user] validates
    until its expiry: while the clock readings of the load and of the
    expiry test have not passed creation time plus the configured timeout,
    [validate_session] returns the very user view that the login returned,
    together with the session as created, expiring [session_timeout_hours]
    after its creation, and [last_active] set to the clock of the
    validation. *)
Theorem login_then_validate
    (sha256_hexdigest : string -> string) (cfg : config)
    (email password ip_address user_agent session_id : string)
    (now t_load : datetime) (w w1 : World)
    (token : string) (user : user_view) (expires : pytime)
    (t1 t2 t3 : datetime) :
  authenticate_user sha256_hexdigest cfg email password
    ip_address user_agent session_id now t_load w
  = (Ret (AuthSuccess token user expires), w1) ->
  token <> "" ->
  t1 < now + timedelta_hours (session_timeout_hours cfg) ->
  t2 <= now + timedelta_hours (session_timeout_hours cfg) ->
  exists w2,
    validate_session token t1 t2 t3 w1 =
    (Ret (Valid user
            {| sv_session_id := token; sv_created_at := Iso now;
               sv_expires_at := expires; sv_last_active := Iso t3 |}),
     w2) /\
    expires = Iso (now + timedelta_hours (session_timeout_hours cfg)).
Proof.
  intros Hrun Hne Hlive Hcheck.
  destruct (authenticate_user_success_inv _ _ _ _ _ _ _ _ _ _ _ _ _ _ Hrun)
    as (uid & data & user_id & e & name & role & Hf & Hh & Hact & Hid & He
        & Hn & Hr & -> & -> & -> & ->).
  eexists. split; [|reflexivity].
  set (exp := now + timedelta_hours (session_timeout_hours cfg)) in *.
  set (s := Session session_id user_id (Iso now) (Iso exp) (Iso now)
              ip_address user_agent).
  apply (validate_session_valid session_id t1 t2 t3 _ s exp (Iso now)
           user_id (with_last_login data (Iso now)) user_id e name role
           (_hash_password sha256_hexdigest cfg password)); auto.
  - destruct session_id; [now elim Hne | reflexivity].
  - unfold loaded_sessions, stored_sessions, loaded_sessions. simpl.
    rewrite reload_after_store.
    assert (Hk : kept t1 s = true).
    { unfold kept. simpl. rewrite andb_true_r, Z.gtb_ltb.
      now apply Z.ltb_lt. }
    now rewrite Hk.
  - unfold stored_users. simpl. apply DictFacts.get_set_same.
Qed.

Lemma login_then_validate_witness :
  exists user expires w1 w2,
    authenticate_user toy_digest (default_config "k") "ann@example.com" "pw"
      "127.0.0.1" "cli" "tok" 5 6 (two_users_world toy_digest)
    = (Ret (AuthSuccess "tok" user expires), w1) /\
    validate_session "tok" 7 8 9 w1 =
    (Ret (Valid user
            {| sv_session_id := "tok"; sv_created_at := Iso 5;
               sv_expires_at := expires; sv_last_active := Iso 9 |}),
     w2) /\
    uv_user_id user = "id-ann".
Proof.
  set (run := authenticate_user toy_digest (default_config "k")
                "ann@example.com" "pw" "127.0.0.1" "cli" "tok" 5 6
                (two_users_world toy_digest)).
  set (user := {| uv_user_id := "id-ann"; uv_email := "ann@example.com";
                  uv_name := "Ann"; uv_role := "pm";
                  uv_preferences :=
                    [("theme", PStr "light");
                     ("default_experience", PStr "learn_and_do");
                     ("favorite_tools", PList []);
                     ("dashboard_layout", PStr "default")] |}).
  assert (Hrun : run = (Ret (AuthSuccess "tok" user
                               (Iso (5 + timedelta_hours 24))), snd run))
    by (vm_compute; reflexivity).
  destruct (login_then_validate toy_digest (default_config "k")
              "ann@example.com" "pw" "127.0.0.1" "cli" "tok" 5 6
              (two_users_world toy_digest) (snd run) "tok" user
              (Iso (5 + timedelta_hours 24)) 7 8 9 Hrun)
    as (w2 & Hval & _).
  - discriminate.
  - unfold timedelta_hours. simpl. lia.
  - unfold timedelta_hours. simpl. lia.
  - exists user, (Iso (5 + timedelta_hours 24)), (snd run), w2.
    split; [exact Hrun|]. split; [exact Hval | reflexivity].
Defined.

(** ** What validation and login write *)

(** The sessions file after [validate_session]: untouched, or the loaded
    collection without the token, or the loaded collection with the
    token's record touched. *)
Lemma validate_session_sessions_file
    (session_id : string) (t_load t_check t_touch : datetime) (w : World) :
  let w' := snd (validate_session session_id t_load t_check t_touch w) in
  sessions_file w' = sessions_file w \/
  sessions_file w'
    = Stored (Dict.del session_id (loaded_sessions t_load w)) \/
  exists s,
    Dict.get session_id (loaded_sessions t_load w) = Some s /\
    sessions_file w'
      = Stored (Dict.set session_id (with_last_active s (Iso t_touch))
                  (loaded_sessions t_load w)).
Proof.
  unfold validate_session. destruct (PyStr.falsy session_id); [now left|].
  run_py. rewrite load_sessions_eq.
  change (_cleanup_expired_sessions t_load (stored_sessions w))
    with (loaded_sessions t_load w).
  destruct (Dict.get session_id _) as [s|] eqn:Hget; [|now left].
  destruct (session_falsy s); [now left|].
  destruct (sd_expires_at s) as [[e|txt]|] eqn:He; try (now left).
  cbv beta iota delta [fromisoformat].
  destruct (t_check >? e); [right; now left|].
  right. right. exists s. split; [reflexivity|].
  cbv beta iota. rewrite load_users_eq.
  cbn [with_last_active sd_user_id sd_created_at sd_expires_at
       sd_last_active].
  rewrite He.
  destruct (sd_user_id s) as [owner|]; [|reflexivity].
  destruct (Dict.get owner _) as [data|]; [|reflexivity].
  destruct (user_falsy data); [reflexivity|].
  destruct (get_or (ud_is_active data) true); [|reflexivity].
  cbv beta iota delta [orb].
  destruct (ud_user_id data), (ud_email data), (ud_name data),
    (ud_role data), (sd_created_at s); reflexivity.
Qed.

(** X5. Validation never prolongs a session and never creates one: every
    record in the sessions file after [validate_session] was in the file
    before under the same token, with the same expiry, owner, creation
    time and active flag; only [last_active] can differ. *)
Theorem validate_session_never_prolongs
    (session_id : string) (t_load t_check t_touch : datetime) (w : World)
    (k : string) (s' : session_data) :
  In (k, s')
     (stored_sessions
        (snd (validate_session session_id t_load t_check t_touch w))) ->
  exists s,
    In (k, s) (stored_sessions w) /\
    sd_expires_at s' = sd_expires_at s /\
    sd_user_id s' = sd_user_id s /\
    sd_created_at s' = sd_created_at s /\
    sd_is_active s' = sd_is_active s.
Proof.
  assert (Hsub : forall k0 s0,
    In (k0, s0) (loaded_sessions t_load w) ->
    In (k0, s0) (stored_sessions w)).
  { intros k0 s0 Hin. unfold loaded_sessions, _cleanup_expired_sessions in Hin.
    apply cleanup_loop_incl in Hin. now rewrite app_nil_r in Hin. }
  unfold stored_sessions at 1.
  destruct (validate_session_sessions_file session_id t_load t_check
              t_touch w) as [Hsame|[Hdel|(s & Hget & Hset)]].
  - rewrite Hsame. intros Hin. exists s'. auto.
  - rewrite Hdel. simpl. intros Hin. apply in_del_inv in Hin.
    exists s'. destruct Hin. auto.
  - rewrite Hset. simpl. intros Hin. apply DictFacts.in_set_inv in Hin.
    destruct Hin as [Heq|Hin].
    + inversion Heq; subst. exists s. split.
      * apply Hsub. now apply DictFacts.get_some_in.
      * repeat split.
    + exists s'. auto.
Qed.

Lemma validate_session_never_prolongs_witness :
  exists s' s,
    Dict.get "tok-b"
      (stored_sessions
         (snd (validate_session "tok-b" 150 150 150 two_sessions_world)))
      = Some s' /\
    In ("tok-b", s) (stored_sessions two_sessions_world) /\
    sd_expires_at s' = sd_expires_at s /\
    sd_last_active s' = Some (Iso 150) /\
    sd_last_active s = Some (Iso 20).
Proof.
  set (after := stored_sessions
         (snd (validate_session "tok-b" 150 150 150 two_sessions_world))).
  assert (Hget : Dict.get "tok-b" after
                 = Some (with_last_active
                           (Session "tok-b" "u1" (Iso 20) (Iso 200) (Iso 20)
                                    "10.0.0.7" "browser") (Iso 150)))
    by reflexivity.
  destruct (validate_session_never_prolongs "tok-b" 150 150 150
              two_sessions_world "tok-b" _
              (DictFacts.get_some_in _ _ _ _ Hget))
    as (s & Hin & Hexp & _).
  exists (with_last_active
            (Session "tok-b" "u1" (Iso 20) (Iso 200) (Iso 20)
                     "10.0.0.7" "browser") (Iso 150)), s.
  split; [exact Hget|]. split; [exact Hin|]. split; [exact Hexp|].
  split; [reflexivity|].
  destruct Hin as [Heq|[Heq|[]]]; inversion Heq; subst. reflexivity.
Defined.

(** X6. A stored record with a missing key makes a login raise, not
    return. When the matching record is active and the password is right,
    a record without ['user_id'] raises [KeyError] before anything is
    written; a record that has it but lacks ['name'] raises [KeyError]
    only after the new session has been stored and [last_login] written,
    so the failed login leaves a usable session record behind. *)
Theorem authenticate_user_missing_key
    (sha256_hexdigest : string -> string) (cfg : config)
    (email password ip_address user_agent session_id : string)
    (now t_load : datetime) (w : World) (uid : string) (data : user_data) :
  find_by_email email (stored_users w) = Some (uid, data) ->
  ud_password_hash data
    = Some (_hash_password sha256_hexdigest cfg password) ->
  get_or (ud_is_active data) true = true ->
  let run := authenticate_user sha256_hexdigest cfg email password
               ip_address user_agent session_id now t_load w in
  (ud_user_id data = None -> run = (Raise (KeyError "user_id"), w)) /\
  (forall user_id e,
     ud_user_id data = Some user_id -> ud_email data = Some e ->
     ud_name data = None ->
     fst run = Raise (KeyError "name") /\
     Dict.get session_id (stored_sessions (snd run))
       = Some (Session session_id user_id (Iso now)
                 (Iso (now + timedelta_hours (session_timeout_hours cfg)))
                 (Iso now) ip_address user_agent) /\
     Dict.get user_id (stored_users (snd run))
       = Some (with_last_login data (Iso now))).
Proof.
  intros Hf Hh Hact run. subst run.
  unfold authenticate_user. run_py.
  rewrite load_users_eq, Hf, (user_with_hash_not_falsy _ _ Hh), Hh.
  unfold str_ne_opt. rewrite String.eqb_refl, Hact. run_py. split.
  - intros Hid. now rewrite Hid.
  - intros user_id e Hid He Hn. rewrite Hid, load_sessions_eq.
    cbn [ud_email ud_name ud_role ud_preferences with_last_login].
    rewrite He, Hn. simpl. split; [reflexivity|].
    unfold stored_sessions, stored_users. simpl.
    now rewrite !DictFacts.get_set_same.
Qed.

(** X7. [max_sessions_per_user] is not enforced. The outcome of a login
    and the state it leaves depend on the configuration only through
    [session_timeout_hours] and [secret_key]; and a successful login
    leaves every other token exactly as the load found it, however many
    sessions the user already holds. *)
Theorem authenticate_user_never_evicts
    (sha256_hexdigest : string -> string) (cfg cfg' : config)
    (email password ip_address user_agent session_id : string)
    (now t_load : datetime) (w : World) :
  session_timeout_hours cfg' = session_timeout_hours cfg ->
  secret_key cfg' = secret_key cfg ->
  authenticate_user sha256_hexdigest cfg' email password
    ip_address user_agent session_id now t_load w
  = authenticate_user sha256_hexdigest cfg email password
      ip_address user_agent session_id now t_load w /\
  forall token user expires w1 other,
    authenticate_user sha256_hexdigest cfg email password
      ip_address user_agent session_id now t_load w
    = (Ret (AuthSuccess token user expires), w1) ->
    other <> token ->
    Dict.get other (stored_sessions w1)
      = Dict.get other (loaded_sessions t_load w).
Proof.
  intros Ht Hk. split.
  - unfold authenticate_user, _hash_password. now rewrite Ht, Hk.
  - intros token user expires w1 other Hrun Hne.
    destruct (authenticate_user_success_inv _ _ _ _ _ _ _ _ _ _ _ _ _ _ Hrun)
      as (uid & data & user_id & e & name & role & _ & _ & _ & _ & _
          & _ & _ & -> & _ & _ & ->).
    unfold stored_sessions. simpl.
    apply DictFacts.get_set_other. congruence.
Qed.

Lemma authenticate_user_missing_key_witness :
  let login email :=
    authenticate_user toy_digest (default_config "k") email "pw"
      "127.0.0.1" "cli" "tok" 5 6 (broken_records_world toy_digest) in
  login "yan@example.com"
    = (Raise (KeyError "user_id"), broken_records_world toy_digest) /\
  fst (login "zoe@example.com") = Raise (KeyError "name") /\
  Dict.mem "tok" (stored_sessions (snd (login "zoe@example.com"))) = true.
Proof.
  intros login.
  pose proof (authenticate_user_missing_key toy_digest (default_config "k")
                "yan@example.com" "pw" "127.0.0.1" "cli" "tok" 5 6
                (broken_records_world toy_digest) "k-yan" _
                eq_refl eq_refl eq_refl) as [Hyan _].
  pose proof (authenticate_user_missing_key toy_digest (default_config "k")
                "zoe@example.com" "pw" "127.0.0.1" "cli" "tok" 5 6
                (broken_records_world toy_digest) "k-zoe" _
                eq_refl eq_refl eq_refl) as [_ Hzoe].
  destruct (Hzoe "u-zoe" "zoe@example.com" eq_refl eq_refl eq_refl)
    as (Hraise & Hsession & _).
  split; [exact (Hyan eq_refl)|]. split; [exact Hraise|].
  unfold Dict.mem, login. now rewrite Hsession.
Defined.

Lemma authenticate_user_never_evicts_witness :
  let login cfg :=
    authenticate_user toy_digest cfg "ann@example.com" "pw"
      "127.0.0.1" "cli" "tok-c" 50 51 (busy_world toy_digest) in
  login no_sessions_config = login (default_config "k") /\
  (exists user expires, fst (login (default_config "k"))
                        = Ret (AuthSuccess "tok-c" user expires)) /\
  Dict.get "tok-b" (stored_sessions (snd (login (default_config "k"))))
    = Dict.get "tok-b" (loaded_sessions 51 (busy_world toy_digest)) /\
  Dict.mem "tok-b" (loaded_sessions 51 (busy_world toy_digest)) = true.
Proof.
  intros login.
  destruct (authenticate_user_never_evicts toy_digest (default_config "k")
              no_sessions_config "ann@example.com" "pw" "127.0.0.1" "cli"
              "tok-c" 50 51 (busy_world toy_digest) eq_refl eq_refl)
    as [Hsame Hkeep].
  split; [exact Hsame|].
  assert (Hrun : exists user expires,
            login (default_config "k")
            = (Ret (AuthSuccess "tok-c" user expires),
               snd (login (default_config "k"))))
    by (do 2 eexists; vm_compute; reflexivity).
  destruct Hrun as (user & expires & Hrun). split.
  - exists user, expires. unfold login in *. now rewrite Hrun.
  - split; [|reflexivity].
    apply (Hkeep "tok-c" user expires _ "tok-b" Hrun). discriminate.
Defined.

(** ** The configuration across constructions *)

Lemma merge_defaults_full (d d' : config) :
  merge_defaults (config_to_json d) d' = d.
Proof. destruct d; reflexivity. Qed.

Lemma init_eq (sha256_hexdigest : string -> string)
    (fresh_secret : string) (now : datetime) (w : World) :
  __init__ sha256_hexdigest fresh_secret now w =
  let (out, w0) := _load_auth_config fresh_secret w in
  match out with
  | Ret cfg =>
      (Ret cfg,
       match stored_users w0 with
       | [] => with_users
                 [("default_pm",
                   default_user_record sha256_hexdigest cfg now)] w0
       | _ => w0
       end)
  | Raise e => (Raise e, w0)
  end.
Proof.
  unfold __init__. run_py.
  destruct (_load_auth_config fresh_secret w) as [[cfg|e] w0]; auto.
  rewrite initialize_default_users_eq.
  destruct (stored_users w0); reflexivity.
Qed.

(** X8. The secret is drawn once. When the configuration file is missing,
    or holds a [secret_key], constructing the manager a second time,
    whatever secret that construction draws, returns the configuration of
    the first construction and changes nothing. *)
Theorem init_twice_same_config
    (sha256_hexdigest : string -> string)
    (secret1 secret2 : string) (now1 now2 : datetime) (w : World) :
  secret_on_file_after_init w ->
  exists cfg w1,
    __init__ sha256_hexdigest secret1 now1 w = (Ret cfg, w1) /\
    __init__ sha256_hexdigest secret2 now2 w1 = (Ret cfg, w1).
Proof.
  intros [Habs|(c & k & Hc & Hk)]; rewrite init_eq, load_auth_config_eq.
  - rewrite Habs.
    change (stored_users (with_config _ w)) with (stored_users w).
    destruct (stored_users w) as [|kv rest] eqn:Hu;
      do 2 eexists; (split; [reflexivity|]);
      rewrite init_eq, load_auth_config_eq; simpl config_file;
      cbv beta iota; rewrite merge_defaults_full.
    + reflexivity.
    + change (stored_users (with_config _ w)) with (stored_users w).
      now rewrite Hu.
  - rewrite Hc.
    assert (Hsame : merge_defaults c (default_config secret2)
                    = merge_defaults c (default_config secret1))
      by (unfold merge_defaults; now rewrite Hk).
    destruct (stored_users w) as [|kv rest] eqn:Hu;
      do 2 eexists; (split; [reflexivity|]);
      rewrite init_eq, load_auth_config_eq; simpl config_file;
      rewrite Hc, Hsame.
    + reflexivity.
    + now rewrite Hu.
Qed.

Lemma init_twice_same_config_witness :
  exists cfg w1,
    __init__ toy_digest "first draw" 1 empty_world = (Ret cfg, w1) /\
    __init__ toy_digest "second draw" 2 w1 = (Ret cfg, w1) /\
    secret_key cfg = "first draw".
Proof.
  destruct (init_twice_same_config toy_digest "first draw" "second draw"
              1 2 empty_world) as (cfg & w1 & Hfirst & Hsecond).
  - left. reflexivity.
  - exists cfg, w1. split; [exact Hfirst|]. split; [exact Hsecond|].
    assert (Hrun : __init__ toy_digest "first draw" 1 empty_world
                   = (Ret (default_config "first draw"),
                      snd (__init__ toy_digest "first draw" 1 empty_world)))
      by reflexivity.
    rewrite Hrun in Hfirst. now inversion Hfirst.
Defined.

Lemma init_secret_never_on_file
    (sha256_hexdigest : string -> string)
    (fresh_secret : string) (now : datetime) (w : World) :
  secret_never_on_file w ->
  exists cfg w1,
    __init__ sha256_hexdigest fresh_secret now w = (Ret cfg, w1) /\
    secret_key cfg = fresh_secret /\
    (stored_users w <> [] -> w1 = w).
Proof.
  intros [Hc|(c & Hc & Hk)]; rewrite init_eq, load_auth_config_eq, Hc;
    do 2 eexists; (split; [reflexivity|]).
  - split; [reflexivity|]. destruct (stored_users w); congruence.
  - split; [unfold merge_defaults; now rewrite Hk|].
    destruct (stored_users w); congruence.
Qed.

(** X9. A secret that is not on file does not survive a restart. When the
    configuration file is unreadable, or exists without a [secret_key],
    a manager constructed later salts with its own fresh draw and writes
    nothing back; so a user created through an earlier manager cannot log
    in through it, with the very password chosen, whenever the two secrets
    give that password different digests. *)
Theorem password_lost_across_constructions
    (sha256_hexdigest : string -> string) (cfg1 : config)
    (secret2 : string) (now2 : datetime) (w w2 : World)
    (email name password role user_id new_id message : string)
    (now : datetime)
    (ip_address user_agent session_id : string) (t t_load : datetime) :
  secret_never_on_file w ->
  create_user sha256_hexdigest cfg1 email name password role user_id now w
    = (Ret (CreateSuccess new_id message), w2) ->
  sha256_hexdigest (password ++ secret2)
    <> sha256_hexdigest (password ++ secret_key cfg1) ->
  exists cfg2,
    __init__ sha256_hexdigest secret2 now2 w2 = (Ret cfg2, w2) /\
    secret_key cfg2 = secret2 /\
    authenticate_user sha256_hexdigest cfg2 email password
      ip_address user_agent session_id t t_load w2
    = (Ret (AuthFailure "Invalid email or password"), w2).
Proof.
  intros Hnever Hcreate Hdiff. rewrite create_user_eq in Hcreate.
  destruct (email_taken email (stored_users w)) eqn:Hfree; [discriminate|].
  inversion Hcreate; subst new_id message w2. clear Hcreate.
  set (record := new_user_record sha256_hexdigest cfg1 email name password
                   role user_id now).
  set (w2 := with_users (Dict.set user_id record (stored_users w)) w).
  assert (Hnever2 : secret_never_on_file w2) by exact Hnever.
  destruct (init_secret_never_on_file sha256_hexdigest secret2 now2 w2
              Hnever2) as (cfg2 & w3 & Hinit & Hsecret & Hsame).
  assert (Hw3 : w3 = w2).
  { apply Hsame. unfold w2, stored_users. simpl.
    destruct (content_or_empty (users_file w)) as [|[k0 d0] r]; simpl;
      [discriminate|]. destruct (String.eqb user_id k0); discriminate. }
  subst w3. exists cfg2. split; [exact Hinit|]. split; [exact Hsecret|].
  apply (authenticate_user_wrong_password sha256_hexdigest cfg2 email
           password ip_address user_agent session_id t t_load w2
           user_id record).
  - apply find_by_email_after_set; auto.
    unfold email_matches. simpl. apply String.eqb_refl.
  - unfold _hash_password. rewrite Hsecret. simpl.
    destruct (String.eqb _ _) eqn:E; auto.
    apply String.eqb_eq in E. now elim Hdiff.
Qed.

Lemma password_lost_across_constructions_witness :
  let cfg1 := merge_defaults
                {| cj_session_timeout_hours := Some 8;
                   cj_max_sessions_per_user := None;
                   cj_require_strong_passwords := None;
                   cj_allow_registration := None;
                   cj_default_role := None;
                   cj_enable_guest_mode := None;
                   cj_secret_key := None |}
                (default_config "first draw") in
  let created :=
    create_user toy_digest cfg1 "alice@example.com" "Alice" "hunter2" "pm"
      "id-1" 1 partial_config_world in
  fst created = Ret (CreateSuccess "id-1" "User Alice created successfully")
  /\
  exists cfg2,
    __init__ toy_digest "second draw" 2 (snd created)
      = (Ret cfg2, snd created) /\
    secret_key cfg2 = "second draw" /\
    authenticate_user toy_digest cfg2 "alice@example.com" "hunter2"
      "127.0.0.1" "cli" "tok" 5 6 (snd created)
    = (Ret (AuthFailure "Invalid email or password"), snd created).
Proof.
  intros cfg1 created. split; [reflexivity|].
  apply (password_lost_across_constructions toy_digest cfg1 "second draw" 2
           partial_config_world (snd created)
           "alice@example.com" "Alice" "hunter2" "pm" "id-1"
           "id-1" "User Alice created successfully" 1).
  - right. eexists. split; reflexivity.
  - reflexivity.
  - discriminate.
Defined.

(** * Further properties of the guards *)

(** ** Roles outside the table *)

Lemma role_hierarchy_get_unknown (role : string) (default : Z) :
  role <> "viewer" -> role <> "pm" -> role <> "admin" ->
  role_hierarchy_get role default = default.
Proof.
  intros Hv Hp Ha. unfold role_hierarchy_get.
  destruct (String.eqb role "viewer") eqn:E1;
    [apply String.eqb_eq in E1; contradiction|].
  destruct (String.eqb role "pm") eqn:E2;
    [apply String.eqb_eq in E2; contradiction|].
  destruct (String.eqb role "admin") eqn:E3;
    [apply String.eqb_eq in E3; contradiction|].
  reflexivity.
Qed.

Lemma role_hierarchy_get_range (role : string) :
  0 <= role_hierarchy_get role 0 <= 3 /\
  (1 <= role_hierarchy_get role 999 <= 3 \/
   role_hierarchy_get role 999 = 999).
Proof.
  unfold role_hierarchy_get.
  destruct (String.eqb role "viewer"); [lia|].
  destruct (String.eqb role "pm"); [lia|].
  destruct (String.eqb role "admin"); lia.
Qed.

(** X10. Role names outside the table close the door. A route guarded by a
    minimum role other than viewer, pm or admin (a misspelling, say) is
    refused to every user, admin included; a user whose role is none of
    the three is refused by every guard, the viewer one included. And the
    guard is monotone: whoever ranks at least as high as a user it lets
    through is let through as well. *)
Theorem require_role_outside_table (required_role : string)
    (u u' : user_view) :
  (required_role <> "viewer" -> required_role <> "pm" ->
   required_role <> "admin" ->
   require_role required_role (Some u)
   = Forbidden ("Insufficient permissions. Required: " ++ required_role)) /\
  (uv_role u <> "viewer" -> uv_role u <> "pm" -> uv_role u <> "admin" ->
   require_role required_role (Some u)
   = Forbidden ("Insufficient permissions. Required: " ++ required_role)) /\
  (require_role required_role (Some u) = Proceed ->
   role_hierarchy_get (uv_role u) 0 <= role_hierarchy_get (uv_role u') 0 ->
   require_role required_role (Some u') = Proceed).
Proof.
  unfold require_role.
  pose proof (role_hierarchy_get_range (uv_role u)) as [Hu _].
  pose proof (role_hierarchy_get_range required_role) as [_ Hr].
  split; [|split].
  - intros Hv Hp Ha.
    rewrite (role_hierarchy_get_unknown required_role 999 Hv Hp Ha).
    destruct (_ <? 999) eqn:E; auto. apply Z.ltb_ge in E. lia.
  - intros Hv Hp Ha.
    rewrite (role_hierarchy_get_unknown (uv_role u) 0 Hv Hp Ha).
    destruct (0 <? _) eqn:E; auto. apply Z.ltb_ge in E. lia.
  - destruct (_ <? _) eqn:E; [discriminate|]. intros _ Hle.
    apply Z.ltb_ge in E.
    destruct (role_hierarchy_get (uv_role u') 0 <? _) eqn:E'; auto.
    apply Z.ltb_lt in E'. lia.
Qed.

Lemma require_role_outside_table_witness :
  require_role "administrator" (Some (user_with_role "admin"))
    = Forbidden "Insufficient permissions. Required: administrator" /\
  require_role "viewer" (Some (user_with_role "guest"))
    = Forbidden "Insufficient permissions. Required: viewer" /\
  require_role "pm" (Some (user_with_role "admin")) = Proceed.
Proof.
  destruct (require_role_outside_table "administrator"
              (user_with_role "admin") (user_with_role "admin"))
    as (Hmisspelt & _ & _).
  destruct (require_role_outside_table "viewer"
              (user_with_role "guest") (user_with_role "guest"))
    as (_ & Hstranger & _).
  destruct (require_role_outside_table "pm"
              (user_with_role "pm") (user_with_role "admin"))
    as (_ & _ & Hup).
  split; [apply Hmisspelt; discriminate|].
  split; [apply Hstranger; discriminate|].
  apply Hup; [reflexivity | vm_compute; discriminate].
Defined.

(** ** Reading the token off a request *)

Example strip_examples :
  PyStr.strip "  Alice@Example.com " = "Alice@Example.com" /\
  PyStr.strip "a b" = "a b" /\ PyStr.strip "   " = "" /\
  PyStr.strip "" = "".
Proof. repeat split. Qed.

Example strip_blanks_beyond_ascii :
  PyStr.strip (no_break_space ++ " a b" ++ ideographic_space) = "a b" /\
  PyStr.strip (no_break_space ++ ideographic_space) = "" /\
  PyStr.strip ("a" ++ no_break_space ++ "b") = "a" ++ no_break_space ++ "b" /\
  PyStr.strip (String "195" (String "160" "")) = String "195" (String "160" "").
Proof. repeat split. Qed.

Example remove_bearer_examples :
  remove_bearer "Bearer abc" = "abc" /\
  remove_bearer "Bearer Bearer abc" = "abc" /\
  remove_bearer "abBearer cd" = "abcd" /\
  remove_bearer "bearer abc" = "bearer abc" /\
  remove_bearer "Bearer " = "".
Proof. repeat split. Qed.

(** One step of the scan: the text starts with ['Bearer '], or its first
    character is kept. *)
Lemma remove_bearer_step (c : ascii) (r : string) :
  (exists rest, String c r = "Bearer " ++ rest) \/
  remove_bearer (String c r) = String c (remove_bearer r).
Proof.
  split_char c.
  destruct r as [|c2 r]; [right; reflexivity|]. split_char c2.
  destruct r as [|c3 r]; [right; reflexivity|]. split_char c3.
  destruct r as [|c4 r]; [right; reflexivity|]. split_char c4.
  destruct r as [|c5 r]; [right; reflexivity|]. split_char c5.
  destruct r as [|c6 r]; [right; reflexivity|]. split_char c6.
  destruct r as [|c7 r]; [right; reflexivity|]. split_char c7.
  left. exists r. reflexivity.
Qed.

Lemma remove_bearer_space_free (s : string) :
  space_free s = true -> remove_bearer s = s.
Proof.
  induction s as [|c r IH]; [reflexivity|]. intros Hfree.
  destruct (remove_bearer_step c r) as [(rest & Heq)|Hstep].
  - rewrite Heq in Hfree. discriminate Hfree.
  - rewrite Hstep. simpl in Hfree. apply andb_true_iff in Hfree.
    destruct Hfree as [_ Hr]. now rewrite IH.
Qed.

(** X12. The header wins over the cookie. A request whose [Authorization]
    header is ['Bearer '] followed by a non-empty token without spaces
    carries that token, whatever its cookie says; a request with no such
    header, an empty one or a bare ['Bearer '] carries its cookie. *)
Theorem request_session_id_precedence (req : request) (token : string) :
  (space_free token = true -> token <> "" ->
   authorization req = Some ("Bearer " ++ token) ->
   request_session_id req = Some token) /\
  (authorization req = None \/ authorization req = Some "" \/
   authorization req = Some "Bearer " ->
   request_session_id req = session_cookie req).
Proof.
  unfold request_session_id. split.
  - intros Hfree Hne Hauth. rewrite Hauth.
    change (remove_bearer (get_or (Some ("Bearer " ++ token)) ""))
      with (remove_bearer token).
    rewrite (remove_bearer_space_free token Hfree).
    destruct token; [now elim Hne | reflexivity].
  - intros [H|[H|H]]; rewrite H; reflexivity.
Qed.

Lemma request_session_id_precedence_witness :
  request_session_id (bearer_request "tok-H" (Some "tok-C")) = Some "tok-H" /\
  request_session_id (cookie_request "tok-C") = Some "tok-C".
Proof.
  split.
  - apply (request_session_id_precedence
             (bearer_request "tok-H" (Some "tok-C")) "tok-H");
      [reflexivity | discriminate | reflexivity].
  - apply (request_session_id_precedence (cookie_request "tok-C") "").
    left. reflexivity.
Defined.

(** ** Guests at the guard *)

Lemma validate_guest_record_invalid
    (w : World) (sid ip ua : string) (epoch : Z) (created t : datetime)
    (base : Dict.t session_data) (t1 t2 t3 : datetime) :
  stored_sessions w
    = Dict.set sid (guest_record ip ua epoch sid created)
        (_cleanup_expired_sessions t base) ->
  Dict.get (guest_id epoch) (stored_users w) = None ->
  exists error w2,
    validate_session sid t1 t2 t3 w = (Ret (Invalid error), w2).
Proof.
  intros Hstored Hnouser.
  set (rec := guest_record ip ua epoch sid created) in *.
  destruct (PyStr.falsy sid) eqn:Hf.
  { do 2 eexists. now apply validate_session_no_id. }
  assert (Hget : Dict.get sid (loaded_sessions t1 w)
                 = if kept t1 rec then Some rec else None).
  { unfold loaded_sessions. rewrite Hstored. apply reload_after_store. }
  destruct (kept t1 rec) eqn:Hk.
  2:{ do 2 eexists. now apply validate_session_not_found. }
  destruct (Z_lt_le_dec (created + timedelta_hours 2) t2) as [Hexp|Hok].
  - do 2 eexists. eapply validate_session_expired; eauto. reflexivity.
  - do 2 eexists. eapply validate_session_no_owner; eauto; reflexivity.
Qed.

(** X11. No guarded route is reachable with a guest session. As long as
    no user is stored under a guest identity, a request that carries a
    token handed out by [guest_session] is answered 401 by [require_auth]
    at every clock reading, and the route is not run. *)
Theorem require_auth_refuses_guests
    (sha256_hexdigest : string -> string) (A : Type) (f : flask_g -> M A)
    (req : request)
    (cfg : config) (ip ua : string) (epoch : Z) (sid : string)
    (created t : datetime) (w w1 : World)
    (token : string) (u : user_view) (exp : pytime) (g : bool)
    (fresh_secret : string) (now t1 t2 t3 : datetime) :
  guest_session cfg ip ua epoch sid created t w
    = (Ret (GuestSuccess token u exp g), w1) ->
  no_guest_user (stored_users w1) ->
  request_session_id req = Some token ->
  exists error w2,
    require_auth sha256_hexdigest f req fresh_secret now t1 t2 t3 w1
    = (Ret (Denied 401 error true), w2).
Proof.
  intros Hrun Hinv Hreq.
  destruct (enable_guest_mode cfg) eqn:Hen.
  2:{ rewrite guest_session_disabled in Hrun by assumption. discriminate. }
  destruct (guest_session_enabled cfg ip ua epoch sid created t w Hen)
    as (u0 & _ & _ & Heq).
  rewrite Heq in Hrun. inversion Hrun; subst token u0 exp g w1.
  clear Hrun Heq.
  set (w1 := {| users_file := users_file w |}) in *.
  unfold require_auth. rewrite Hreq.
  destruct (PyStr.falsy sid) eqn:Hf; [do 2 eexists; reflexivity|].
  run_py.
  pose proof (init_no_guest_user sha256_hexdigest fresh_secret now w1 Hinv)
    as Hinv'.
  rewrite init_eq, load_auth_config_eq in Hinv' |- *.
  assert (Hval : forall w',
    sessions_file w' = sessions_file w1 ->
    no_guest_user (stored_users w') ->
    exists error w2,
      validate_session sid t1 t2 t3 w' = (Ret (Invalid error), w2)).
  { intros w' Hs Hu.
    apply (validate_guest_record_invalid w' sid ip ua epoch created t
             (stored_sessions w)).
    - unfold stored_sessions at 1. rewrite Hs. reflexivity.
    - now apply no_guest_user_get. }
  destruct (config_file w1);
    cbv beta iota zeta in Hinv' |- *;
    match goal with
    | |- context [validate_session sid t1 t2 t3 ?w'] =>
        destruct (Hval w') as (error & w2 & Hv);
          [ destruct (stored_users _); reflexivity
          | exact Hinv'
          | rewrite Hv; do 2 eexists; reflexivity ]
    end.
Qed.

Lemma require_auth_refuses_guests_witness :
  exists u w1 error w2,
    guest_session (default_config "k") "127.0.0.1" "cli" 1700000000 "tok"
                  5 6 empty_world
      = (Ret (GuestSuccess "tok" u (Iso (5 + timedelta_hours 2)) true), w1) /\
    require_auth toy_digest (fun _ => ret tt) (cookie_request "tok")
      "draw" 7 8 9 10 w1
    = (Ret (Denied 401 error true), w2).
Proof.
  destruct (guest_session_enabled (default_config "k") "127.0.0.1" "cli"
              1700000000 "tok" 5 6 empty_world eq_refl)
    as (u & _ & _ & Hrun).
  destruct (require_auth_refuses_guests toy_digest unit (fun _ => ret tt)
              (cookie_request "tok") _ _ _ _ _ _ _ _ _ _ _ _ _
              "draw" 7 8 9 10 Hrun)
    as (error & w2 & Hguard).
  - intros k data [].
  - reflexivity.
  - exists u. do 3 eexists. split; [exact Hrun | exact Hguard].
Defined.

Example require_auth_guest_reason :
  fst (require_auth toy_digest (fun _ => ret tt) (cookie_request "tok")
         "draw" 7 8 9 10
         (snd (guest_session (default_config "k") "127.0.0.1" "cli"
                 1700000000 "tok" 5 6 empty_world)))
  = Ret (Denied 401 "User account not found or disabled" true).
Proof. reflexivity. Qed.

(** ** Logged-in users at the guard *)

Lemma dict_set_nonempty {V} (k : string) (v : V) (d : Dict.t V) :
  Dict.set k v d <> [].
Proof.
  destruct d as [|[k0 v0] r]; simpl; [discriminate|].
  destruct (String.eqb k k0); discriminate.
Qed.

(** Constructing a manager over a state that has users touches at most the
    configuration file. *)
Lemma init_with_users (sha256_hexdigest : string -> string)
    (fresh_secret : string) (now : datetime) (w : World) :
  stored_users w <> [] ->
  exists cfg w',
    __init__ sha256_hexdigest fresh_secret now w = (Ret cfg, w') /\
    users_file w' = users_file w /\ sessions_file w' = sessions_file w.
Proof.
  intros Hne. rewrite init_eq, load_auth_config_eq.
  destruct (config_file w);
    cbv beta iota zeta;
    change (stored_users (with_config _ w)) with (stored_users w);
    destruct (stored_users w); try congruence;
    do 2 eexists; repeat split.
Qed.

(** X13. A logged-in user reaches the guarded route. For a request that
    carries the token of a successful [authenticate_user], while the
    session has not expired, [require_auth] runs the route, handing it in
    [g] the user view the login returned and the session with
    [last_active] refreshed; what the route returns or raises is what the
    guarded route returns or raises. *)
Theorem require_auth_admits_login
    (sha256_hexdigest : string -> string) (A : Type) (f : flask_g -> M A)
    (req : request) (cfg : config)
    (email password ip_address user_agent session_id : string)
    (created t_load : datetime) (w w1 : World)
    (token : string) (user : user_view) (expires : pytime)
    (fresh_secret : string) (now t1 t2 t3 : datetime) :
  authenticate_user sha256_hexdigest cfg email password
    ip_address user_agent session_id created t_load w
  = (Ret (AuthSuccess token user expires), w1) ->
  request_session_id req = Some token ->
  token <> "" ->
  t1 < created + timedelta_hours (session_timeout_hours cfg) ->
  t2 <= created + timedelta_hours (session_timeout_hours cfg) ->
  exists w2,
    require_auth sha256_hexdigest f req fresh_secret now t1 t2 t3 w1 =
    match f {| current_user := Some user;
               current_session :=
                 Some {| sv_session_id := token; sv_created_at := Iso created;
                         sv_expires_at := expires;
                         sv_last_active := Iso t3 |} |} w2
    with
    | (Ret a, w3) => (Ret (Granted a), w3)
    | (Raise e, w3) => (Raise e, w3)
    end.
Proof.
  intros Hrun Hreq Hne Hlive Hcheck.
  destruct (authenticate_user_success_inv _ _ _ _ _ _ _ _ _ _ _ _ _ _ Hrun)
    as (uid & data & user_id & e & name & role & Hf & Hh & Hact & Hid & He
        & Hn & Hr & -> & -> & -> & Hw1).
  set (exp := created + timedelta_hours (session_timeout_hours cfg)) in *.
  set (s := Session session_id user_id (Iso created) (Iso exp) (Iso created)
              ip_address user_agent) in *.
  set (data' := with_last_login data (Iso created)) in *.
  assert (Husers : stored_users w1
                   = Dict.set user_id data'
                       (Dict.set uid data' (stored_users w)))
    by (now rewrite Hw1).
  assert (Hsessions : stored_sessions w1
                      = Dict.set session_id s (loaded_sessions t_load w))
    by (now rewrite Hw1).
  destruct (init_with_users sha256_hexdigest fresh_secret now w1)
    as (cfg' & w1' & Hinit & Hu & Hs).
  { rewrite Husers. apply dict_set_nonempty. }
  assert (Hfalsy : PyStr.falsy session_id = false)
    by (destruct session_id; [now elim Hne | reflexivity]).
  unfold require_auth. rewrite Hreq, Hfalsy. run_py. rewrite Hinit.
  erewrite (validate_session_valid session_id t1 t2 t3 w1' s exp
              (Iso created) user_id data' user_id e name role
              (_hash_password sha256_hexdigest cfg password)); auto.
  - eexists. reflexivity.
  - unfold loaded_sessions, stored_sessions. rewrite Hs.
    change (content_or_empty (sessions_file w1)) with (stored_sessions w1).
    rewrite Hsessions. unfold loaded_sessions. rewrite reload_after_store.
    assert (Hk : kept t1 s = true).
    { unfold kept. simpl. rewrite andb_true_r, Z.gtb_ltb.
      now apply Z.ltb_lt. }
    now rewrite Hk.
  - unfold stored_users. rewrite Hu.
    change (content_or_empty (users_file w1)) with (stored_users w1).
    rewrite Husers. apply DictFacts.get_set_same.
Qed.

Lemma require_auth_admits_login_witness :
  exists user expires w1 w2,
    authenticate_user toy_digest (default_config "k") "ann@example.com" "pw"
      "127.0.0.1" "cli" "tok" 5 6 (two_users_world toy_digest)
    = (Ret (AuthSuccess "tok" user expires), w1) /\
    require_auth toy_digest
      (fun g => ret (option_map uv_email (current_user g)))
      (bearer_request "tok" None) "draw" 7 8 9 10 w1
    = (Ret (Granted (Some "ann@example.com")), w2).
Proof.
  set (run := authenticate_user toy_digest (default_config "k")
                "ann@example.com" "pw" "127.0.0.1" "cli" "tok" 5 6
                (two_users_world toy_digest)).
  set (user := {| uv_user_id := "id-ann"; uv_email := "ann@example.com";
                  uv_name := "Ann"; uv_role := "pm";
                  uv_preferences :=
                    [("theme", PStr "light");
                     ("default_experience", PStr "learn_and_do");
                     ("favorite_tools", PList []);
                     ("dashboard_layout", PStr "default")] |}).
  assert (Hrun : run = (Ret (AuthSuccess "tok" user
                               (Iso (5 + timedelta_hours 24))), snd run))
    by (vm_compute; reflexivity).
  destruct (require_auth_admits_login toy_digest (option string)
              (fun g => ret (option_map uv_email (current_user g)))
              (bearer_request "tok" None) (default_config "k")
              "ann@example.com" "pw" "127.0.0.1" "cli" "tok" 5 6
              (two_users_world toy_digest) (snd run) "tok" user
              (Iso (5 + timedelta_hours 24)) "draw" 7 8 9 10 Hrun)
    as (w2 & Hguard).
  - reflexivity.
  - discriminate.
  - unfold timedelta_hours. simpl. lia.
  - unfold timedelta_hours. simpl. lia.
  - exists user, (Iso (5 + timedelta_hours 24)), (snd run), w2.
    split; [exact Hrun | exact Hguard].
Defined.

(** * Properties of the web endpoints *)

(** ** The three ways a login can end *)

Lemma authenticate_user_cases
    (sha256_hexdigest : string -> string) (cfg : config)
    (email password ip_address user_agent session_id : string)
    (now t_load : datetime) (w : World) :
  let run := authenticate_user sha256_hexdigest cfg email password
               ip_address user_agent session_id now t_load w in
  (exists error, run = (Ret (AuthFailure error), w)) \/
  (exists user expires w1,
     run = (Ret (AuthSuccess session_id user expires), w1) /\
     Dict.mem session_id (stored_sessions w1) = true) \/
  (exists key w1, run = (Raise (KeyError key), w1)).
Proof.
  intros run. subst run.
  destruct (find_by_email email (stored_users w)) as [[uid data]|] eqn:Hf.
  2:{ left. eexists. now apply authenticate_user_unknown. }
  destruct (str_ne_opt (_hash_password sha256_hexdigest cfg password)
              (ud_password_hash data)) eqn:Hne.
  { left. eexists. eapply authenticate_user_wrong_password; eauto. }
  apply str_ne_opt_false in Hne.
  destruct (get_or (ud_is_active data) true) eqn:Hact.
  2:{ left. eexists. eapply authenticate_user_disabled; eauto. }
  right. unfold authenticate_user. run_py.
  rewrite load_users_eq, Hf, (user_with_hash_not_falsy _ _ Hne), Hne.
  unfold str_ne_opt. rewrite String.eqb_refl, Hact. run_py.
  destruct (ud_user_id data) as [user_id|]; [|right; eauto].
  rewrite load_sessions_eq.
  cbn [ud_email ud_name ud_role ud_preferences with_last_login].
  destruct (ud_email data) as [e|]; [|right; eauto].
  destruct (ud_name data) as [name|]; [|right; eauto].
  destruct (ud_role data) as [role|]; [|right; eauto].
  left. do 3 eexists. split; [reflexivity|].
  unfold Dict.mem, stored_sessions. simpl.
  now rewrite DictFacts.get_set_same.
Qed.

(** X14. [api_login] never raises and hands out the cookie only with a
    200. Whatever the request and the stored state, the endpoint returns a
    response. Either the status is 200, the body is the manager's success,
    the cookie is set to the token of the session just stored; or the
    status is 400, 401 or 500 and no cookie is set. A 400 or a 401 leaves
    the files untouched, and an email that is blank once trimmed, or an
    empty password, gets the 400. *)
Theorem api_login_outcomes
    (sha256_hexdigest : string -> string) (cfg : config) (req : request)
    (session_id : string) (now t_load : datetime) (w : World) :
  exists resp w',
    WebApp.api_login sha256_hexdigest cfg req session_id now t_load w
      = (Ret resp, w') /\
    ((WebApp.status resp = 200 /\
      WebApp.cookie resp = WebApp.SetSessionCookie session_id /\
      (exists user expires,
         WebApp.body resp
         = WebApp.AuthBody (AuthSuccess session_id user expires)) /\
      Dict.mem session_id (stored_sessions w') = true) \/
     (WebApp.cookie resp = WebApp.NoCookie /\
      ((WebApp.status resp = 400 /\ w' = w) \/
       (WebApp.status resp = 401 /\ w' = w) \/
       WebApp.status resp = 500))) /\
    (forall email name password,
       WebApp.body_fields (get_json req) = Some (email, name, password) ->
       PyStr.strip email = "" \/ password = "" ->
       resp = WebApp.respond 400
                (WebApp.Failure "Email and password are required")).
Proof.
  unfold WebApp.api_login.
  destruct (WebApp.body_fields (get_json req)) as [[[email name] password]|].
  2:{ do 2 eexists. split; [reflexivity|]. split; [|discriminate].
      right. split; [reflexivity|]. right. right. reflexivity. }
  unfold WebApp.or_500, try_except.
  destruct (PyStr.falsy (PyStr.strip email) || PyStr.falsy password) eqn:Hb.
  { do 2 eexists. split; [reflexivity|]. split.
    - right. split; [reflexivity|]. left. split; reflexivity.
    - reflexivity. }
  cbv beta iota zeta delta [bind].
  pose proof (authenticate_user_cases sha256_hexdigest cfg
                (PyStr.strip email) password (get_or (remote_addr req) "")
                (get_or (user_agent_header req) "") session_id now t_load w)
    as Hcases.
  cbv zeta in Hcases.
  assert (Hnonblank : forall e n p,
    Some (email, name, password) = Some (e, n, p) ->
    PyStr.strip e = "" \/ p = "" -> False).
  { intros e n p [= <- <- <-] Hblank. apply orb_false_iff in Hb.
    destruct Hb as [He Hp].
    destruct Hblank as [H|H]; rewrite H in *; discriminate. }
  destruct Hcases as [(error & Hrun)|[(user & expires & w1 & Hrun & Hmem)
                                     |(key & w1 & Hrun)]];
    rewrite Hrun; do 2 eexists; (split; [reflexivity|]);
    (split; [|intros e n p Heq Hblank;
              exfalso; exact (Hnonblank e n p Heq Hblank)]).
  - right. split; [reflexivity|]. right. left. split; reflexivity.
  - left. split; [reflexivity|]. split; [reflexivity|].
    split; [do 2 eexists; reflexivity | exact Hmem].
  - right. split; [reflexivity|]. right. right. reflexivity.
Qed.

Lemma api_login_outcomes_witness :
  exists w',
    WebApp.api_login toy_digest (default_config "k")
      (json_request (Some "   ") None (Some "pw")) "tok" 5 6
      (two_users_world toy_digest)
    = (Ret (WebApp.respond 400
              (WebApp.Failure "Email and password are required")), w').
Proof.
  destruct (api_login_outcomes toy_digest (default_config "k")
              (json_request (Some "   ") None (Some "pw")) "tok" 5 6
              (two_users_world toy_digest))
    as (resp & w' & Hrun & _ & Hblank).
  exists w'. rewrite Hrun.
  rewrite (Hblank "   " "" "pw" eq_refl (or_introl eq_refl)). reflexivity.
Defined.

(** The login of X6 seen through the endpoint: the [KeyError] becomes a
    500, no cookie is set, and the session is on file all the same. *)
Example api_login_on_broken_record :
  let run := WebApp.api_login toy_digest (default_config "k")
               (json_request (Some "zoe@example.com") None (Some "pw"))
               "tok" 5 6 (broken_records_world toy_digest) in
  fst run = Ret (WebApp.respond 500
                   (WebApp.FailureStr (WebApp.FromManager (KeyError "name"))))
  /\ Dict.mem "tok" (stored_sessions (snd run)) = true.
Proof. split; reflexivity. Qed.

(** ** Logging out through the endpoint *)

(** X15. [api_logout] always reports success. For every request, with a
    known token, an unknown one or none at all, the endpoint answers 200
    "Logged out successfully" and clears the cookie; it leaves the users
    file alone, and afterwards the token the request carried is absent
    from every later load. *)
Theorem api_logout_always_succeeds
    (req : request) (t_load : datetime) (w : World) :
  exists w',
    WebApp.api_logout req t_load w
    = (Ret {| WebApp.status := 200;
              WebApp.body := WebApp.Message "Logged out successfully";
              WebApp.cookie := WebApp.ClearSessionCookie |}, w') /\
    users_file w' = users_file w /\
    forall token t_later,
      request_session_id req = Some token -> token <> "" ->
      t_load <= t_later ->
      Dict.get token (loaded_sessions t_later w') = None.
Proof.
  unfold WebApp.api_logout, WebApp.or_500, try_except.
  destruct (request_session_id req) as [token|] eqn:Hreq;
    cbv beta iota zeta delta [bind ret no_token get_or].
  2:{ eexists. split; [reflexivity|]. split; [reflexivity|].
      intros token t_later Heq. discriminate. }
  destruct (PyStr.falsy token) eqn:Hf.
  { eexists. split; [reflexivity|]. split; [reflexivity|].
    intros tok t_later [= <-] Hne. destruct token; [now elim Hne|].
    discriminate. }
  rewrite logout_user_eq.
  destruct (Dict.mem token (loaded_sessions t_load w)) eqn:Hmem;
    eexists; (split; [reflexivity|]); (split; [reflexivity|]);
    intros tok t_later [= <-] _ Hle;
    pose proof (logout_user_forgets token t_load t_later w Hle) as Hgone;
    rewrite logout_user_eq, Hmem in Hgone; exact Hgone.
Qed.

Lemma api_logout_always_succeeds_witness :
  exists w',
    WebApp.api_logout (cookie_request "tok-a") 50 two_sessions_world
    = (Ret {| WebApp.status := 200;
              WebApp.body := WebApp.Message "Logged out successfully";
              WebApp.cookie := WebApp.ClearSessionCookie |}, w') /\
    Dict.get "tok-a" (loaded_sessions 60 w') = None /\
    Dict.mem "tok-b" (loaded_sessions 60 w') = true.
Proof.
  destruct (api_logout_always_succeeds (cookie_request "tok-a") 50
              two_sessions_world) as (w' & Hrun & _ & Hgone).
  exists w'. split; [exact Hrun|]. split.
  - apply Hgone; [reflexivity | discriminate | lia].
  - assert (Hw : snd (WebApp.api_logout (cookie_request "tok-a") 50
                        two_sessions_world) = w') by now rewrite Hrun.
    rewrite <- Hw. reflexivity.
Defined.

(** ** Registering through the endpoint *)

Lemma falsy_iff (s : string) : PyStr.falsy s = true <-> s = "".
Proof. destruct s; simpl; split; congruence. Qed.

Lemma falsy_false_iff (s : string) : PyStr.falsy s = false <-> s <> "".
Proof. destruct s; simpl; split; congruence. Qed.

Lemma lower_empty (s : string) : PyStr.lower s = "" -> s = "".
Proof. destruct s; simpl; congruence. Qed.

(** [api_register] once registration is allowed and the body was read. *)
Lemma api_register_fields
    (sha256_hexdigest : string -> string) (cfg : config) (req : request)
    (user_id : string) (now : datetime) (w : World)
    (e n password : string) :
  allow_registration cfg = true ->
  WebApp.body_fields (get_json req) = Some (e, n, password) ->
  let email := PyStr.strip e in
  let name := PyStr.strip n in
  WebApp.api_register sha256_hexdigest cfg req user_id now w =
  if PyStr.falsy email || PyStr.falsy name || PyStr.falsy password then
    (Ret (WebApp.respond 400
            (WebApp.Failure "Email, name, and password are required")), w)
  else if email_taken email (stored_users w) then
    (Ret (WebApp.respond 400
            (WebApp.CreateBody
               (CreateFailure "User with this email already exists"))), w)
  else
    (Ret (WebApp.respond 201
            (WebApp.CreateBody
               (CreateSuccess user_id
                  ("User " ++ name ++ " created successfully")))),
     with_users
       (Dict.set user_id
          (new_user_record sha256_hexdigest cfg email name password "pm"
             user_id now)
          (stored_users w)) w).
Proof.
  intros Hallow Hbody email name. unfold WebApp.api_register.
  rewrite Hallow, Hbody. cbv beta iota delta [negb].
  fold email. fold name.
  destruct (PyStr.falsy email || PyStr.falsy name || PyStr.falsy password);
    [reflexivity|].
  unfold WebApp.or_500, try_except. cbv beta iota zeta delta [bind].
  rewrite create_user_eq.
  destruct (email_taken email (stored_users w)); reflexivity.
Qed.

(** X16. What [api_register] stores. With registration switched off the
    endpoint answers 403 and touches nothing, whatever the request. With
    it on, an email or name that is blank once trimmed, or an empty
    password, gets 400 and nothing is written; a taken email gets 400 and
    nothing is written; otherwise the answer is 201 and the record stored
    carries the trimmed email and name and the role pm, whatever
    [default_role] the configuration holds. *)
Theorem api_register_outcomes
    (sha256_hexdigest : string -> string) (cfg : config) (req : request)
    (user_id : string) (now : datetime) (w : World) :
  let run := WebApp.api_register sha256_hexdigest cfg req user_id now w in
  (allow_registration cfg = false ->
   run = (Ret (WebApp.respond 403
                 (WebApp.Failure "Registration is currently disabled")), w))
  /\
  (forall e n password,
     allow_registration cfg = true ->
     WebApp.body_fields (get_json req) = Some (e, n, password) ->
     (PyStr.strip e = "" \/ PyStr.strip n = "" \/ password = "" ->
      run = (Ret (WebApp.respond 400
                    (WebApp.Failure
                       "Email, name, and password are required")), w)) /\
     (email_taken (PyStr.strip e) (stored_users w) = true ->
      exists body, run = (Ret (WebApp.respond 400 body), w)) /\
     (PyStr.strip e <> "" -> PyStr.strip n <> "" -> password <> "" ->
      email_taken (PyStr.strip e) (stored_users w) = false ->
      exists message record,
        run = (Ret (WebApp.respond 201
                      (WebApp.CreateBody (CreateSuccess user_id message))),
               with_users (Dict.set user_id record (stored_users w)) w) /\
        ud_email record = Some (PyStr.strip e) /\
        ud_name record = Some (PyStr.strip n) /\
        ud_role record = Some "pm" /\
        ud_is_active record = Some true)).
Proof.
  intros run. subst run. split.
  - intros Hoff. unfold WebApp.api_register. now rewrite Hoff.
  - intros e n password Hallow Hbody.
    rewrite (api_register_fields sha256_hexdigest cfg req user_id now w
               e n password Hallow Hbody).
    cbv zeta. split; [|split].
    + intros Hblank.
      assert (Hb : PyStr.falsy (PyStr.strip e) || PyStr.falsy (PyStr.strip n)
                   || PyStr.falsy password = true).
      { destruct Hblank as [H|[H|H]]; rewrite H; simpl;
          rewrite ?orb_true_r; reflexivity. }
      now rewrite Hb.
    + intros Htaken. rewrite Htaken.
      destruct (PyStr.falsy (PyStr.strip e) || PyStr.falsy (PyStr.strip n)
                || PyStr.falsy password); eexists; reflexivity.
    + intros He Hn Hp Hfree.
      apply falsy_false_iff in He, Hn, Hp. rewrite He, Hn, Hp, Hfree.
      simpl orb. cbv iota. do 2 eexists. split; [reflexivity|].
      repeat split.
Qed.

Lemma api_register_outcomes_witness :
  let cfg := {| session_timeout_hours := 24; max_sessions_per_user := 5;
                require_strong_passwords := false;
                allow_registration := true; default_role := "viewer";
                enable_guest_mode := true; secret_key := "k" |} in
  let req :=
    json_request (Some (no_break_space ++ " Alice@Example.com "))
      (Some (" Alice" ++ ideographic_space)) (Some "hunter2") in
  let unnamed :=
    json_request (Some "alice@example.com") (Some no_break_space)
      (Some "hunter2") in
  (exists message record w1,
     WebApp.api_register toy_digest cfg req "id-1" 1 empty_world
     = (Ret (WebApp.respond 201
               (WebApp.CreateBody (CreateSuccess "id-1" message))), w1) /\
     Dict.get "id-1" (stored_users w1) = Some record /\
     ud_email record = Some "Alice@Example.com" /\
     ud_name record = Some "Alice" /\
     ud_role record = Some "pm") /\
  WebApp.api_register toy_digest cfg unnamed "id-1" 1 empty_world
  = (Ret (WebApp.respond 400
            (WebApp.Failure "Email, name, and password are required")),
     empty_world).
Proof.
  intros cfg req unnamed. split.
  - destruct (api_register_outcomes toy_digest cfg req "id-1" 1 empty_world)
      as [_ Hon].
    destruct (Hon (no_break_space ++ " Alice@Example.com ")
                (" Alice" ++ ideographic_space) "hunter2" eq_refl eq_refl)
      as (_ & _ & Hok).
    destruct Hok as (message & record & Hrun & He & Hn & Hr & _);
      try discriminate; try reflexivity.
    exists message, record. eexists. split; [exact Hrun|].
    split; [reflexivity|]. split; [exact He|]. split; [exact Hn | exact Hr].
  - destruct (api_register_outcomes toy_digest cfg unnamed "id-1" 1
                empty_world) as [_ Hon].
    destruct (Hon "alice@example.com" no_break_space "hunter2"
                eq_refl eq_refl) as (Hblank & _).
    apply Hblank. right. left. reflexivity.
Defined.

(** X17. Register, then log in. After [api_register] answered 201 for an
    email, a name and a password, [api_login] with the same password and
    the same email, in any letter case and with any blanks around it,
    answers 200, sets the session cookie to the token drawn, and returns
    the new account: its identifier, the trimmed email as registered, and
    the role pm. *)
Theorem register_then_login
    (sha256_hexdigest : string -> string) (cfg : config)
    (req_r req_l : request) (user_id : string) (now : datetime)
    (w w1 : World) (resp : WebApp.response)
    (e n password e' n' : string)
    (session_id : string) (t t_load : datetime) :
  WebApp.api_register sha256_hexdigest cfg req_r user_id now w
    = (Ret resp, w1) ->
  WebApp.status resp = 201 ->
  WebApp.body_fields (get_json req_r) = Some (e, n, password) ->
  WebApp.body_fields (get_json req_l) = Some (e', n', password) ->
  PyStr.lower (PyStr.strip e') = PyStr.lower (PyStr.strip e) ->
  exists user expires w2,
    WebApp.api_login sha256_hexdigest cfg req_l session_id t t_load w1
    = (Ret {| WebApp.status := 200;
              WebApp.body :=
                WebApp.AuthBody (AuthSuccess session_id user expires);
              WebApp.cookie := WebApp.SetSessionCookie session_id |}, w2) /\
    uv_user_id user = user_id /\
    uv_email user = PyStr.strip e /\
    uv_role user = "pm".
Proof.
  intros Hreg Hstatus Hbody Hbody' Hlow.
  destruct (allow_registration cfg) eqn:Hallow.
  2:{ unfold WebApp.api_register in Hreg. rewrite Hallow in Hreg.
      inversion Hreg; subst. discriminate. }
  rewrite (api_register_fields sha256_hexdigest cfg req_r user_id now w
             e n password Hallow Hbody) in Hreg.
  cbv zeta in Hreg.
  destruct (PyStr.falsy (PyStr.strip e) || PyStr.falsy (PyStr.strip n)
            || PyStr.falsy password) eqn:Hblank;
    [inversion Hreg; subst; discriminate|].
  destruct (email_taken (PyStr.strip e) (stored_users w)) eqn:Hfree;
    [inversion Hreg; subst; discriminate|].
  inversion Hreg; subst resp w1. clear Hreg Hstatus.
  apply orb_false_iff in Hblank. destruct Hblank as [Hblank Hp].
  apply orb_false_iff in Hblank. destruct Hblank as [He _].
  assert (He' : PyStr.falsy (PyStr.strip e') = false).
  { apply falsy_false_iff. intros Hempty. rewrite Hempty in Hlow.
    symmetry in Hlow. apply lower_empty in Hlow.
    apply falsy_false_iff in He. contradiction. }
  set (record := new_user_record sha256_hexdigest cfg (PyStr.strip e)
                   (PyStr.strip n) password "pm" user_id now).
  set (w1 := with_users (Dict.set user_id record (stored_users w)) w).
  unfold WebApp.api_login. rewrite Hbody', He', Hp.
  unfold WebApp.or_500, try_except. cbv beta iota zeta delta [bind orb].
  erewrite (authenticate_user_success sha256_hexdigest cfg
              (PyStr.strip e') password _ _ session_id t t_load w1
              user_id record user_id (PyStr.strip e) (PyStr.strip n) "pm");
    try reflexivity.
  - do 3 eexists. split; [reflexivity|]. repeat split.
  - apply find_by_email_after_set.
    + now rewrite (email_taken_lower (PyStr.strip e) (PyStr.strip e')).
    + unfold email_matches. simpl. rewrite Hlow. apply String.eqb_refl.
Qed.

Lemma register_then_login_witness :
  let cfg := default_config "k" in
  let registered :=
    WebApp.api_register toy_digest cfg
      (json_request (Some ("  Alice@Example.com" ++ no_break_space))
         (Some " Alice ") (Some "hunter2")) "id-1" 1 empty_world in
  exists user expires w2,
    WebApp.api_login toy_digest cfg
      (json_request (Some (ideographic_space ++ "alice@EXAMPLE.com")) None
         (Some "hunter2"))
      "tok" 5 6 (snd registered)
    = (Ret {| WebApp.status := 200;
              WebApp.body := WebApp.AuthBody (AuthSuccess "tok" user expires);
              WebApp.cookie := WebApp.SetSessionCookie "tok" |}, w2) /\
    uv_user_id user = "id-1" /\
    uv_email user = "Alice@Example.com" /\
    uv_role user = "pm".
Proof.
  intros cfg registered.
  apply (register_then_login toy_digest cfg
           (json_request (Some ("  Alice@Example.com" ++ no_break_space))
              (Some " Alice ") (Some "hunter2"))
           (json_request (Some (ideographic_space ++ "alice@EXAMPLE.com"))
              None (Some "hunter2"))
           "id-1" 1 empty_world (snd registered)
           (WebApp.respond 201
              (WebApp.CreateBody
                 (CreateSuccess "id-1" "User Alice created successfully")))
           ("  Alice@Example.com" ++ no_break_space) " Alice " "hunter2"
           (ideographic_space ++ "alice@EXAMPLE.com") "" "tok" 5 6);
    reflexivity.
Defined.

(** ** Guests through the endpoint *)

(** X18. [api_guest_login] in both modes. With guest mode off the endpoint
    answers 400 "Guest mode is disabled" and leaves every file as it was,
    expired sessions included. With it on it answers 200 with a viewer and
    sets the cookie to the token drawn; the users file is not written, the
    sessions file then holds under that token the guest's record, and
    every other record in it was already stored and was live when the
    load read the clock. *)
Theorem api_guest_login_outcomes
    (cfg : config) (req : request) (epoch : Z) (session_id : string)
    (now t_load : datetime) (w : World) :
  let run := WebApp.api_guest_login cfg req epoch session_id now t_load w in
  (enable_guest_mode cfg = false ->
   run = (Ret (WebApp.respond 400
                 (WebApp.GuestBody (GuestFailure "Guest mode is disabled"))),
          w)) /\
  (enable_guest_mode cfg = true ->
   exists user w1,
     run = (Ret {| WebApp.status := 200;
                   WebApp.body :=
                     WebApp.GuestBody
                       (GuestSuccess session_id user
                          (Iso (now + timedelta_hours 2)) true);
                   WebApp.cookie := WebApp.SetSessionCookie session_id |},
            w1) /\
     uv_role user = "viewer" /\
     users_file w1 = users_file w /\
     Dict.get session_id (stored_sessions w1)
       = Some (guest_record (get_or (remote_addr req) "")
                 (get_or (user_agent_header req) "") epoch session_id now) /\
     forall k s, In (k, s) (stored_sessions w1) -> k <> session_id ->
       session_live t_load s /\ In (k, s) (stored_sessions w)).
Proof.
  intros run. subst run.
  unfold WebApp.api_guest_login, WebApp.or_500, try_except.
  cbv beta iota zeta delta [bind]. split; intros Hen.
  - now rewrite guest_session_disabled.
  - destruct (guest_session_enabled cfg (get_or (remote_addr req) "")
                (get_or (user_agent_header req) "") epoch session_id now
                t_load w Hen) as (user & _ & Hrole & Hrun).
    rewrite Hrun. do 2 eexists. split; [reflexivity|].
    split; [exact Hrole|]. split; [reflexivity|]. split.
    + unfold stored_sessions. simpl. apply DictFacts.get_set_same.
    + intros k s Hin Hne. unfold stored_sessions at 1 in Hin. simpl in Hin.
      apply DictFacts.in_set_inv in Hin.
      destruct Hin as [Heq|Hin]; [inversion Heq; subst; now elim Hne|].
      split.
      * pose proof (cleanup_loop_live t_load (stored_sessions w) []
                      (Forall_nil _)) as Hall.
        rewrite Forall_forall in Hall. exact (Hall _ Hin).
      * unfold _cleanup_expired_sessions in Hin.
        apply cleanup_loop_incl in Hin. now rewrite app_nil_r in Hin.
Qed.

Lemma api_guest_login_outcomes_witness :
  let off := {| session_timeout_hours := 24; max_sessions_per_user := 5;
                require_strong_passwords := false;
                allow_registration := true; default_role := "pm";
                enable_guest_mode := false; secret_key := "k" |} in
  WebApp.api_guest_login off (cookie_request "old") 1700000000 "tok" 150 151
    two_sessions_world
  = (Ret (WebApp.respond 400
            (WebApp.GuestBody (GuestFailure "Guest mode is disabled"))),
     two_sessions_world) /\
  exists user w1,
    WebApp.api_guest_login (default_config "k") (cookie_request "old")
      1700000000 "tok" 150 151 two_sessions_world
    = (Ret {| WebApp.status := 200;
              WebApp.body :=
                WebApp.GuestBody
                  (GuestSuccess "tok" user (Iso (150 + timedelta_hours 2))
                     true);
              WebApp.cookie := WebApp.SetSessionCookie "tok" |}, w1) /\
    Dict.mem "tok-a" (stored_sessions w1) = false /\
    Dict.mem "tok-b" (stored_sessions w1) = true.
Proof.
  intros off. split.
  - apply (api_guest_login_outcomes off (cookie_request "old") 1700000000
             "tok" 150 151 two_sessions_world). reflexivity.
  - destruct (api_guest_login_outcomes (default_config "k")
                (cookie_request "old") 1700000000 "tok" 150 151
                two_sessions_world) as [_ Hon].
    destruct (Hon eq_refl) as (user & w1 & Hrun & _).
    exists user, w1. split; [exact Hrun|].
    assert (Hw : snd (WebApp.api_guest_login (default_config "k")
                        (cookie_request "old") 1700000000 "tok" 150 151
                        two_sessions_world) = w1) by now rewrite Hrun.
    rewrite <- Hw. split; reflexivity.
Defined.

(** ** Loads over time *)

(** X19. Loads only shrink as time passes. On a sessions file without
    repeated keys, every record a load returns is returned, under the same
    token, by a load of the same file made at any earlier clock reading;
    a session that a load no longer shows never comes back. *)
Theorem load_sessions_antitone (t1 t2 : datetime) (w : World)
    (k : string) (s : session_data) :
  NoDup (map fst (stored_sessions w)) ->
  t1 <= t2 ->
  Dict.get k (loaded_sessions t2 w) = Some s ->
  Dict.get k (loaded_sessions t1 w) = Some s.
Proof.
  unfold loaded_sessions. intros Hnd Hle.
  rewrite !cleanup_get_nodup by assumption.
  destruct (Dict.get k (stored_sessions w)) as [s0|]; [|discriminate].
  destruct (kept t2 s0) eqn:Hk; [|discriminate].
  now rewrite (kept_earlier t1 t2 s0 Hle Hk).
Qed.

Lemma load_sessions_antitone_witness :
  Dict.get "tok-b" (loaded_sessions 20 two_sessions_world)
  = Some (Session "tok-b" "u1" (Iso 20) (Iso 200) (Iso 20)
                  "10.0.0.7" "browser").
Proof.
  apply (load_sessions_antitone 20 150 two_sessions_world).
  - simpl. repeat constructor; simpl; intuition discriminate.
  - lia.
  - reflexivity.
Defined.
